(** * TexrayGAN: the training core of a two-stage StackGAN

    A shallow embedding of the parts of the repository that its
    specification talks about:

    - [shenanigan/utils/utils.py]: [kl_loss], [sample_normal],
      [extract_epoch_num];
    - [shenanigan/models/stackgan/stage1/model.py]: [GeneratorStage1];
    - [models/discriminators.py]: [DiscriminatorStage1.loss];
    - [shenanigan/models/stackgan/stage2/trainer.py]: [Stage2Trainer];
    - the learning-rate-decay callback, which [main.py] only imports.

    Conventions.  In the modules of the program a float32 scalar is an
    exact real number of [R]: rounding, overflow and NaN are outside that
    model, and what is proved on it holds over exact reals.  The module
    [Float32] gives [kl_loss] and [sample_normal] in binary32 arithmetic,
    where rounding and overflow decide what the program returns.  A tensor
    is its shape together with its values in row-major order.  Python exceptions are values of
    [Py.Error].  Mutable objects (the networks, their optimizers, the global
    random generator) live in an explicit store threaded through the
    trainer. *)

From Stdlib Require Import String Ascii DecimalString.
From Stdlib Require Import Reals Lra Lia Psatz ZArith Bool List ClassicalEpsilon.
Import ListNotations.
Local Open Scope R_scope.

(** ** Python values and exceptions *)

Module Py.

Inductive Error : Type :=
| AssertionError (msg : string)
| AttributeError (msg : string)
| UnboundLocalError (name : string)
| TypeError (msg : string)
| IndexError (msg : string)
| Exception (msg : string).

Inductive Result (A : Type) : Type :=
| Ok (a : A)
| Raise (e : Error).
Arguments Ok {A} a.
Arguments Raise {A} e.

Definition succeeded {A : Type} (r : Result A) : bool :=
  match r with Ok _ => true | Raise _ => false end.

(** A Python number that is either a plain [int] or an eager scalar tensor:
    the trainer's accumulators start as the [int] 0 and become tensors when
    a tensor is added. *)
Inductive Num : Type :=
| Int (z : Z)
| EagerTensor (r : R).

(** [float(x)] of a number. *)
Definition to_R (x : Num) : R :=
  match x with Int z => IZR z | EagerTensor r => r end.

(** [a + b]: two ints give an int, anything else an eager tensor. *)
Definition add (a b : Num) : Num :=
  match a, b with
  | Int x, Int y => Int (x + y)
  | _, _ => EagerTensor (to_R a + to_R b)
  end.

(** The builtin [sum(xs)], which starts from the int 0. *)
Definition sum (xs : list R) : Num :=
  fold_left (fun acc x => add acc (EagerTensor x)) xs (Int 0).

(** [x.numpy()]: only tensors have it. *)
Definition numpy (x : Num) : Result R :=
  match x with
  | EagerTensor r => Ok r
  | Int _ => Raise (AttributeError "'int' object has no attribute 'numpy'")
  end.

Definition bind {A B : Type} (r : Result A) (k : A -> Result B) : Result B :=
  match r with Ok a => k a | Raise e => Raise e end.

(** A list comprehension whose element expression may raise: elements are
    evaluated from left to right and the first exception ends it. *)
Fixpoint comprehension {A B : Type} (f : A -> Result B) (xs : list A)
  : Result (list B) :=
  match xs with
  | [] => Ok []
  | x :: xs' => bind (f x) (fun y => bind (comprehension f xs') (fun ys => Ok (y :: ys)))
  end.

(** [max(xs)] of a non-empty list of ints. *)
Definition max (x : Z) (xs : list Z) : Z := fold_left Z.max xs x.

End Py.

(** ** Python strings, as far as [extract_epoch_num] uses them *)

Module PyStr.

(** [needle in hay] *)
Fixpoint contains (needle hay : string) : bool :=
  if String.prefix needle hay then true
  else match hay with
       | EmptyString => false
       | String _ rest => contains needle rest
       end.

(** [s.split(sep)] for a one-character separator. *)
Fixpoint split (sep : ascii) (s : string) : list string :=
  match s with
  | EmptyString => [EmptyString]
  | String c rest =>
      if Ascii.eqb c sep then EmptyString :: split sep rest
      else match split sep rest with
           | [] => [String c EmptyString]
           | w :: ws => String c w :: ws
           end
  end.

(** [xs[-k]] for [k >= 1]. *)
Definition from_end {A : Type} (xs : list A) (k : nat) : option A :=
  nth_error (rev xs) (k - 1).

Definition is_digit (c : ascii) : bool :=
  (48 <=? nat_of_ascii c)%nat && (nat_of_ascii c <=? 57)%nat.

(** The longest prefix of [s] made of digits. *)
Fixpoint digits_prefix (s : string) : string :=
  match s with
  | EmptyString => EmptyString
  | String c rest => if is_digit c then String c (digits_prefix rest) else EmptyString
  end.

(** [re.search(r"\d+", s)]: the leftmost, longest run of digits, or [None].
    (Only ASCII digits are modelled.) *)
Fixpoint search_digits (s : string) : option string :=
  match s with
  | EmptyString => None
  | String c rest => if is_digit c then Some (digits_prefix s) else search_digits rest
  end.

(** [int(s)] of a string of digits. *)
Definition int (s : string) : Z :=
  fold_left (fun acc c => (10 * acc + (Z.of_nat (nat_of_ascii c) - 48))%Z)
            (list_ascii_of_string s) 0%Z.

Definition starts_with_dot (s : string) : bool := String.prefix "." s.

(** [glob(f"{directory}/*/")] when [entries] are the names of the
    sub-directories of [directory]: the wildcard skips hidden names and each
    match is spelled with the trailing separator. *)
Definition glob_subdirectories (directory : string) (entries : list string)
  : list string :=
  map (fun name => String.append directory
                     (String.append "/" (String.append name "/")))
      (filter (fun name => negb (starts_with_dot name)) entries).

End PyStr.

(** ** Tensors and the TensorFlow operations the code calls *)

Module TF.

Record Tensor : Type := mkTensor { shape : list nat; values : list R }.

(** [s == t] on shapes. *)
Fixpoint shape_eqb (s t : list nat) : bool :=
  match s, t with
  | [], [] => true
  | m :: s', n :: t' => (m =? n)%nat && shape_eqb s' t'
  | _, _ => false
  end.

Definition num_elements (s : list nat) : nat := fold_right Nat.mul 1%nat s.

Definition tmap (f : R -> R) (t : Tensor) : Tensor :=
  mkTensor (shape t) (map f (values t)).

Fixpoint zip_with (f : R -> R -> R) (xs ys : list R) : list R :=
  match xs, ys with
  | x :: xs', y :: ys' => f x y :: zip_with f xs' ys'
  | _, _ => []
  end.

(** Element-wise binary operation on two tensors of one shape (the code
    never relies on broadcasting between tensors). *)
Definition tzip (f : R -> R -> R) (a b : Tensor) : Tensor :=
  mkTensor (shape a) (zip_with f (values a) (values b)).

Definition same_shape (a b : Tensor) : Prop :=
  shape a = shape b /\ length (values a) = length (values b).

Definition ones_like (t : Tensor) : Tensor := tmap (fun _ => 1) t.
Definition zeros_like (t : Tensor) : Tensor := tmap (fun _ => 0) t.
Definition fill (s : list nat) (v : R) : Tensor :=
  mkTensor s (repeat v (num_elements s)).

Definition neg (t : Tensor) : Tensor := tmap Ropp t.
Definition scale (c : R) (t : Tensor) : Tensor := tmap (Rmult c) t.
Definition shift (c : R) (t : Tensor) : Tensor := tmap (Rplus c) t.
Definition texp (t : Tensor) : Tensor := tmap exp t.
Definition square (t : Tensor) : Tensor := tmap Rsqr t.
Definition tadd : Tensor -> Tensor -> Tensor := tzip Rplus.
Definition tmul : Tensor -> Tensor -> Tensor := tzip Rmult.

Definition total (xs : list R) : R := fold_right Rplus 0 xs.

(** [tf.reduce_mean] over all axes.  On an empty tensor TensorFlow yields
    NaN; statements about a mean therefore assume a non-empty tensor. *)
Definition reduce_mean (t : Tensor) : R :=
  total (values t) / INR (length (values t)).

(** [tf.nn.sigmoid_cross_entropy_with_logits], in the numerically stable
    form TensorFlow evaluates: max(x, 0) - x * z + log(1 + exp(-abs(x))). *)
Definition sigmoid_cross_entropy_with_logits (labels logits : Tensor) : Tensor :=
  tzip (fun z x => Rmax x 0 - x * z + ln (1 + exp (- Rabs x))) labels logits.

(** [tf.keras.losses.BinaryCrossentropy(from_logits=True)]: the mean over
    the last axis followed by the mean over the batch, which is the mean
    over all elements. *)
Definition BinaryCrossentropy (y_true y_pred : Tensor) : R :=
  reduce_mean (sigmoid_cross_entropy_with_logits y_true y_pred).

(** The logistic function and the textbook cross entropy of a target [z]
    against the probability [sigmoid x]. *)
Definition sigmoid (x : R) : R := / (1 + exp (- x)).
Definition cross_entropy (z x : R) : R :=
  - (z * ln (sigmoid x) + (1 - z) * ln (1 - sigmoid x)).

(** The process-wide random generator ([tf.random.set_seed] in [main.py])
    and [tf.random.normal], which draws a tensor of a given shape from it. *)
Class RandomGenerator : Type := {
  Rng : Type;
  random_normal : list nat -> Rng -> Tensor * Rng
}.

End TF.

(** ** shenanigan/utils/utils.py: numeric helpers *)

Module Utils.
Import TF.

Definition sample_normal `{RandomGenerator} (mean log_var : Tensor) (g : Rng)
  : Tensor * Rng :=
  let std := texp log_var in
  let (epsilon, g') := random_normal (shape mean) g in
  (tadd mean (tmul std epsilon), g').

Definition kl_loss (mean log_sigma : Tensor) : R :=
  let loss :=
    tadd (neg log_sigma)
         (scale 0.5 (tadd (shift (-1) (texp (scale 2.0 log_sigma)))
                          (square mean))) in
  reduce_mean loss.

(** The element of the second list comprehension of [extract_epoch_num]. *)
Definition checkpoint_number (candidate_dir : string) : Py.Result Z :=
  match PyStr.from_end (PyStr.split "/" candidate_dir) 2 with
  | None => Py.Raise (Py.IndexError "list index out of range")
  | Some name =>
      match PyStr.search_digits name with
      | None => Py.Raise (Py.TypeError "'NoneType' object is not subscriptable")
      | Some digits => Py.Ok (PyStr.int digits)
      end
  end.

(** [extract_epoch_num(results_dir)], where [entries] are the names of the
    sub-directories of [results_dir] on disk. *)
Definition extract_epoch_num (results_dir : string) (entries : list string)
  : Py.Result Z :=
  let candidate_dirs :=
    filter (fun directory => PyStr.contains "model" directory)
           (PyStr.glob_subdirectories results_dir entries) in
  match candidate_dirs with
  | [] => Py.Raise (Py.Exception
            (String.append "No candidate models found in '"
                           (String.append results_dir "'")))
  | _ :: _ =>
      Py.bind (Py.comprehension checkpoint_number candidate_dirs)
        (fun only_checkpoint_dirs =>
           match only_checkpoint_dirs with
           | [] => Py.Raise (Py.Exception "max() arg is an empty sequence")
           | n :: ns => Py.Ok (Py.max n ns)
           end)
  end.

End Utils.

(** ** The part of Keras the models rely on *)

Module Keras.
Import TF.

(** The state of a model object: its variables (weights and, for batch
    normalisation, moving statistics) and the losses registered with
    [add_loss]. *)
Record Layer : Type := mkLayer {
  trainable_variables : list R;
  non_trainable_variables : list R;
  losses : list R
}.

Definition add_loss (l : R) (self : Layer) : Layer :=
  mkLayer (trainable_variables self) (non_trainable_variables self)
          (losses self ++ [l]).

Definition clear_losses (self : Layer) : Layer :=
  mkLayer (trainable_variables self) (non_trainable_variables self) [].

Definition set_non_trainable (v : list R) (self : Layer) : Layer :=
  mkLayer (trainable_variables self) v (losses self).

Definition set_trainable (v : list R) (self : Layer) : Layer :=
  mkLayer v (non_trainable_variables self) (losses self).

(** A [call] method: from the object, the inputs, the [training] flag and
    the random generator to the outputs, the object and the generator. *)
Definition Call `{RandomGenerator} (I O : Type) : Type :=
  Layer -> I -> bool -> Rng -> O * Layer * Rng.

(** [model(inputs, training=...)]: the top-level [__call__] drops the
    losses of the previous forward pass and then runs [call]. *)
Definition invoke `{RandomGenerator} {I O : Type} (call : Call I O)
  : Call I O :=
  fun self inputs training g => call (clear_losses self) inputs training g.

(** [tf.keras.optimizers.Adam]: hyper-parameters, step count and moments. *)
Record Adam : Type := mkAdam {
  learning_rate : R;
  beta_1 : R;
  iterations : nat;
  moments : list (R * R)
}.

End Keras.

(** ** shenanigan/models/stackgan/stage1/model.py *)

Module Stage1.
Import TF Keras.

(** The layers [GeneratorStage1.build] creates, whose code is in
    [shenanigan/layers] and [shenanigan/models/stackgan/layers]:
    the conditioning augmentation, the stack from [dense_1] to [tanh]
    evaluated on [noise] and the smoothed embedding, and the moving
    statistics the batch normalisations of that stack compute when they run
    in training mode. *)
Class GeneratorLayers `{RandomGenerator} : Type := {
  conditional_augmentation :
    list R -> Tensor -> Rng -> Tensor * Tensor * Tensor * Rng;
  image_stack : list R -> list R -> bool -> Tensor -> Tensor -> Tensor;
  moving_statistics : list R -> list R -> Tensor -> Tensor -> list R
}.

Record GeneratorStage1 : Type := mkGeneratorStage1 {
  img_size : list Z;
  lr : R;
  num_output_channels : Z;
  conditional_emb_size : Z;
  kl_coeff : Z
}.

Definition channels_message (c : Z) : string :=
  String.append "The number of output channels must be 2 or 1. Found "
                (NilZero.string_of_int (Z.to_int c)).

(** [GeneratorStage1.__init__] *)
Definition init (img_size : list Z) (lr : R) (conditional_emb_size : Z)
  : Py.Result GeneratorStage1 :=
  match img_size with
  | [] => Py.Raise (Py.IndexError "tuple index out of range")
  | num_output_channels :: _ =>
      let kl_coeff := 2%Z in
      if (num_output_channels =? 3)%Z || (num_output_channels =? 1)%Z
      then Py.Ok (mkGeneratorStage1 img_size lr num_output_channels
                                    conditional_emb_size kl_coeff)
      else Py.Raise (Py.AssertionError (channels_message num_output_channels))
  end.

(** [GeneratorStage1.call] *)
Definition call `{GeneratorLayers} (this : GeneratorStage1)
  : Call (Tensor * Tensor) (Tensor * Tensor * Tensor) :=
  fun self inputs training g =>
    let '(embedding, noise) := inputs in
    let '(smoothed_embedding, mean, log_sigma, g') :=
      conditional_augmentation (trainable_variables self) embedding g in
    let x := image_stack (trainable_variables self)
                         (non_trainable_variables self)
                         training noise smoothed_embedding in
    let self :=
      if training
      then set_non_trainable
             (moving_statistics (trainable_variables self)
                                (non_trainable_variables self)
                                noise smoothed_embedding) self
      else self in
    let self := add_loss (IZR (kl_coeff this) * Utils.kl_loss mean log_sigma) self in
    ((x, mean, log_sigma), self, g').

End Stage1.

(** ** models/discriminators.py *)

Module Discriminators.
Import TF.

(** [DiscriminatorStage1.loss] *)
Definition loss (predictions_on_real predictions_on_wrong predictions_on_fake : Tensor)
  : R :=
  let real_loss :=
    reduce_mean (sigmoid_cross_entropy_with_logits
                   (ones_like predictions_on_real) predictions_on_real) in
  let wrong_loss :=
    reduce_mean (sigmoid_cross_entropy_with_logits
                   (zeros_like predictions_on_wrong) predictions_on_wrong) in
  let fake_loss :=
    reduce_mean (sigmoid_cross_entropy_with_logits
                   (zeros_like predictions_on_fake) predictions_on_fake) in
  let total_loss := real_loss + (wrong_loss + fake_loss) / 2 in
  total_loss.

End Discriminators.

(** ** shenanigan/models/stackgan/stage2/trainer.py *)

Module Stage2.
Import TF Keras.

(** What [tensors_from_sample] extracts from one element of the loader. *)
Record Batch : Type := mkBatch {
  batch_size : nat;
  image_large : Tensor;
  wrong_image_large : Tensor;
  text_tensor : Tensor
}.

Record Predictions : Type := mkPredictions {
  real_predictions : Tensor;
  wrong_predictions : Tensor;
  fake_predictions : Tensor
}.

(** The losses of one step, under the names of the local variables. *)
Record StepLosses : Type := mkStepLosses {
  generator_loss : R;
  discriminator_loss : R;
  kl_loss : Py.Num;
  disc_real_loss : R;
  disc_wrong_loss : R;
  disc_fake_loss : R
}.

Record Accumulators : Type := mkAccumulators {
  acc_generator_loss : Py.Num;
  acc_discriminator_loss : Py.Num;
  acc_kl_loss : Py.Num;
  acc_disc_real_loss : Py.Num;
  acc_disc_wrong_loss : Py.Num;
  acc_disc_fake_loss : Py.Num
}.

(** The dictionary an epoch returns, one field per key. *)
Record Report : Type := mkReport {
  report_generator_loss : R;
  report_discriminator_loss : R;
  report_kl_loss : R;
  report_discriminator_real_loss : R;
  report_discriminator_wrong_loss : R;
  report_discriminator_fake_loss : R
}.

Record Stage2Trainer : Type := mkStage2Trainer {
  show_progress_bar : bool;
  num_samples : nat;
  noise_size : nat;
  augment : bool;
  stage_1_generator : Stage1.GeneratorStage1
}.

Section Trainer.
Context `{RG : RandomGenerator} `{GL : !Stage1.GeneratorLayers}.

(** The mutable objects a trainer works on: [self.model.generator] and
    [self.model.discriminator] with their optimizers, the stage-1 generator
    restored by [load_model], and the random generator. *)
Record Store : Type := mkStore {
  model_generator : Layer;
  generator_optimizer : Adam;
  model_discriminator : Layer;
  discriminator_optimizer : Adam;
  stage_1_variables : Layer;
  rng : Rng
}.

(** The stage-2 networks ([stage2/model.py]), the derivative a gradient
    tape computes for the variables of a network from the store and batch
    it recorded, and the update rule of the optimizer. *)
Class Networks : Type := {
  generator_call : Call (Tensor * Tensor) Tensor;
  discriminator_call : Call (Tensor * Tensor) Tensor;
  generator_tape_gradient : Store -> Batch -> list R;
  discriminator_tape_gradient : Store -> Batch -> list R;
  apply_gradients : Adam -> list R -> list R -> list R * Adam
}.
Context `{NW : Networks}.

(** Statements that read or change the store and may raise. *)
Definition M (A : Type) : Type := Store -> Py.Result A * Store.

Definition ret {A : Type} (a : A) : M A := fun s => (Py.Ok a, s).

Definition raise {A : Type} (e : Py.Error) : M A := fun s => (Py.Raise e, s).

Definition bind {A B : Type} (m : M A) (k : A -> M B) : M B :=
  fun s => match m s with
           | (Py.Ok a, s') => k a s'
           | (Py.Raise e, s') => (Py.Raise e, s')
           end.

Notation "x <- m ;; k" := (bind m (fun x => k))
  (at level 61, m at next level, right associativity).
Notation "m ;;; k" := (bind m (fun _ => k))
  (at level 61, right associativity).

Definition get : M Store := fun s => (Py.Ok s, s).

Definition lift {A : Type} (r : Py.Result A) : M A := fun s => (r, s).

Definition assert (condition : bool) (msg : string) : M unit :=
  if condition then ret tt else raise (Py.AssertionError msg).

(** [tf.random.normal(shape)] *)
Definition tf_random_normal (sh : list nat) : M Tensor :=
  fun s => let (t, g) := random_normal sh (rng s) in
           (Py.Ok t,
            mkStore (model_generator s) (generator_optimizer s)
                    (model_discriminator s) (discriminator_optimizer s)
                    (stage_1_variables s) g).

(** [self.stage_1_generator(inputs, training=...)] *)
Definition call_stage_1_generator (self : Stage2Trainer)
  (inputs : Tensor * Tensor) (training : bool) : M (Tensor * Tensor * Tensor) :=
  fun s =>
    let '(out, layer, g) :=
      invoke (Stage1.call (stage_1_generator self))
             (stage_1_variables s) inputs training (rng s) in
    (Py.Ok out,
     mkStore (model_generator s) (generator_optimizer s)
             (model_discriminator s) (discriminator_optimizer s) layer g).

(** [self.model.generator(inputs, training=...)] *)
Definition call_generator (inputs : Tensor * Tensor) (training : bool)
  : M Tensor :=
  fun s =>
    let '(out, layer, g) :=
      invoke generator_call (model_generator s) inputs training (rng s) in
    (Py.Ok out,
     mkStore layer (generator_optimizer s)
             (model_discriminator s) (discriminator_optimizer s)
             (stage_1_variables s) g).

(** [self.model.discriminator(inputs, training=...)] *)
Definition call_discriminator (inputs : Tensor * Tensor) (training : bool)
  : M Tensor :=
  fun s =>
    let '(out, layer, g) :=
      invoke discriminator_call (model_discriminator s) inputs training (rng s) in
    (Py.Ok out,
     mkStore (model_generator s) (generator_optimizer s)
             layer (discriminator_optimizer s)
             (stage_1_variables s) g).

(** [self.model.generator.optimizer.apply_gradients(zip(gradients,
    self.model.generator.trainable_variables))] *)
Definition apply_generator_gradients (gradients : list R) : M unit :=
  fun s =>
    let (variables, optimizer) :=
      apply_gradients (generator_optimizer s) gradients
                      (trainable_variables (model_generator s)) in
    (Py.Ok tt,
     mkStore (set_trainable variables (model_generator s)) optimizer
             (model_discriminator s) (discriminator_optimizer s)
             (stage_1_variables s) (rng s)).

Definition apply_discriminator_gradients (gradients : list R) : M unit :=
  fun s =>
    let (variables, optimizer) :=
      apply_gradients (discriminator_optimizer s) gradients
                      (trainable_variables (model_discriminator s)) in
    (Py.Ok tt,
     mkStore (model_generator s) (generator_optimizer s)
             (set_trainable variables (model_discriminator s)) optimizer
             (stage_1_variables s) (rng s)).

Definition fakes_message : string :=
  "Real and fakes images must have the same dimensions".
Definition predictions_message : string :=
  "Real, wrong and fake image predictions must have the same dimensions".

(** The forward passes of one step, with both assertions: lines 77-109 of
    [train_epoch] with [training] true, lines 208-240 of [val_epoch] with
    [training] false.  The stage-1 generator runs with [training=False] in
    both. *)
Definition forward_pass (self : Stage2Trainer) (training : bool) (sample : Batch)
  : M Predictions :=
  noise_z <- tf_random_normal [batch_size sample; noise_size self] ;;
  outputs <- call_stage_1_generator self (text_tensor sample, noise_z) false ;;
  let fake_images_small := fst (fst outputs) in
  fake_images_large <-
    call_generator (fake_images_small, text_tensor sample) training ;;
  assert (shape_eqb (shape fake_images_large) (shape (image_large sample)))
         fakes_message ;;;
  real_predictions <-
    call_discriminator (image_large sample, text_tensor sample) training ;;
  wrong_predictions <-
    call_discriminator (wrong_image_large sample, text_tensor sample) training ;;
  fake_predictions <-
    call_discriminator (fake_images_large, text_tensor sample) training ;;
  assert (shape_eqb (shape real_predictions) (shape wrong_predictions)
          && shape_eqb (shape wrong_predictions) (shape fake_predictions))
         predictions_message ;;;
  ret (mkPredictions real_predictions wrong_predictions fake_predictions).

(** [kl_loss = sum(self.model.generator.losses)] *)
Definition retrieve_kl_loss : M Py.Num :=
  fun s => (Py.Ok (Py.sum (losses (model_generator s))), s).

(** The losses of one step from its predictions (lines 111-129 and
    242-260); [real_target] is the target of the real-image term. *)
Definition step_losses (real_target : Tensor) (p : Predictions) (kl_loss : Py.Num)
  : StepLosses :=
  let generator_loss :=
    BinaryCrossentropy (ones_like (fake_predictions p)) (fake_predictions p) in
  let generator_loss := generator_loss + Py.to_R kl_loss in
  let disc_real_loss := BinaryCrossentropy real_target (real_predictions p) in
  let disc_wrong_loss :=
    BinaryCrossentropy (zeros_like (wrong_predictions p)) (wrong_predictions p) in
  let disc_fake_loss :=
    BinaryCrossentropy (zeros_like (fake_predictions p)) (fake_predictions p) in
  let discriminator_loss :=
    disc_real_loss + 0.5 * disc_wrong_loss + 0.5 * disc_fake_loss in
  mkStepLosses generator_loss discriminator_loss kl_loss
               disc_real_loss disc_wrong_loss disc_fake_loss.

(** The body of the loop of [train_epoch]. *)
Definition train_step (self : Stage2Trainer) (sample : Batch) : M StepLosses :=
  tape <- get ;;
  p <- forward_pass self true sample ;;
  kl_loss <- retrieve_kl_loss ;;
  let l := step_losses (fill (shape (real_predictions p)) 0.9) p kl_loss in
  let generator_gradients := generator_tape_gradient tape sample in
  let discriminator_gradients := discriminator_tape_gradient tape sample in
  apply_generator_gradients generator_gradients ;;;
  apply_discriminator_gradients discriminator_gradients ;;;
  ret l.

(** The body of the loop of [val_epoch]. *)
Definition val_step (self : Stage2Trainer) (sample : Batch) : M StepLosses :=
  p <- forward_pass self false sample ;;
  kl_loss <- retrieve_kl_loss ;;
  ret (step_losses (ones_like (real_predictions p)) p kl_loss).

Definition initial_accumulators : Accumulators :=
  mkAccumulators (Py.Int 0) (Py.Int 0) (Py.Int 0) (Py.Int 0) (Py.Int 0) (Py.Int 0).

(** The six [acc_... += ...] statements. *)
Definition accumulate (acc : Accumulators) (l : StepLosses) : Accumulators :=
  mkAccumulators
    (Py.add (acc_generator_loss acc) (Py.EagerTensor (generator_loss l)))
    (Py.add (acc_discriminator_loss acc) (Py.EagerTensor (discriminator_loss l)))
    (Py.add (acc_kl_loss acc) (kl_loss l))
    (Py.add (acc_disc_real_loss acc) (Py.EagerTensor (disc_real_loss l)))
    (Py.add (acc_disc_wrong_loss acc) (Py.EagerTensor (disc_wrong_loss l)))
    (Py.add (acc_disc_fake_loss acc) (Py.EagerTensor (disc_fake_loss l))).

(** [for batch_idx, sample in enumerate(loader.parsed_subset)]: [next_idx]
    is the index of the next element, [batch_idx] the loop variable, which
    is unbound ([None]) until the first iteration. *)
Fixpoint epoch_loop (step : Batch -> M StepLosses) (samples : list Batch)
  (next_idx : nat) (acc : Accumulators) (batch_idx : option nat)
  : M (Accumulators * option nat) :=
  match samples with
  | [] => ret (acc, batch_idx)
  | sample :: rest =>
      l <- step sample ;;
      epoch_loop step rest (S next_idx) (accumulate acc l) (Some next_idx)
  end.

(** [np.asscalar(acc.numpy()) / (batch_idx + 1)] *)
Definition epoch_mean (acc : Py.Num) (batch_idx : option nat) : Py.Result R :=
  Py.bind (Py.numpy acc) (fun total =>
    match batch_idx with
    | None => Py.Raise (Py.UnboundLocalError "batch_idx")
    | Some i => Py.Ok (total / INR (i + 1))
    end).

(** The dictionary display of the [return] statement, evaluated in order. *)
Definition epoch_report (acc : Accumulators) (batch_idx : option nat)
  : Py.Result Report :=
  Py.bind (epoch_mean (acc_generator_loss acc) batch_idx) (fun g =>
  Py.bind (epoch_mean (acc_discriminator_loss acc) batch_idx) (fun d =>
  Py.bind (epoch_mean (acc_kl_loss acc) batch_idx) (fun k =>
  Py.bind (epoch_mean (acc_disc_real_loss acc) batch_idx) (fun r =>
  Py.bind (epoch_mean (acc_disc_wrong_loss acc) batch_idx) (fun w =>
  Py.bind (epoch_mean (acc_disc_fake_loss acc) batch_idx) (fun f =>
  Py.Ok (mkReport g d k r w f))))))).

Definition run_epoch (step : Batch -> M StepLosses) (samples : list Batch)
  : M Report :=
  locals <- epoch_loop step samples 0 initial_accumulators None ;;
  lift (epoch_report (fst locals) (snd locals)).

Definition train_epoch (self : Stage2Trainer) (train_loader : list Batch)
  : M Report :=
  run_epoch (train_step self) train_loader.

Definition val_epoch (self : Stage2Trainer) (val_loader : list Batch)
  : M Report :=
  run_epoch (val_step self) val_loader.

End Trainer.

End Stage2.

(** ** The learning-rate-decay callback *)

Module Callbacks.
Import Keras.

(** Modelled from the spec: [utils/callbacks.py], from which [main.py]
    imports [LearningRateDecay], is not among the sources.  The callback
    holds a decay factor and a period in epochs; called with an epoch
    number, it multiplies the learning rate of each network's optimizer by
    the factor when the epoch is a positive multiple of the period, and it
    remembers the last epoch it fired on so that a second call with the same
    epoch changes nothing. *)
Record LearningRateDecay : Type := mkLearningRateDecay {
  decay_factor : R;
  every_n : nat;
  last_fired : option nat
}.

Definition positive_multiple (epoch period : nat) : bool :=
  (0 <? epoch)%nat && (0 <? period)%nat && (epoch mod period =? 0)%nat.

Definition fired_on (self : LearningRateDecay) (epoch : nat) : bool :=
  match last_fired self with
  | Some e => (e =? epoch)%nat
  | None => false
  end.

Definition decayed (factor : R) (optimizer : Adam) : Adam :=
  mkAdam (learning_rate optimizer * factor) (beta_1 optimizer)
         (iterations optimizer) (moments optimizer).

(** Modelled from the spec: the hook the trainer calls after each epoch with
    the optimizers of the generator and of the discriminator. *)
Definition on_epoch_end (self : LearningRateDecay) (epoch : nat)
  (optimizers : Adam * Adam) : LearningRateDecay * (Adam * Adam) :=
  if positive_multiple epoch (every_n self) && negb (fired_on self epoch)
  then (mkLearningRateDecay (decay_factor self) (every_n self) (Some epoch),
        (decayed (decay_factor self) (fst optimizers),
         decayed (decay_factor self) (snd optimizers)))
  else (self, optimizers).

(** The hook called once for each epoch of a list, in order. *)
Definition run_epochs (self : LearningRateDecay) (epochs : list nat)
  (optimizers : Adam * Adam) : LearningRateDecay * (Adam * Adam) :=
  fold_left (fun state epoch => on_epoch_end (fst state) epoch (snd state))
            epochs (self, optimizers).

End Callbacks.

(** ** Python builtins used by the list helpers *)

Module Builtins.

(** The exceptions the helpers can raise: [ValueError] ([range] with a zero
    step, [max] of an empty sequence), [ZeroDivisionError] and
    [IndexError]. *)
Inductive Error : Type :=
| ValueError
| ZeroDivisionError
| IndexError.

Inductive Result (A : Type) : Type :=
| Ok (a : A)
| Raise (e : Error).
Arguments Ok {A} a.
Arguments Raise {A} e.

(** The position a slice bound [i] denotes in a sequence of length [n]: a
    negative bound counts from the end, and every bound is clamped to the
    sequence. *)
Definition slice_index (n : nat) (i : Z) : nat :=
  if (i <? 0)%Z then Z.to_nat (Z.of_nat n + i) else Nat.min (Z.to_nat i) n.

(** [xs[:i]] and [xs[i:]] *)
Definition slice_to {A : Type} (xs : list A) (i : Z) : list A :=
  firstn (slice_index (length xs) i) xs.
Definition slice_from {A : Type} (xs : list A) (i : Z) : list A :=
  skipn (slice_index (length xs) i) xs.

(** [xs[i:j]] for bounds that are not negative. *)
Definition slice {A : Type} (xs : list A) (i j : nat) : list A :=
  firstn (j - i) (skipn i xs).

(** [range(0, stop, step)] for a [stop] that is not negative. *)
Definition range (stop : nat) (step : Z) : Result (list nat) :=
  if (step =? 0)%Z then Raise ValueError
  else if (step <? 0)%Z then Ok []
  else Ok (map (fun k => (k * Z.to_nat step)%nat)
               (seq 0 ((stop + Z.to_nat step - 1) / Z.to_nat step))).

End Builtins.

(** ** shenanigan/utils/utils.py: list and path helpers *)

Module Helpers.
Import Builtins.

(** [list(chunks(unchuncked_list, n))] *)
Definition chunks {A : Type} (unchuncked_list : list A) (n : Z)
  : Result (list (list A)) :=
  match range (length unchuncked_list) n with
  | Raise e => Raise e
  | Ok indices =>
      Ok (map (fun i => slice unchuncked_list i (i + Z.to_nat n)) indices)
  end.

(** [chunk_list]: the last chunk is extended in place with the elements from
    [end_point] on. *)
Definition chunk_list {A : Type} (unchuncked_list : list A)
  (samples_per_shard end_point : Z) : Result (list (list A)) :=
  match chunks (slice_to unchuncked_list end_point) samples_per_shard with
  | Raise e => Raise e
  | Ok chunked_list =>
      match rev chunked_list with
      | [] => Raise IndexError
      | last :: front =>
          Ok (rev front ++ [last ++ slice_from unchuncked_list end_point])
      end
  end.

(** [product_list] on integers. *)
Definition product_list (num_list : list Z) : Z :=
  fold_left (fun product dim => (product * dim)%Z) num_list 1%Z.

(** [normalise]: [max] and [min] need an element, and the division raises
    when all elements are equal. *)
Definition normalise (num_list : list R) : Result (list R) :=
  match num_list with
  | [] => Raise ValueError
  | x :: xs =>
      let max_x := fold_left Rmax xs x in
      let min_x := fold_left Rmin xs x in
      if Req_dec_T (max_x - min_x) 0 then Raise ZeroDivisionError
      else Ok (map (fun x => (x - min_x) / (max_x - min_x)) num_list)
  end.

Definition slash : ascii := ascii_of_nat 47.
Definition backslash : ascii := ascii_of_nat 92.

(** [s.replace(old, new)] for one-character [old] and [new]. *)
Fixpoint replace_char (old new : ascii) (s : string) : string :=
  match s with
  | EmptyString => EmptyString
  | String c rest =>
      String (if Ascii.eqb c old then new else c) (replace_char old new rest)
  end.

(** [format_for_windows] *)
Definition format_for_windows (path_string : string) : string :=
  replace_char slash backslash path_string.

End Helpers.

(** ** Float32 arithmetic

    The tensors of the program hold IEEE binary32 numbers.  A finite number
    is the real it denotes (the two zeros are not told apart); an operation
    returns the exact result rounded to a nearest representable number,
    which of two equally near ones being left open, or an infinity when the
    exact result is beyond the range.  [exp] is taken to be correctly
    rounded. *)

Module Float32.

Inductive F32 : Type :=
| Fin (x : R)
| PInf
| NInf
| NaN.

(** The reals that binary32 represents: [m * 2^e] with a 24-bit [m]. *)
Definition representable (y : R) : Prop :=
  exists m e : Z,
    y = IZR m * powerRZ 2 e /\ (Z.abs m < 2 ^ 24)%Z /\ (-149 <= e <= 104)%Z.

(** Halfway between the largest finite number and 2^128: an exact result of
    at least this magnitude rounds to an infinity. *)
Definition overflow : R := IZR (2 ^ 128 - 2 ^ 103).

Definition nearest (x y : R) : Prop :=
  representable y /\ forall z, representable z -> Rabs (x - y) <= Rabs (x - z).

Definition rounds (x : R) (f : F32) : Prop :=
  (overflow <= x /\ f = PInf)
  \/ (x <= - overflow /\ f = NInf)
  \/ (- overflow < x < overflow /\ exists y, nearest x y /\ f = Fin y).

Definition round (x : R) : F32 := epsilon (inhabits NaN) (rounds x).

Definition neg (a : F32) : F32 :=
  match a with
  | Fin x => Fin (- x)
  | PInf => NInf
  | NInf => PInf
  | NaN => NaN
  end.

Definition add (a b : F32) : F32 :=
  match a, b with
  | NaN, _ | _, NaN => NaN
  | Fin x, Fin y => round (x + y)
  | PInf, NInf | NInf, PInf => NaN
  | PInf, _ | _, PInf => PInf
  | NInf, _ | _, NInf => NInf
  end.

(** The product of an infinity and a finite number. *)
Definition scale_infinity (positive : bool) (x : R) : F32 :=
  match total_order_T x 0 with
  | inleft (left _) => if positive then NInf else PInf
  | inleft (right _) => NaN
  | inright _ => if positive then PInf else NInf
  end.

Definition mul (a b : F32) : F32 :=
  match a, b with
  | NaN, _ | _, NaN => NaN
  | Fin x, Fin y => round (x * y)
  | PInf, Fin x | Fin x, PInf => scale_infinity true x
  | NInf, Fin x | Fin x, NInf => scale_infinity false x
  | PInf, PInf | NInf, NInf => PInf
  | PInf, NInf | NInf, PInf => NaN
  end.

(** The quotient by a count, which is finite and not negative. *)
Definition div_count (a : F32) (count : R) : F32 :=
  match a with
  | NaN => NaN
  | Fin x =>
      if Req_dec_T count 0 then scale_infinity true x else round (x / count)
  | PInf => PInf
  | NInf => NInf
  end.

Definition exp (a : F32) : F32 :=
  match a with
  | Fin x => round (Rtrigo_def.exp x)
  | PInf => PInf
  | NInf => Fin 0
  | NaN => NaN
  end.

(** A tensor by its values in row-major order. *)
Definition Tensor32 : Type := list F32.

Fixpoint zip_with (f : F32 -> F32 -> F32) (xs ys : Tensor32) : Tensor32 :=
  match xs, ys with
  | x :: xs', y :: ys' => f x y :: zip_with f xs' ys'
  | _, _ => []
  end.

(** [tf.reduce_mean]: the sum of the elements by the number of elements. *)
Definition reduce_mean (t : Tensor32) : F32 :=
  div_count (fold_left add t (Fin 0)) (INR (length t)).

(** [kl_loss] of [shenanigan/utils/utils.py], in binary32. *)
Definition kl_loss (mean log_sigma : Tensor32) : F32 :=
  let loss :=
    zip_with add (map neg log_sigma)
      (map (mul (Fin 0.5))
         (zip_with add
            (map (add (Fin (-1))) (map exp (map (mul (Fin 2.0)) log_sigma)))
            (map (fun m => mul m m) mean))) in
  reduce_mean loss.

(** [sample_normal] of [shenanigan/utils/utils.py], in binary32, given the
    draw [epsilon] of [tf.random.normal]. *)
Definition sample_normal (mean log_var epsilon : Tensor32) : Tensor32 :=
  let std := map exp log_var in
  zip_with add mean (zip_with mul std epsilon).

End Float32.

(** * Definitions used to state the properties *)

Import TF.

(** The element of the tensor that [kl_loss] averages. *)
Definition kl_term (s m : R) : R := - s + 0.5 * (-1 + exp (2 * s) + m * m).

(** Whether a number is an eager tensor. *)
Definition is_tensor (x : Py.Num) : bool :=
  match x with Py.EagerTensor _ => true | Py.Int _ => false end.

Section Stage2Statements.
Context `{RG : RandomGenerator} `{GL : !Stage1.GeneratorLayers}
        `{NW : !Stage2.Networks}.
Import Stage2.

(** The variables of the stage-1 generator are the same in both stores. *)
Definition stage_1_frame (s s' : Store) : Prop :=
  Keras.trainable_variables (stage_1_variables s')
    = Keras.trainable_variables (stage_1_variables s)
  /\ Keras.non_trainable_variables (stage_1_variables s')
     = Keras.non_trainable_variables (stage_1_variables s).

Definition keeps_stage_1 {A : Type} (m : M A) : Prop :=
  forall s, stage_1_frame s (snd (m s)).

(** The trace of an epoch: the losses of its steps, in order. *)
Fixpoint run_steps (step : Batch -> M StepLosses) (samples : list Batch)
  : M (list StepLosses) :=
  match samples with
  | [] => ret []
  | sample :: rest =>
      bind (step sample) (fun l =>
      bind (run_steps step rest) (fun ls => ret (l :: ls)))
  end.

(** The sum of one component over the steps, divided by their number. *)
Definition batch_mean (component : StepLosses -> R) (ls : list StepLosses) : R :=
  total (map component ls) / INR (length ls).

Definition mean_report (ls : list StepLosses) : Report :=
  mkReport (batch_mean generator_loss ls)
           (batch_mean discriminator_loss ls)
           (batch_mean (fun l => Py.to_R (kl_loss l)) ls)
           (batch_mean disc_real_loss ls)
           (batch_mean disc_wrong_loss ls)
           (batch_mean disc_fake_loss ls).

(** The value of the loop variable after [n] iterations that started at
    index [next_idx]. *)
Definition last_index (next_idx : nat) (batch_idx : option nat) (n : nat)
  : option nat :=
  match n with
  | O => batch_idx
  | S k => Some (next_idx + k)%nat
  end.

(** Every forward pass of the stage-2 generator registers a loss. *)
Definition registers_a_loss : Prop :=
  forall (self : Keras.Layer) (inputs : Tensor * Tensor) (training : bool) (g : Rng),
    Keras.losses (snd (fst (generator_call self inputs training g))) <> [].

Definition triple {A : Type} (P : Store -> Prop) (m : M A) (Q : Store -> Prop)
  : Prop :=
  forall s a s', P s -> m s = (Py.Ok a, s') -> Q s'.

Definition has_loss (s : Store) : Prop := Keras.losses (model_generator s) <> [].

End Stage2Statements.

(** ** Concrete inputs *)


(** A generator that always draws zeros, and layers that pass their input
    on: concrete instances on which the statements can be evaluated. *)
#[local] Instance zero_noise : RandomGenerator :=
  {| Rng := nat; random_normal := fun sh g => (fill sh 0, S g) |}.

#[local] Instance identity_layers : Stage1.GeneratorLayers :=
  {| Stage1.conditional_augmentation := fun _ embedding g =>
       (embedding, embedding, embedding, g);
     Stage1.image_stack := fun _ _ _ _ smoothed_embedding => smoothed_embedding;
     Stage1.moving_statistics := fun _ moving _ _ => moving |}.

Definition stale_layer : Keras.Layer := Keras.mkLayer [1; 2] [3] [7; 7].

#[local] Instance identity_networks : Stage2.Networks :=
  {| Stage2.generator_call := fun self inputs _ g =>
       (fst inputs, Keras.add_loss 0 self, g);
     Stage2.discriminator_call := fun self inputs _ g => (fst inputs, self, g);
     Stage2.generator_tape_gradient := fun _ _ => [];
     Stage2.discriminator_tape_gradient := fun _ _ => [];
     Stage2.apply_gradients := fun optimizer _ variables => (variables, optimizer) |}.

Definition trainer_0 : Stage2.Stage2Trainer :=
  Stage2.mkStage2Trainer true 1 100 false
    (Stage1.mkGeneratorStage1 [3; 64; 64]%Z 2e-4 3 128 2).

Definition logit (x : R) : Tensor := mkTensor [1%nat; 1%nat] [x].

(** A batch of one sample whose real image the identity discriminator maps
    to the logit 1, the wrong and the fake image to the logit 0. *)
Definition batch_0 : Stage2.Batch := Stage2.mkBatch 1 (logit 1) (logit 0) (logit 0).

Definition store_0 : Stage2.Store :=
  Stage2.mkStore (Keras.mkLayer [] [] []) (Keras.mkAdam 2e-4 0.5 0 [])
                 (Keras.mkLayer [] [] []) (Keras.mkAdam 2e-4 0.5 0 [])
                 stale_layer 0%nat.

Definition predictions_0 : Stage2.Predictions :=
  Stage2.mkPredictions (logit 1) (logit 0) (logit 0).

Definition optimizers_0 : Keras.Adam * Keras.Adam :=
  (Keras.mkAdam 1e-3 0.5 0 [], Keras.mkAdam 1e-3 0.5 0 []).

Definition decay_0 : Callbacks.LearningRateDecay :=
  Callbacks.mkLearningRateDecay 0.5 5 None.

(** The learning rates of the two optimizers after the hook has run. *)
Definition rates (state : Callbacks.LearningRateDecay * (Keras.Adam * Keras.Adam))
  : R * R :=
  (Keras.learning_rate (fst (snd state)), Keras.learning_rate (snd (snd state))).

(** ** Definitions used to state the further properties *)






Section Stage2FurtherStatements.
Context `{RG : RandomGenerator} `{GL : !Stage1.GeneratorLayers}
        `{NW : !Stage2.Networks}.
Import Stage2.

(** The two optimizers of a store. *)
Definition optimizers (s : Store) : Keras.Adam * Keras.Adam :=
  (generator_optimizer s, discriminator_optimizer s).

(** A statement that leaves the optimizers as they are, however it ends. *)
Definition keeps_optimizers {A : Type} (m : M A) : Prop :=
  forall s, optimizers (snd (m s)) = optimizers s.

(** A statement that raises nothing but one of the two shape assertions. *)
Definition shape_assertion (e : Py.Error) : Prop :=
  e = Py.AssertionError fakes_message \/ e = Py.AssertionError predictions_message.

Definition raises_only_assertions {A : Type} (m : M A) : Prop :=
  forall s e s', m s = (Py.Raise e, s') -> shape_assertion e.

(** The relation between the discriminator's entries of a report. *)
Definition weights_hold (r : Report) : Prop :=
  report_discriminator_loss r
  = report_discriminator_real_loss r
    + 0.5 * report_discriminator_wrong_loss r
    + 0.5 * report_discriminator_fake_loss r.

End Stage2FurtherStatements.

(** A batch whose real image has another shape than the images the
    generator produces. *)
Definition batch_mismatched : Stage2.Batch :=
  Stage2.mkBatch 1 (mkTensor [2%nat; 1%nat] [1; 1]) (logit 0) (logit 0).

(** Inputs on which the further properties are evaluated. *)
Definition five_numbers : list Z := [1; 2; 3; 4; 5]%Z.

Definition checkpoint_entries : list string :=
  ["model_1"; "model_3"; "model_10"; "viz"]%string.

(** ** Definitions used to state the properties of a step and of an epoch *)

Section Stage2PassStatements.
Context `{RG : RandomGenerator} `{GL : !Stage1.GeneratorLayers}
        `{NW : !Stage2.Networks}.
Import Stage2.

(** The forward passes of a step that lead from the store [s] to the
    predictions [p] and the store [s1]: the noise is drawn, the stage-1
    generator makes the small fake images in inference mode, the generator
    makes the large fake images from them, and the discriminator is called,
    in this order, on the real images, on the wrong images and on those fake
    images, each with the text embedding; both shape assertions hold. *)
Definition forward_passes (self : Stage2Trainer) (training : bool)
  (sample : Batch) (s : Store) (p : Predictions) (s1 : Store) : Prop :=
  exists noise_z sa outputs sb fake_images_large sc sd se,
    tf_random_normal [batch_size sample; noise_size self] s = (Py.Ok noise_z, sa)
    /\ call_stage_1_generator self (text_tensor sample, noise_z) false sa
       = (Py.Ok outputs, sb)
    /\ call_generator (fst (fst outputs), text_tensor sample) training sb
       = (Py.Ok fake_images_large, sc)
    /\ shape_eqb (shape fake_images_large) (shape (image_large sample)) = true
    /\ call_discriminator (image_large sample, text_tensor sample) training sc
       = (Py.Ok (real_predictions p), sd)
    /\ call_discriminator (wrong_image_large sample, text_tensor sample) training sd
       = (Py.Ok (wrong_predictions p), se)
    /\ call_discriminator (fake_images_large, text_tensor sample) training se
       = (Py.Ok (fake_predictions p), s1)
    /\ shape_eqb (shape (real_predictions p)) (shape (wrong_predictions p))
       && shape_eqb (shape (wrong_predictions p)) (shape (fake_predictions p))
       = true.

(** The forward pass of [self.model.generator] in a step that starts in the
    store [s]: the inputs it is called on, the layer it is called on, whose
    losses the call has dropped, and the random generator at that point. *)
Definition generator_pass (self : Stage2Trainer) (sample : Batch) (s : Store)
  (inputs : Tensor * Tensor) (layer : Keras.Layer) (g : Rng) : Prop :=
  exists noise_z sa outputs sb,
    tf_random_normal [batch_size sample; noise_size self] s = (Py.Ok noise_z, sa)
    /\ call_stage_1_generator self (text_tensor sample, noise_z) false sa
       = (Py.Ok outputs, sb)
    /\ inputs = (fst (fst outputs), text_tensor sample)
    /\ layer = Keras.clear_losses (model_generator sb)
    /\ g = rng sb.


End Stage2PassStatements.



(** * Properties *)

(** ** Lists and tensors *)

Lemma total_nonneg (xs : list R) :
  Forall (fun x => 0 <= x) xs -> 0 <= total xs.
Proof.
  induction 1 as [| x xs Hx _ IH]; simpl; lra.
Qed.

Lemma total_zero (xs : list R) :
  Forall (fun x => x = 0) xs -> total xs = 0.
Proof.
  induction 1 as [| x xs Hx _ IH]; simpl; lra.
Qed.

Lemma INR_length_pos {A : Type} (xs : list A) : xs <> [] -> 0 < INR (length xs).
Proof.
  destruct xs as [| x xs]; [congruence |].
  intros _. apply lt_0_INR. simpl. lia.
Qed.

Lemma zip_with_length (f : R -> R -> R) (xs ys : list R) :
  length xs = length ys -> length (zip_with f xs ys) = length xs.
Proof.
  revert ys; induction xs as [| x xs IH]; intros [| y ys]; simpl; intros H;
    try reflexivity; try discriminate.
  f_equal. apply IH. lia.
Qed.

Lemma zip_with_Forall (P : R -> Prop) (f : R -> R -> R) (xs ys : list R) :
  (forall x y, In x xs -> In y ys -> P (f x y)) -> Forall P (zip_with f xs ys).
Proof.
  revert ys; induction xs as [| x xs IH]; intros [| y ys] H; simpl;
    constructor.
  - apply H; simpl; auto.
  - apply IH. intros a b Ha Hb. apply H; simpl; auto.
Qed.

(** ** [kl_loss] *)

Lemma kl_term_nonneg (s m : R) : 0 <= kl_term s m.
Proof.
  unfold kl_term.
  pose proof (exp_ineq1_le (2 * s)) as He.
  pose proof (Rle_0_sqr m) as Hm. unfold Rsqr in Hm.
  lra.
Qed.

Lemma kl_term_zero : kl_term 0 0 = 0.
Proof.
  unfold kl_term. rewrite Rmult_0_r, exp_0. lra.
Qed.

Lemma kl_loss_values (mean log_sigma : Tensor) :
  Utils.kl_loss mean log_sigma =
  total (zip_with kl_term (values log_sigma) (values mean))
  / INR (length (zip_with kl_term (values log_sigma) (values mean))).
Proof.
  unfold Utils.kl_loss, reduce_mean, tadd, neg, scale, shift, texp, square,
    tzip, tmap; simpl.
  assert (E : forall ls ms,
    zip_with Rplus (map Ropp ls)
      (map (Rmult 0.5)
         (zip_with Rplus (map (Rplus (-1)) (map exp (map (Rmult 2.0) ls)))
            (map Rsqr ms))) = zip_with kl_term ls ms).
  { induction ls as [| s ls IH]; intros [| m ms]; simpl; try reflexivity.
    f_equal; [| apply IH].
    unfold kl_term, Rsqr. replace (2.0 * s) with (2 * s) by lra. reflexivity. }
  rewrite E. reflexivity.
Qed.

(** Over exact reals: on tensors of one shape with at least one element,
    [kl_loss] is the
    mean of [-log_sigma + 0.5 * (-1 + exp(2 * log_sigma) + mean^2)]; it is 0
    when every mean and every log-sigma is 0, and it is never negative. *)
Theorem kl_loss_zero_and_nonneg (mean log_sigma : Tensor) :
  length (values mean) = length (values log_sigma) ->
  values mean <> [] ->
  Utils.kl_loss mean log_sigma =
    total (zip_with kl_term (values log_sigma) (values mean))
    / INR (length (values mean))
  /\ (Forall (fun v => v = 0) (values mean) ->
      Forall (fun v => v = 0) (values log_sigma) ->
      Utils.kl_loss mean log_sigma = 0)
  /\ 0 <= Utils.kl_loss mean log_sigma.
Proof.
  intros Hlen Hne.
  rewrite kl_loss_values, zip_with_length by (symmetry; exact Hlen).
  rewrite <- Hlen.
  pose proof (INR_length_pos _ Hne) as Hpos.
  split; [reflexivity | split].
  - intros Hm Hs.
    rewrite total_zero; [unfold Rdiv; apply Rmult_0_l |].
    apply zip_with_Forall. intros s m Hin_s Hin_m.
    rewrite Forall_forall in Hm, Hs.
    rewrite (Hm _ Hin_m), (Hs _ Hin_s). apply kl_term_zero.
  - apply Rmult_le_pos.
    + apply total_nonneg, zip_with_Forall. intros; apply kl_term_nonneg.
    + left. apply Rinv_0_lt_compat, Hpos.
Qed.

(** ** [sample_normal] *)

Lemma zip_with_zero_noise (ms ss : list R) :
  length ms = length ss ->
  zip_with Rplus ms (zip_with Rmult (map exp ss) (map (fun _ => 0) ms)) = ms.
Proof.
  revert ss; induction ms as [| m ms IH]; intros [| s ss] H; simpl;
    try reflexivity; try discriminate.
  f_equal; [lra | apply IH; simpl in H; lia].
Qed.

Section SampleNormal.
Context `{RG : RandomGenerator}.

(** What [sample_normal] returns as a function of the noise drawn. *)
Lemma sample_normal_draw (mean log_var epsilon : Tensor) (g g' : Rng) :
  random_normal (shape mean) g = (epsilon, g') ->
  Utils.sample_normal mean log_var g =
  (mkTensor (shape mean)
     (zip_with Rplus (values mean)
        (zip_with Rmult (map exp (values log_var)) (values epsilon))), g').
Proof.
  intros H. unfold Utils.sample_normal. rewrite H. reflexivity.
Qed.

(** Over exact reals: the sample is [mean + exp(log_sigma) * noise], so that
    two runs whose
    generators yield the same noise return the same sample, and a draw of
    zeros returns [mean] itself. *)
Theorem sample_normal_deterministic_and_zero_noise
  (mean log_var epsilon : Tensor) (g1 g1' g2 g2' : Rng) :
  same_shape mean log_var ->
  random_normal (shape mean) g1 = (epsilon, g1') ->
  random_normal (shape mean) g2 = (epsilon, g2') ->
  fst (Utils.sample_normal mean log_var g1)
    = tadd mean (tmul (texp log_var) epsilon)
  /\ fst (Utils.sample_normal mean log_var g1)
     = fst (Utils.sample_normal mean log_var g2)
  /\ (epsilon = zeros_like mean ->
      fst (Utils.sample_normal mean log_var g1) = mean).
Proof.
  intros [Hshape Hlen] H1 H2.
  rewrite (sample_normal_draw _ log_var _ _ _ H1),
          (sample_normal_draw _ log_var _ _ _ H2).
  simpl. repeat split.
  intros ->. unfold zeros_like, tmap; simpl.
  rewrite zip_with_zero_noise by exact Hlen.
  destruct mean; reflexivity.
Qed.

End SampleNormal.

(** ** [GeneratorStage1] *)

(** C4: constructing the stage-1 generator succeeds when the first element
    of [img_size] is 1 or 3, and raises the assertion's error for any other
    number of channels. *)
Theorem generator_init_channels (c : Z) (rest : list Z) (lr : R) (emb : Z) :
  (c = 1%Z \/ c = 3%Z ->
   Stage1.init (c :: rest) lr emb
   = Py.Ok (Stage1.mkGeneratorStage1 (c :: rest) lr c emb 2))
  /\ (c <> 1%Z -> c <> 3%Z ->
      Stage1.init (c :: rest) lr emb
      = Py.Raise (Py.AssertionError (Stage1.channels_message c))).
Proof.
  unfold Stage1.init. split.
  - intros [-> | ->]; reflexivity.
  - intros H1 H3.
    destruct (Z.eqb_spec c 3) as [E | _]; [contradiction |].
    destruct (Z.eqb_spec c 1) as [E | _]; [contradiction |].
    reflexivity.
Qed.

Lemma generator_init_channels_witness :
  Py.succeeded (Stage1.init [3; 64; 64]%Z 2e-4 128) = true
  /\ Py.succeeded (Stage1.init [1; 64; 64]%Z 2e-4 128) = true
  /\ Py.succeeded (Stage1.init [2; 64; 64]%Z 2e-4 128) = false.
Proof.
  split; [| split].
  - rewrite (proj1 (generator_init_channels 3 [64; 64]%Z 2e-4 128));
      [reflexivity | right; reflexivity].
  - rewrite (proj1 (generator_init_channels 1 [64; 64]%Z 2e-4 128));
      [reflexivity | left; reflexivity].
  - rewrite (proj2 (generator_init_channels 2 [64; 64]%Z 2e-4 128));
      [reflexivity | discriminate | discriminate].
Defined.


Section Stage1Call.
Context `{RG : RandomGenerator} `{GL : !Stage1.GeneratorLayers}.


End Stage1Call.

(** ** The cross entropy on logits *)

Lemma ln_one_plus_exp_neg (x : R) : ln (1 + exp (- x)) = - x + ln (1 + exp x).
Proof.
  assert (Hpos : 0 < exp x) by apply exp_pos.
  assert (Hneg : 0 < exp (- x)) by apply exp_pos.
  replace (1 + exp (- x)) with (exp (- x) * (1 + exp x)).
  - rewrite ln_mult by lra. rewrite ln_exp. reflexivity.
  - rewrite Rmult_plus_distr_l, Rmult_1_r, <- exp_plus.
    replace (- x + x) with 0 by lra. rewrite exp_0. lra.
Qed.

(** The form TensorFlow evaluates is the cross entropy of the target
    against the sigmoid of the logit. *)
Lemma stable_form_is_cross_entropy (z x : R) :
  Rmax x 0 - x * z + ln (1 + exp (- Rabs x)) = cross_entropy z x.
Proof.
  assert (Hneg : 0 < exp (- x)) by apply exp_pos.
  assert (Hsig : ln (sigmoid x) = - ln (1 + exp (- x))).
  { unfold sigmoid. apply ln_Rinv. lra. }
  assert (Hco : ln (1 - sigmoid x) = - x - ln (1 + exp (- x))).
  { unfold sigmoid.
    replace (1 - / (1 + exp (- x))) with (exp (- x) * / (1 + exp (- x)))
      by (field; lra).
    rewrite ln_mult; [| lra | apply Rinv_0_lt_compat; lra].
    rewrite ln_exp, ln_Rinv by lra. lra. }
  unfold cross_entropy. rewrite Hsig, Hco.
  destruct (Rle_dec 0 x) as [Hx | Hx].
  - rewrite Rmax_left, Rabs_pos_eq by lra. lra.
  - rewrite Rmax_right, Rabs_left by lra.
    rewrite Ropp_involutive. rewrite (ln_one_plus_exp_neg x). lra.
Qed.

Lemma binary_crossentropy_is_mean_cross_entropy (y_true y_pred : Tensor) :
  BinaryCrossentropy y_true y_pred = reduce_mean (tzip cross_entropy y_true y_pred).
Proof.
  unfold BinaryCrossentropy, sigmoid_cross_entropy_with_logits, reduce_mean,
    tzip; simpl.
  assert (E : forall zs xs,
    zip_with (fun z x => Rmax x 0 - x * z + ln (1 + exp (- Rabs x))) zs xs
    = zip_with cross_entropy zs xs).
  { induction zs as [| z zs IH]; intros [| x xs]; simpl; try reflexivity.
    rewrite stable_form_is_cross_entropy, IH. reflexivity. }
  rewrite E. reflexivity.
Qed.

(** ** The stage-2 trainer *)

Section Stage2Properties.
Context `{RG : RandomGenerator} `{GL : !Stage1.GeneratorLayers}
        `{NW : !Stage2.Networks}.
Import Stage2.

(** *** The stage-1 generator is only read *)

Lemma stage_1_frame_refl (s : Store) : stage_1_frame s s.
Proof. split; reflexivity. Qed.

Lemma stage_1_frame_trans (s1 s2 s3 : Store) :
  stage_1_frame s1 s2 -> stage_1_frame s2 s3 -> stage_1_frame s1 s3.
Proof.
  intros [H1 H2] [H3 H4]. split; congruence.
Qed.

Lemma keeps_ret {A : Type} (a : A) : keeps_stage_1 (ret a).
Proof. intros s. apply stage_1_frame_refl. Qed.

Lemma keeps_lift {A : Type} (r : Py.Result A) : keeps_stage_1 (lift r).
Proof. intros s. apply stage_1_frame_refl. Qed.

Lemma keeps_get : keeps_stage_1 get.
Proof. intros s. apply stage_1_frame_refl. Qed.

Lemma keeps_assert (c : bool) (msg : string) : keeps_stage_1 (assert c msg).
Proof. intros s. destruct c; apply stage_1_frame_refl. Qed.

Lemma keeps_bind {A B : Type} (m : M A) (k : A -> M B) :
  keeps_stage_1 m -> (forall a, keeps_stage_1 (k a)) -> keeps_stage_1 (bind m k).
Proof.
  intros Hm Hk s. unfold bind.
  specialize (Hm s). destruct (m s) as [[a | e] s1]; simpl in *.
  - eapply stage_1_frame_trans; [exact Hm | apply Hk].
  - exact Hm.
Qed.

Lemma keeps_random_normal (sh : list nat) : keeps_stage_1 (tf_random_normal sh).
Proof.
  intros s. unfold tf_random_normal.
  destruct (random_normal sh (rng s)); split; reflexivity.
Qed.

(** With [training=False] the stage-1 forward pass assigns no variable. *)
Lemma keeps_call_stage_1_generator (self : Stage2Trainer) (inputs : Tensor * Tensor) :
  keeps_stage_1 (call_stage_1_generator self inputs false).
Proof.
  intros s. unfold call_stage_1_generator, Keras.invoke, Stage1.call.
  destruct inputs as [embedding noise].
  destruct (Stage1.conditional_augmentation _ embedding (rng s))
    as [[[smoothed mean] log_sigma] g].
  split; reflexivity.
Qed.

Lemma keeps_call_generator (inputs : Tensor * Tensor) (training : bool) :
  keeps_stage_1 (call_generator inputs training).
Proof.
  intros s. unfold call_generator.
  destruct (Keras.invoke _ _ _ _ _) as [[out layer] g].
  split; reflexivity.
Qed.

Lemma keeps_call_discriminator (inputs : Tensor * Tensor) (training : bool) :
  keeps_stage_1 (call_discriminator inputs training).
Proof.
  intros s. unfold call_discriminator.
  destruct (Keras.invoke _ _ _ _ _) as [[out layer] g].
  split; reflexivity.
Qed.

Lemma keeps_apply_generator_gradients (gradients : list R) :
  keeps_stage_1 (apply_generator_gradients gradients).
Proof.
  intros s. unfold apply_generator_gradients.
  destruct (apply_gradients _ _ _). split; reflexivity.
Qed.

Lemma keeps_apply_discriminator_gradients (gradients : list R) :
  keeps_stage_1 (apply_discriminator_gradients gradients).
Proof.
  intros s. unfold apply_discriminator_gradients.
  destruct (apply_gradients _ _ _). split; reflexivity.
Qed.

Lemma keeps_retrieve_kl_loss : keeps_stage_1 retrieve_kl_loss.
Proof. intros s. apply stage_1_frame_refl. Qed.

Ltac keeps :=
  repeat first
    [ apply keeps_bind; [| intros ?]
    | apply keeps_ret | apply keeps_get | apply keeps_lift | apply keeps_assert
    | apply keeps_random_normal | apply keeps_call_stage_1_generator
    | apply keeps_call_generator | apply keeps_call_discriminator
    | apply keeps_apply_generator_gradients
    | apply keeps_apply_discriminator_gradients
    | apply keeps_retrieve_kl_loss ].

Lemma keeps_forward_pass (self : Stage2Trainer) (training : bool) (sample : Batch) :
  keeps_stage_1 (forward_pass self training sample).
Proof. unfold forward_pass. keeps. Qed.

Lemma keeps_train_step (self : Stage2Trainer) (sample : Batch) :
  keeps_stage_1 (train_step self sample).
Proof. unfold train_step. keeps. Qed.

Lemma keeps_val_step (self : Stage2Trainer) (sample : Batch) :
  keeps_stage_1 (val_step self sample).
Proof. unfold val_step. keeps. Qed.

Lemma keeps_epoch_loop (step : Batch -> M StepLosses) (samples : list Batch) :
  (forall sample, keeps_stage_1 (step sample)) ->
  forall next_idx acc batch_idx,
    keeps_stage_1 (epoch_loop step samples next_idx acc batch_idx).
Proof.
  intros Hstep. induction samples as [| sample rest IH]; intros; simpl.
  - apply keeps_ret.
  - apply keeps_bind; [apply Hstep | intros l; apply IH].
Qed.

Lemma keeps_run_epoch (step : Batch -> M StepLosses) (samples : list Batch) :
  (forall sample, keeps_stage_1 (step sample)) ->
  keeps_stage_1 (run_epoch step samples).
Proof.
  intros Hstep. unfold run_epoch.
  apply keeps_bind; [apply keeps_epoch_loop, Hstep | intros; apply keeps_lift].
Qed.

(** C2: whatever the loader holds and however the epoch ends, the trainable
    and the non-trainable variables of the stage-1 generator are the same
    after a stage-2 training epoch (and after a validation epoch) as
    before. *)
Theorem stage_1_generator_unchanged
  (self : Stage2Trainer) (loader : list Batch) (s : Store) :
  stage_1_frame s (snd (train_epoch self loader s))
  /\ stage_1_frame s (snd (val_epoch self loader s)).
Proof.
  split.
  - apply keeps_run_epoch. intros sample. apply keeps_train_step.
  - apply keeps_run_epoch. intros sample. apply keeps_val_step.
Qed.

(** *** One step in terms of its forward passes *)

Lemma train_step_of_forward_pass (self : Stage2Trainer) (sample : Batch)
  (s s1 : Store) (p : Predictions) :
  forward_pass self true sample s = (Py.Ok p, s1) ->
  exists s2,
    train_step self sample s
    = (Py.Ok (step_losses (fill (shape (real_predictions p)) 0.9) p
                          (Py.sum (Keras.losses (model_generator s1)))), s2).
Proof.
  intros Hf. unfold train_step, bind, get. rewrite Hf.
  unfold retrieve_kl_loss, apply_generator_gradients.
  destruct (apply_gradients (generator_optimizer s1) _ _) as [vg og].
  unfold apply_discriminator_gradients; simpl.
  destruct (apply_gradients (discriminator_optimizer s1) _ _) as [vd od].
  eexists. reflexivity.
Qed.

Lemma train_step_inversion (self : Stage2Trainer) (sample : Batch)
  (s s2 : Store) (l : StepLosses) :
  train_step self sample s = (Py.Ok l, s2) ->
  exists p s1,
    forward_pass self true sample s = (Py.Ok p, s1)
    /\ l = step_losses (fill (shape (real_predictions p)) 0.9) p
                       (Py.sum (Keras.losses (model_generator s1))).
Proof.
  intros H.
  destruct (forward_pass self true sample s) as [[p | e] s1] eqn:Hf.
  - destruct (train_step_of_forward_pass self sample s s1 p Hf) as [s2' E].
    rewrite E in H. injection H as <- _. exists p, s1. split; reflexivity.
  - unfold train_step, bind, get in H. rewrite Hf in H. discriminate.
Qed.

Lemma val_step_of_forward_pass (self : Stage2Trainer) (sample : Batch)
  (s s1 : Store) (p : Predictions) :
  forward_pass self false sample s = (Py.Ok p, s1) ->
  val_step self sample s
  = (Py.Ok (step_losses (ones_like (real_predictions p)) p
                        (Py.sum (Keras.losses (model_generator s1)))), s1).
Proof.
  intros Hf. unfold val_step, bind. rewrite Hf. reflexivity.
Qed.

Lemma val_step_inversion (self : Stage2Trainer) (sample : Batch)
  (s s2 : Store) (l : StepLosses) :
  val_step self sample s = (Py.Ok l, s2) ->
  exists p,
    forward_pass self false sample s = (Py.Ok p, s2)
    /\ l = step_losses (ones_like (real_predictions p)) p
                       (Py.sum (Keras.losses (model_generator s2))).
Proof.
  intros H.
  destruct (forward_pass self false sample s) as [[p | e] s1] eqn:Hf.
  - rewrite (val_step_of_forward_pass self sample s s1 p Hf) in H.
    injection H as <- <-. exists p. split; reflexivity.
  - unfold val_step, bind in H. rewrite Hf in H. discriminate.
Qed.

(** Whenever the forward passes of a step go through, the step
    yields a discriminator loss that is the real-image term plus half the
    wrong-image term plus half the fake-image term, each the mean cross
    entropy on the logits of the corresponding prediction; the wrong and
    fake terms target 0, the real term targets 0.9 in the stage-2 training
    step and 1 in the validation step and in [DiscriminatorStage1.loss]. *)
Theorem discriminator_loss_weighted_sum :
  (forall (self : Stage2Trainer) (sample : Batch) (s s1 : Store) (p : Predictions),
      forward_pass self true sample s = (Py.Ok p, s1) ->
      exists l s2,
        train_step self sample s = (Py.Ok l, s2)
        /\ disc_real_loss l
           = BinaryCrossentropy (fill (shape (real_predictions p)) 0.9)
                                (real_predictions p)
        /\ disc_wrong_loss l
           = BinaryCrossentropy (zeros_like (wrong_predictions p))
                                (wrong_predictions p)
        /\ disc_fake_loss l
           = BinaryCrossentropy (zeros_like (fake_predictions p))
                                (fake_predictions p)
        /\ discriminator_loss l
           = disc_real_loss l + 0.5 * disc_wrong_loss l + 0.5 * disc_fake_loss l)
  /\ (forall (self : Stage2Trainer) (sample : Batch) (s s1 : Store) (p : Predictions),
      forward_pass self false sample s = (Py.Ok p, s1) ->
      exists l,
        val_step self sample s = (Py.Ok l, s1)
        /\ disc_real_loss l
           = BinaryCrossentropy (ones_like (real_predictions p))
                                (real_predictions p)
        /\ disc_wrong_loss l
           = BinaryCrossentropy (zeros_like (wrong_predictions p))
                                (wrong_predictions p)
        /\ disc_fake_loss l
           = BinaryCrossentropy (zeros_like (fake_predictions p))
                                (fake_predictions p)
        /\ discriminator_loss l
           = disc_real_loss l + 0.5 * disc_wrong_loss l + 0.5 * disc_fake_loss l)
  /\ (forall real wrong fake : Tensor,
      Discriminators.loss real wrong fake
      = BinaryCrossentropy (ones_like real) real
        + 0.5 * BinaryCrossentropy (zeros_like wrong) wrong
        + 0.5 * BinaryCrossentropy (zeros_like fake) fake)
  /\ (forall y_true y_pred : Tensor,
      BinaryCrossentropy y_true y_pred
      = reduce_mean (tzip cross_entropy y_true y_pred)).
Proof.
  split; [| split; [| split]].
  - intros self sample s s1 p Hf.
    destruct (train_step_of_forward_pass self sample s s1 p Hf) as [s2 E].
    eexists; exists s2. split; [exact E |]. simpl. repeat split; reflexivity.
  - intros self sample s s1 p Hf.
    eexists. split; [apply val_step_of_forward_pass, Hf |].
    simpl. repeat split; reflexivity.
  - intros real wrong fake. unfold Discriminators.loss, BinaryCrossentropy. lra.
  - apply binary_crossentropy_is_mean_cross_entropy.
Qed.

(** *** The accumulators *)

Lemma py_add_to_R (a b : Py.Num) : Py.to_R (Py.add a b) = Py.to_R a + Py.to_R b.
Proof.
  destruct a, b; simpl; try reflexivity. apply plus_IZR.
Qed.

Lemma py_add_is_tensor (a b : Py.Num) :
  is_tensor a = true \/ is_tensor b = true -> is_tensor (Py.add a b) = true.
Proof.
  destruct a, b; simpl; intros [H | H]; try reflexivity; discriminate.
Qed.

Lemma is_tensor_value (a : Py.Num) :
  is_tensor a = true -> a = Py.EagerTensor (Py.to_R a).
Proof.
  destruct a; simpl; [discriminate | reflexivity].
Qed.

Lemma fold_add_to_R (xs : list Py.Num) (a : Py.Num) :
  Py.to_R (fold_left Py.add xs a) = Py.to_R a + total (map Py.to_R xs).
Proof.
  revert a; induction xs as [| x xs IH]; intros a; simpl.
  - lra.
  - rewrite IH, py_add_to_R. lra.
Qed.

Lemma fold_add_is_tensor (xs : list Py.Num) (a : Py.Num) :
  is_tensor a = true \/ Exists (fun x => is_tensor x = true) xs ->
  is_tensor (fold_left Py.add xs a) = true.
Proof.
  revert a; induction xs as [| x xs IH]; intros a [H | H]; simpl.
  - exact H.
  - inversion H.
  - apply IH. left. apply py_add_is_tensor. left; exact H.
  - apply IH. inversion H as [? ? Hx | ? ? Hxs]; subst.
    + left. apply py_add_is_tensor. right; exact Hx.
    + right. exact Hxs.
Qed.

Lemma py_sum_fold (xs : list R) :
  Py.sum xs = fold_left Py.add (map Py.EagerTensor xs) (Py.Int 0).
Proof.
  unfold Py.sum. generalize (Py.Int 0).
  induction xs as [| x xs IH]; intros a; simpl; [reflexivity | apply IH].
Qed.

Lemma py_sum_is_tensor (xs : list R) : xs <> [] -> is_tensor (Py.sum xs) = true.
Proof.
  intros Hne. rewrite py_sum_fold. apply fold_add_is_tensor. right.
  destruct xs as [| x xs]; [congruence |]. simpl. left. reflexivity.
Qed.

Lemma run_steps_length (step : Batch -> M StepLosses) (samples : list Batch) :
  forall s ls s', run_steps step samples s = (Py.Ok ls, s') ->
                  length ls = length samples.
Proof.
  induction samples as [| sample rest IH]; intros s ls s' H; simpl in H.
  - injection H as <- _. reflexivity.
  - unfold bind in H. destruct (step sample s) as [[l | e] s1]; [| discriminate].
    destruct (run_steps step rest s1) as [[ls1 | e] s2] eqn:Hr; [| discriminate].
    injection H as <- _. simpl. f_equal. eapply IH, Hr.
Qed.

Lemma epoch_loop_run_steps (step : Batch -> M StepLosses) (samples : list Batch) :
  forall next_idx acc batch_idx s,
    epoch_loop step samples next_idx acc batch_idx s
    = match run_steps step samples s with
      | (Py.Ok ls, s') =>
          (Py.Ok (fold_left accumulate ls acc,
                  last_index next_idx batch_idx (length samples)), s')
      | (Py.Raise e, s') => (Py.Raise e, s')
      end.
Proof.
  induction samples as [| sample rest IH]; intros next_idx acc batch_idx s; simpl.
  - reflexivity.
  - unfold bind. destruct (step sample s) as [[l | e] s1]; [| reflexivity].
    rewrite IH. destruct (run_steps step rest s1) as [[ls | e] s2]; [| reflexivity].
    simpl. do 3 f_equal.
    destruct (length rest) as [| k]; simpl; f_equal; lia.
Qed.

(** Each accumulator is the running sum of its component. *)
Lemma acc_generator_loss_fold (ls : list StepLosses) (acc : Accumulators) :
  acc_generator_loss (fold_left accumulate ls acc)
  = fold_left Py.add (map (fun l => Py.EagerTensor (generator_loss l)) ls)
              (acc_generator_loss acc).
Proof.
  revert acc; induction ls as [| l ls IH]; intros acc; simpl;
    [reflexivity | rewrite IH; reflexivity].
Qed.

Lemma acc_discriminator_loss_fold (ls : list StepLosses) (acc : Accumulators) :
  acc_discriminator_loss (fold_left accumulate ls acc)
  = fold_left Py.add (map (fun l => Py.EagerTensor (discriminator_loss l)) ls)
              (acc_discriminator_loss acc).
Proof.
  revert acc; induction ls as [| l ls IH]; intros acc; simpl;
    [reflexivity | rewrite IH; reflexivity].
Qed.

Lemma acc_kl_loss_fold (ls : list StepLosses) (acc : Accumulators) :
  acc_kl_loss (fold_left accumulate ls acc)
  = fold_left Py.add (map kl_loss ls) (acc_kl_loss acc).
Proof.
  revert acc; induction ls as [| l ls IH]; intros acc; simpl;
    [reflexivity | rewrite IH; reflexivity].
Qed.

Lemma acc_disc_real_loss_fold (ls : list StepLosses) (acc : Accumulators) :
  acc_disc_real_loss (fold_left accumulate ls acc)
  = fold_left Py.add (map (fun l => Py.EagerTensor (disc_real_loss l)) ls)
              (acc_disc_real_loss acc).
Proof.
  revert acc; induction ls as [| l ls IH]; intros acc; simpl;
    [reflexivity | rewrite IH; reflexivity].
Qed.

Lemma acc_disc_wrong_loss_fold (ls : list StepLosses) (acc : Accumulators) :
  acc_disc_wrong_loss (fold_left accumulate ls acc)
  = fold_left Py.add (map (fun l => Py.EagerTensor (disc_wrong_loss l)) ls)
              (acc_disc_wrong_loss acc).
Proof.
  revert acc; induction ls as [| l ls IH]; intros acc; simpl;
    [reflexivity | rewrite IH; reflexivity].
Qed.

Lemma acc_disc_fake_loss_fold (ls : list StepLosses) (acc : Accumulators) :
  acc_disc_fake_loss (fold_left accumulate ls acc)
  = fold_left Py.add (map (fun l => Py.EagerTensor (disc_fake_loss l)) ls)
              (acc_disc_fake_loss acc).
Proof.
  revert acc; induction ls as [| l ls IH]; intros acc; simpl;
    [reflexivity | rewrite IH; reflexivity].
Qed.

(** The mean of an accumulator that started at the int 0 and received at
    least one tensor. *)
Lemma epoch_mean_of_fold (xs : list Py.Num) (i : nat) :
  Exists (fun x => is_tensor x = true) xs ->
  epoch_mean (fold_left Py.add xs (Py.Int 0)) (Some i)
  = Py.Ok (total (map Py.to_R xs) / INR (i + 1)).
Proof.
  intros Hex. unfold epoch_mean.
  rewrite (is_tensor_value (fold_left Py.add xs (Py.Int 0)))
    by (apply fold_add_is_tensor; right; exact Hex).
  simpl. rewrite fold_add_to_R. simpl. do 2 f_equal. lra.
Qed.

Lemma exists_tensor_map (f : StepLosses -> R) (ls : list StepLosses) :
  ls <> [] ->
  Exists (fun x => is_tensor x = true) (map (fun l => Py.EagerTensor (f l)) ls).
Proof.
  destruct ls as [| l ls]; [congruence |]. intros _. left. reflexivity.
Qed.

Lemma epoch_report_of_trace (ls : list StepLosses) (i : nat) :
  ls <> [] ->
  Exists (fun l => is_tensor (kl_loss l) = true) ls ->
  length ls = (i + 1)%nat ->
  epoch_report (fold_left accumulate ls initial_accumulators) (Some i)
  = Py.Ok (mean_report ls).
Proof.
  intros Hne Hkl Hlen. unfold epoch_report.
  rewrite acc_generator_loss_fold, acc_discriminator_loss_fold, acc_kl_loss_fold,
    acc_disc_real_loss_fold, acc_disc_wrong_loss_fold, acc_disc_fake_loss_fold.
  simpl.
  rewrite !epoch_mean_of_fold; try (apply exists_tensor_map; exact Hne).
  - simpl. unfold mean_report, batch_mean. rewrite !map_map, Hlen. reflexivity.
  - apply Exists_exists in Hkl. destruct Hkl as (l & Hin & Hl).
    apply Exists_exists. exists (kl_loss l). split; [| exact Hl].
    apply in_map, Hin.
Qed.

(** *** The KL term of a step is a tensor *)

Lemma triple_bind {A B : Type} (P R Q : Store -> Prop) (m : M A) (k : A -> M B) :
  triple P m R -> (forall a, triple R (k a) Q) -> triple P (bind m k) Q.
Proof.
  intros Hm Hk s b s' HP H. unfold bind in H.
  destruct (m s) as [[a | e] s1] eqn:E; [| discriminate].
  eapply Hk; [eapply Hm; eauto | exact H].
Qed.

Lemma triple_true {A : Type} (P : Store -> Prop) (m : M A) :
  triple P m (fun _ => True).
Proof. intros s a s' _ _. exact I. Qed.

Lemma triple_ret {A : Type} (P : Store -> Prop) (a : A) : triple P (ret a) P.
Proof. intros s b s' HP H. injection H as _ <-. exact HP. Qed.

Lemma triple_assert (P : Store -> Prop) (c : bool) (msg : string) :
  triple P (assert c msg) P.
Proof.
  intros s b s' HP H. destruct c; simpl in H; [| discriminate].
  injection H as _ <-. exact HP.
Qed.

Lemma triple_call_discriminator (inputs : Tensor * Tensor) (training : bool) :
  triple has_loss (call_discriminator inputs training) has_loss.
Proof.
  intros s b s' HP H. unfold call_discriminator in H.
  destruct (Keras.invoke _ _ _ _ _) as [[out layer] g].
  injection H as _ <-. exact HP.
Qed.

Lemma triple_call_generator (P : Store -> Prop)
  (inputs : Tensor * Tensor) (training : bool) :
  registers_a_loss -> triple P (call_generator inputs training) has_loss.
Proof.
  intros Hreg s b s' _ H. unfold call_generator, Keras.invoke in H.
  specialize (Hreg (Keras.clear_losses (model_generator s)) inputs training (rng s)).
  destruct (generator_call _ _ _ _) as [[out layer] g].
  injection H as _ <-. exact Hreg.
Qed.

Lemma forward_pass_has_loss (self : Stage2Trainer) (training : bool) (sample : Batch) :
  registers_a_loss ->
  triple (fun _ => True) (forward_pass self training sample) has_loss.
Proof.
  intros Hreg. unfold forward_pass.
  eapply triple_bind; [apply triple_true | intros noise_z].
  eapply triple_bind; [apply triple_true | intros outputs].
  eapply triple_bind; [apply triple_call_generator, Hreg | intros fake].
  eapply triple_bind; [apply triple_assert | intros _].
  eapply triple_bind; [apply triple_call_discriminator | intros rp].
  eapply triple_bind; [apply triple_call_discriminator | intros wp].
  eapply triple_bind; [apply triple_call_discriminator | intros fp].
  eapply triple_bind; [apply triple_assert | intros _].
  apply triple_ret.
Qed.

Lemma train_step_kl_is_tensor (self : Stage2Trainer) (sample : Batch)
  (s s' : Store) (l : StepLosses) :
  registers_a_loss ->
  train_step self sample s = (Py.Ok l, s') -> is_tensor (kl_loss l) = true.
Proof.
  intros Hreg H.
  destruct (train_step_inversion self sample s s' l H) as (p & s1 & Hf & ->).
  simpl. apply py_sum_is_tensor.
  exact (forward_pass_has_loss self true sample Hreg s p s1 I Hf).
Qed.

Lemma val_step_kl_is_tensor (self : Stage2Trainer) (sample : Batch)
  (s s' : Store) (l : StepLosses) :
  registers_a_loss ->
  val_step self sample s = (Py.Ok l, s') -> is_tensor (kl_loss l) = true.
Proof.
  intros Hreg H.
  destruct (val_step_inversion self sample s s' l H) as (p & Hf & ->).
  simpl. apply py_sum_is_tensor.
  exact (forward_pass_has_loss self false sample Hreg s p s' I Hf).
Qed.

Lemma run_steps_Forall (P : StepLosses -> Prop) (step : Batch -> M StepLosses) :
  (forall sample s l s', step sample s = (Py.Ok l, s') -> P l) ->
  forall samples s ls s',
    run_steps step samples s = (Py.Ok ls, s') -> Forall P ls.
Proof.
  intros Hstep. induction samples as [| sample rest IH]; intros s ls s' H;
    simpl in H.
  - injection H as <- _. constructor.
  - unfold bind in H.
    destruct (step sample s) as [[l | e] s1] eqn:E; [| discriminate].
    destruct (run_steps step rest s1) as [[ls1 | e] s2] eqn:Hr; [| discriminate].
    injection H as <- _. constructor; [eapply Hstep, E | eapply IH, Hr].
Qed.

(** *** The report of an epoch *)

Lemma run_epoch_report (step : Batch -> M StepLosses) (samples : list Batch)
  (s s' : Store) (ls : list StepLosses) :
  (forall sample s l s', step sample s = (Py.Ok l, s') ->
                         is_tensor (kl_loss l) = true) ->
  samples <> [] ->
  run_steps step samples s = (Py.Ok ls, s') ->
  run_epoch step samples s = (Py.Ok (mean_report ls), s').
Proof.
  intros Hkl Hne Hrun.
  pose proof (run_steps_length step samples s ls s' Hrun) as Hlen.
  pose proof (run_steps_Forall _ step Hkl samples s ls s' Hrun) as Hall.
  unfold run_epoch, bind. rewrite epoch_loop_run_steps, Hrun. unfold lift; simpl.
  destruct samples as [| sample rest]; [congruence |].
  destruct ls as [| l ls]; [discriminate |].
  simpl length. unfold last_index. simpl fst; simpl snd.
  rewrite epoch_report_of_trace; [reflexivity | discriminate | |].
  - left. inversion Hall; assumption.
  - simpl in Hlen. simpl. lia.
Qed.

(** C9: over a non-empty loader whose steps all complete, with a generator
    that registers its KL term, the epoch returns the record in which every
    scalar is the sum of that component over the steps divided by the number
    of batches; this holds for the training and for the validation epoch. *)
Theorem epoch_reports_batch_means
  (self : Stage2Trainer) (loader : list Batch) (s s' : Store)
  (ls : list StepLosses) :
  registers_a_loss ->
  loader <> [] ->
  (run_steps (train_step self) loader s = (Py.Ok ls, s') ->
   train_epoch self loader s = (Py.Ok (mean_report ls), s')
   /\ length ls = length loader)
  /\ (run_steps (val_step self) loader s = (Py.Ok ls, s') ->
      val_epoch self loader s = (Py.Ok (mean_report ls), s')
      /\ length ls = length loader).
Proof.
  intros Hreg Hne. split; intros Hrun.
  - split; [| eapply run_steps_length, Hrun].
    apply run_epoch_report; [| exact Hne | exact Hrun].
    intros sample s0 l s0'. apply train_step_kl_is_tensor, Hreg.
  - split; [| eapply run_steps_length, Hrun].
    apply run_epoch_report; [| exact Hne | exact Hrun].
    intros sample s0 l s0'. apply val_step_kl_is_tensor, Hreg.
Qed.

(** With an empty loader both epochs raise instead of returning a
    record, the accumulators still being the int 0 and, whatever the
    accumulators, the loop variable being unbound; when the loop over a
    non-empty loader completes, the loop variable plus one, which is the
    divisor, is the number of batches. *)
Theorem epoch_needs_a_batch :
  (forall (self : Stage2Trainer) (s : Store),
      train_epoch self [] s
      = (Py.Raise (Py.AttributeError "'int' object has no attribute 'numpy'"), s)
      /\ val_epoch self [] s
         = (Py.Raise (Py.AttributeError "'int' object has no attribute 'numpy'"), s))
  /\ (forall acc : Accumulators, Py.succeeded (epoch_report acc None) = false)
  /\ (forall (step : Batch -> M StepLosses) (samples : list Batch)
             (s s' : Store) (acc : Accumulators) (batch_idx : option nat),
         samples <> [] ->
         epoch_loop step samples 0 initial_accumulators None s
         = (Py.Ok (acc, batch_idx), s') ->
         exists i, batch_idx = Some i /\ (i + 1 = length samples)%nat).
Proof.
  split; [| split].
  - intros self s. split; reflexivity.
  - intros acc. unfold epoch_report, epoch_mean.
    destruct (acc_generator_loss acc); reflexivity.
  - intros step samples s s' acc batch_idx Hne H.
    rewrite epoch_loop_run_steps in H.
    destruct (run_steps step samples s) as [[ls | e] s1]; [| discriminate].
    injection H as _ <- _.
    destruct samples as [| sample rest]; [congruence |].
    simpl. exists (length rest). split; [reflexivity | lia].
Qed.

End Stage2Properties.

(** *** A concrete trainer *)

Lemma forward_pass_0 :
  Stage2.forward_pass trainer_0 true batch_0 store_0
  = (Py.Ok predictions_0, snd (Stage2.forward_pass trainer_0 true batch_0 store_0)).
Proof. reflexivity. Qed.

Lemma identity_networks_register_a_loss : registers_a_loss.
Proof.
  intros self inputs training g. simpl.
  destruct (Keras.losses self); discriminate.
Qed.

(** The claim of C1 as written fails on the stage-2 training step: for the
    logits of [batch_0] its discriminator loss is not the weighted sum whose
    real-image term targets 1. *)
Lemma train_step_real_term_does_not_target_one :
  exists l s2,
    Stage2.train_step trainer_0 batch_0 store_0 = (Py.Ok l, s2)
    /\ Stage2.discriminator_loss l
       <> BinaryCrossentropy (ones_like (logit 1)) (logit 1)
          + 0.5 * BinaryCrossentropy (zeros_like (logit 0)) (logit 0)
          + 0.5 * BinaryCrossentropy (zeros_like (logit 0)) (logit 0).
Proof.
  destruct (train_step_of_forward_pass trainer_0 batch_0 store_0 _ predictions_0
              forward_pass_0) as [s2 E].
  eexists; exists s2. split; [exact E |].
  unfold Stage2.step_losses, BinaryCrossentropy, reduce_mean,
    sigmoid_cross_entropy_with_logits, tzip, fill, ones_like, zeros_like, tmap,
    predictions_0, logit; simpl.
  lra.
Qed.

Lemma forward_pass_trainer_0 (training : bool) (s : Stage2.Store) :
  exists s1,
    Stage2.forward_pass trainer_0 training batch_0 s = (Py.Ok predictions_0, s1).
Proof.
  eexists.
  unfold Stage2.forward_pass, Stage2.bind, Stage2.tf_random_normal,
    Stage2.call_stage_1_generator, Stage2.call_generator,
    Stage2.call_discriminator, Stage2.assert, Stage2.ret, Keras.invoke.
  simpl. reflexivity.
Qed.

Lemma train_step_trainer_0 (sample : Stage2.Batch) (s : Stage2.Store) :
  In sample [batch_0; batch_0] ->
  exists l s2, Stage2.train_step trainer_0 sample s = (Py.Ok l, s2).
Proof.
  intros [<- | [<- | []]];
    destruct (forward_pass_trainer_0 true s) as [s1 Hf];
    destruct (train_step_of_forward_pass trainer_0 batch_0 s s1 predictions_0 Hf)
      as [s2 E];
    eexists; exists s2; exact E.
Qed.

Lemma run_steps_succeeds `{RG : RandomGenerator} `{NW : !Stage2.Networks}
  (step : Stage2.Batch -> Stage2.M Stage2.StepLosses) (samples : list Stage2.Batch) :
  (forall sample s, In sample samples ->
                    exists l s2, step sample s = (Py.Ok l, s2)) ->
  forall s, exists ls s', run_steps step samples s = (Py.Ok ls, s').
Proof.
  induction samples as [| sample rest IH]; intros Hstep s; simpl.
  - exists [], s. reflexivity.
  - destruct (Hstep sample s (or_introl eq_refl)) as (l & s1 & E).
    destruct (IH (fun b s0 Hin => Hstep b s0 (or_intror Hin)) s1) as (ls & s2 & Hr).
    exists (l :: ls), s2. unfold Stage2.bind. rewrite E, Hr. reflexivity.
Qed.

Lemma epoch_reports_batch_means_witness :
  exists ls,
    fst (Stage2.train_epoch trainer_0 [batch_0; batch_0] store_0)
    = Py.Ok (mean_report ls)
    /\ length ls = 2%nat.
Proof.
  assert (Hne : [batch_0; batch_0] <> []) by discriminate.
  destruct (run_steps_succeeds (Stage2.train_step trainer_0) [batch_0; batch_0]
              (fun sample s Hin => train_step_trainer_0 sample s Hin) store_0)
    as (ls & s' & Hrun).
  destruct (epoch_reports_batch_means trainer_0 [batch_0; batch_0] store_0 s' ls
              identity_networks_register_a_loss Hne)
    as [Htrain _].
  destruct (Htrain Hrun) as [Hreport Hlen].
  exists ls. split; [rewrite Hreport; reflexivity | exact Hlen].
Defined.

(** ** [extract_epoch_num] *)

Local Open Scope string_scope.

(** With no [model] in the path of the results directory, the sub-directories
    [model_1], [model_3] and [model_10] resolve to 10, other sub-directories
    are ignored, and a directory without a candidate raises the explicit
    error. *)
Example extract_epoch_num_most_recent :
  Utils.extract_epoch_num "results/xray/stage-1"
    ["model_1"; "model_3"; "model_10"; "viz"] = Py.Ok 10%Z.
Proof. reflexivity. Qed.

Example extract_epoch_num_no_candidate :
  Utils.extract_epoch_num "results/xray/stage-1" ["viz"]
  = Py.Raise (Py.Exception "No candidate models found in 'results/xray/stage-1'")
  /\ Utils.extract_epoch_num "results/xray/stage-1" []
     = Py.Raise (Py.Exception "No candidate models found in 'results/xray/stage-1'").
Proof. split; reflexivity. Qed.

(** C7: the filter looks for [model] in the whole path, not in the name of
    the sub-directory.  Under a results directory whose own path contains
    [model], every sub-directory is a candidate: next to [model_1],
    [model_3] and [model_10], the directory [viz] makes the resolution fail
    with a [TypeError] instead of resolving to 10, on its own it raises the
    same [TypeError] instead of the explicit error, and a directory [run_12]
    makes it resolve to 12. *)
Theorem extract_epoch_num_filters_on_the_path :
  Utils.extract_epoch_num "results/mymodel/stage-1"
    ["model_1"; "model_3"; "model_10"; "viz"]
  = Py.Raise (Py.TypeError "'NoneType' object is not subscriptable")
  /\ Utils.extract_epoch_num "results/mymodel/stage-1" ["viz"]
     = Py.Raise (Py.TypeError "'NoneType' object is not subscriptable")
  /\ Utils.extract_epoch_num "results/mymodel/stage-1"
       ["model_1"; "model_3"; "model_10"; "run_12"]
     = Py.Ok 12%Z.
Proof. repeat split. Qed.

Local Close Scope string_scope.

(** ** The learning-rate decay *)

Section LearningRateDecay.
Import Callbacks.

Lemma fired_on_after_firing (self : LearningRateDecay) (epoch : nat) :
  fired_on (mkLearningRateDecay (decay_factor self) (every_n self) (Some epoch))
           epoch = true.
Proof. unfold fired_on; simpl. apply Nat.eqb_refl. Qed.

Lemma on_epoch_end_idempotent (self : LearningRateDecay) (epoch : nat)
  (optimizers : Keras.Adam * Keras.Adam) :
  on_epoch_end (fst (on_epoch_end self epoch optimizers)) epoch
               (snd (on_epoch_end self epoch optimizers))
  = on_epoch_end self epoch optimizers.
Proof.
  unfold on_epoch_end at 2 3 4.
  destruct (positive_multiple epoch (every_n self) && negb (fired_on self epoch))
    eqn:Hfire; simpl.
  - unfold on_epoch_end. rewrite fired_on_after_firing. simpl.
    rewrite andb_false_r. reflexivity.
  - unfold on_epoch_end. rewrite Hfire. reflexivity.
Qed.

(** C6: an epoch that is not a positive multiple of the period changes
    nothing; one that is, on the first call for it, multiplies the learning
    rate of both optimizers by the factor; a second call for the same epoch
    changes nothing more.  With period 5, factor 0.5 and rate 1e-3 the rate
    is 1e-3 through epochs 1-4, 5e-4 after epoch 5 and through epochs 6-9,
    2.5e-4 after epoch 10, and still 5e-4 when the hook runs twice for
    epoch 5. *)
Theorem learning_rate_decay_schedule :
  (forall self epoch optimizers,
      positive_multiple epoch (every_n self) = false ->
      on_epoch_end self epoch optimizers = (self, optimizers))
  /\ (forall self epoch optimizers,
      positive_multiple epoch (every_n self) = true ->
      fired_on self epoch = false ->
      rates (on_epoch_end self epoch optimizers)
      = (Keras.learning_rate (fst optimizers) * decay_factor self,
         Keras.learning_rate (snd optimizers) * decay_factor self))
  /\ (forall self epoch optimizers,
      on_epoch_end (fst (on_epoch_end self epoch optimizers)) epoch
                   (snd (on_epoch_end self epoch optimizers))
      = on_epoch_end self epoch optimizers)
  /\ (forall n, (1 <= n <= 4)%nat ->
        rates (run_epochs decay_0 (seq 1 n) optimizers_0) = (1e-3, 1e-3))
  /\ (forall n, (5 <= n <= 9)%nat ->
        rates (run_epochs decay_0 (seq 1 n) optimizers_0) = (5e-4, 5e-4))
  /\ rates (run_epochs decay_0 (seq 1 10) optimizers_0) = (2.5e-4, 2.5e-4)
  /\ rates (run_epochs decay_0 [1; 2; 3; 4; 5; 5]%nat optimizers_0) = (5e-4, 5e-4).
Proof.
  split; [| split; [| split; [| split; [| split; [| split]]]]].
  - intros self epoch optimizers H. unfold on_epoch_end. rewrite H. reflexivity.
  - intros self epoch optimizers H Hf. unfold on_epoch_end. rewrite H, Hf.
    reflexivity.
  - apply on_epoch_end_idempotent.
  - intros n Hn.
    assert (Hc : (n = 1 \/ n = 2 \/ n = 3 \/ n = 4)%nat) by lia.
    destruct Hc as [-> | [-> | [-> | ->]]]; reflexivity.
  - intros n Hn.
    assert (Hc : (n = 5 \/ n = 6 \/ n = 7 \/ n = 8 \/ n = 9)%nat) by lia.
    destruct Hc as [-> | [-> | [-> | [-> | ->]]]];
      unfold rates, run_epochs; simpl; f_equal; lra.
  - unfold rates, run_epochs; simpl; f_equal; lra.
  - unfold rates, run_epochs; simpl; f_equal; lra.
Qed.

Lemma learning_rate_decay_schedule_witness :
  on_epoch_end decay_0 3 optimizers_0 = (decay_0, optimizers_0)
  /\ rates (on_epoch_end decay_0 5 optimizers_0) = (1e-3 * 0.5, 1e-3 * 0.5)
  /\ rates (run_epochs decay_0 (seq 1 4) optimizers_0) = (1e-3, 1e-3)
  /\ rates (run_epochs decay_0 (seq 1 5) optimizers_0) = (5e-4, 5e-4).
Proof.
  destruct learning_rate_decay_schedule as (Hno & Hfire & _ & Hlow & Hmid & _).
  split; [| split; [| split]].
  - apply Hno. reflexivity.
  - apply (Hfire decay_0 5%nat optimizers_0); reflexivity.
  - apply Hlow. lia.
  - apply Hmid. lia.
Defined.

End LearningRateDecay.

(** * Further properties of the code *)

(** ** [chunks] and [chunk_list] *)

Section Chunks.
Context {A : Type}.
Import Builtins Helpers.

Lemma slice_to_from (xs : list A) (i : Z) : slice_to xs i ++ slice_from xs i = xs.
Proof. apply firstn_skipn. Qed.

Lemma range_positive (stop : nat) (n : nat) :
  (0 < n)%nat ->
  range stop (Z.of_nat n)
  = Ok (map (fun k => (k * n)%nat) (seq 0 ((stop + n - 1) / n))).
Proof.
  intros Hn. unfold range.
  destruct (Z.eqb_spec (Z.of_nat n) 0) as [E | _]; [lia |].
  destruct (Z.ltb_spec (Z.of_nat n) 0) as [E | _]; [lia |].
  rewrite Nat2Z.id. reflexivity.
Qed.

(** The number of chunks of a list of length [len + 1]. *)
Lemma chunk_count_step (len n : nat) :
  (0 < n)%nat ->
  ((S len + n - 1) / n = S ((S len - n + n - 1) / n))%nat.
Proof.
  intros Hn.
  destruct (Nat.le_gt_cases (S len) n) as [Hle | Hgt].
  - replace (S len - n)%nat with 0%nat by lia.
    rewrite (Nat.div_small (0 + n - 1) n) by lia.
    assert (H : (S len + n - 1 = 1 * n + len)%nat) by lia.
    rewrite H, Nat.div_add_l by lia.
    rewrite Nat.div_small by lia. reflexivity.
  - assert (H : (S len + n - 1 = 1 * n + (S len - n + n - 1))%nat) by lia.
    rewrite H at 1. rewrite Nat.div_add_l by lia. reflexivity.
Qed.

(** The chunks of a non-empty list: the first [n] elements, then the chunks
    of the rest. *)
Lemma chunks_unfold (x : A) (xs : list A) (n : nat) :
  (0 < n)%nat ->
  map (fun i => slice (x :: xs) i (i + n))
      (map (fun k => (k * n)%nat) (seq 0 ((length (x :: xs) + n - 1) / n)))
  = firstn n (x :: xs)
    :: map (fun i => slice (skipn n (x :: xs)) i (i + n))
         (map (fun k => (k * n)%nat)
              (seq 0 ((length (skipn n (x :: xs)) + n - 1) / n))).
Proof.
  intros Hn.
  assert (Hlen : length (skipn n (x :: xs)) = (S (length xs) - n)%nat)
    by (rewrite length_skipn; reflexivity).
  rewrite Hlen. change (length (x :: xs)) with (S (length xs)).
  rewrite chunk_count_step by exact Hn.
  set (m := ((S (length xs) - n + n - 1) / n)%nat).
  rewrite <- cons_seq, <- seq_shift. rewrite !map_cons, !map_map.
  f_equal.
  - unfold slice. simpl. f_equal. lia.
  - apply map_ext. intros k. unfold slice. rewrite skipn_skipn.
    replace (k * n + n)%nat with (S k * n)%nat by lia.
    f_equal. simpl. lia.
Qed.

Lemma chunks_positive (xs : list A) (n : Z) :
  (0 < n)%Z ->
  chunks xs n
  = Ok (map (fun i => slice xs i (i + Z.to_nat n))
            (map (fun k => (k * Z.to_nat n)%nat)
                 (seq 0 ((length xs + Z.to_nat n - 1) / Z.to_nat n)))).
Proof.
  intros Hn. unfold chunks, range.
  destruct (Z.eqb_spec n 0) as [E | _]; [lia |].
  destruct (Z.ltb_spec n 0) as [E | _]; [lia |].
  reflexivity.
Qed.

Lemma chunks_concat_nat (n : nat) :
  (0 < n)%nat ->
  forall (len : nat) (xs : list A),
    (length xs <= len)%nat ->
    concat (map (fun i => slice xs i (i + n))
                (map (fun k => (k * n)%nat) (seq 0 ((length xs + n - 1) / n))))
    = xs.
Proof.
  intros Hn.
  assert (Hnil : ((length (@nil A) + n - 1) / n = 0)%nat)
    by (apply Nat.div_small; change (length (@nil A)) with 0%nat; lia).
  induction len as [| len IH]; intros xs Hlen.
  - destruct xs; [| simpl in Hlen; lia]. rewrite Hnil. reflexivity.
  - destruct xs as [| x xs].
    + rewrite Hnil. reflexivity.
    + rewrite chunks_unfold by exact Hn. simpl concat.
      rewrite IH.
      * apply firstn_skipn.
      * rewrite length_skipn.
        change (length (x :: xs)) with (S (length xs)) in *. lia.
Qed.

(** X1: for a positive chunk size, [chunks] loses and reorders nothing: the
    chunks concatenated are the list. *)
Theorem chunks_concat (xs : list A) (n : Z) :
  (0 < n)%Z ->
  exists cs, chunks xs n = Ok cs /\ concat cs = xs.
Proof.
  intros Hn.
  assert (Hpos : (0 < Z.to_nat n)%nat) by lia.
  rewrite chunks_positive by exact Hn.
  eexists. split; [reflexivity |].
  apply (chunks_concat_nat _ Hpos (length xs)). lia.
Qed.

Lemma chunk_index_in_range (len n i : nat) :
  (0 < n)%nat -> (i < (len + n - 1) / n)%nat -> (i * n < len)%nat.
Proof.
  intros Hn Hi.
  pose proof (Nat.Div0.mul_div_le (len + n - 1) n) as Hle.
  assert (H : (n * S i <= n * ((len + n - 1) / n))%nat)
    by (apply Nat.mul_le_mono_l; lia).
  nia.
Qed.

(** X2: for a positive chunk size [n], a list of [len] elements gives
    ceil(len / n) chunks, and the chunk at position [i] holds
    min(n, len - i * n) elements: between 1 and [n], and exactly [n] for
    every chunk that is not the last. *)
Theorem chunks_sizes (xs : list A) (n : Z) :
  (0 < n)%Z ->
  exists cs,
    chunks xs n = Ok cs
    /\ length cs = ((length xs + Z.to_nat n - 1) / Z.to_nat n)%nat
    /\ forall i c, nth_error cs i = Some c ->
         length c = Nat.min (Z.to_nat n) (length xs - i * Z.to_nat n)
         /\ (1 <= length c <= Z.to_nat n)%nat
         /\ (S i < length cs -> length c = Z.to_nat n)%nat.
Proof.
  intros Hn.
  assert (Hpos : (0 < Z.to_nat n)%nat) by lia.
  rewrite chunks_positive by exact Hn.
  set (m := Z.to_nat n) in *.
  eexists. split; [reflexivity | split].
  - rewrite !length_map, length_seq. reflexivity.
  - intros i c Hc. rewrite !length_map, length_seq.
    rewrite map_map, nth_error_map in Hc.
    destruct (nth_error (seq 0 ((length xs + m - 1) / m)) i) as [k |] eqn:Hk;
      [| discriminate].
    injection Hc as <-.
    assert (Hlt : (i < (length xs + m - 1) / m)%nat).
    { rewrite <- (length_seq ((length xs + m - 1) / m) 0).
      apply nth_error_Some. rewrite Hk. discriminate. }
    rewrite nth_error_seq in Hk.
    destruct (Nat.ltb_spec i ((length xs + m - 1) / m)) as [_ | Hge]; [| lia].
    injection Hk as <-. simpl.
    pose proof (chunk_index_in_range (length xs) m i Hpos Hlt) as Hin.
    unfold slice. rewrite length_firstn, length_skipn.
    replace (i * m + m - i * m)%nat with m by lia.
    split; [reflexivity | split; [lia |]].
    intros Hnext.
    pose proof (chunk_index_in_range (length xs) m (S i) Hpos Hnext) as Hin'.
    simpl in Hin'. lia.
Qed.

Lemma rev_eq_cons (l : list (list A)) (last : list A) (front : list (list A)) :
  rev l = last :: front -> l = rev front ++ [last].
Proof.
  intros H. rewrite <- (rev_involutive l), H. reflexivity.
Qed.

(** X3: for a positive shard size and an [end_point] that leaves the list a
    non-empty prefix, [chunk_list] returns shards that concatenate to the
    whole list, as many as [chunks] cuts the prefix into: the elements after
    [end_point] end up in the last shard. *)
Theorem chunk_list_concat (xs : list A) (samples_per_shard end_point : Z) :
  (0 < samples_per_shard)%Z ->
  slice_to xs end_point <> [] ->
  exists cs,
    chunk_list xs samples_per_shard end_point = Ok cs
    /\ concat cs = xs
    /\ length cs
       = ((length (slice_to xs end_point) + Z.to_nat samples_per_shard - 1)
          / Z.to_nat samples_per_shard)%nat.
Proof.
  intros Hn Hne.
  destruct (chunks_sizes (slice_to xs end_point) samples_per_shard Hn)
    as (cs0 & Hcs0 & Hcount & _).
  destruct (chunks_concat (slice_to xs end_point) samples_per_shard Hn)
    as (cs1 & Hcs1 & Hconcat).
  rewrite Hcs0 in Hcs1. injection Hcs1 as <-.
  unfold chunk_list. rewrite Hcs0.
  destruct (rev cs0) as [| last front] eqn:Hrev.
  - apply (f_equal (@rev _)) in Hrev. rewrite rev_involutive in Hrev.
    subst cs0. simpl in Hconcat. congruence.
  - apply rev_eq_cons in Hrev. subst cs0.
    eexists. split; [reflexivity | split].
    + rewrite concat_app in *. simpl in *. rewrite app_nil_r in *.
      rewrite app_assoc, Hconcat. apply slice_to_from.
    + rewrite <- Hcount, !length_app. reflexivity.
Qed.

(** X4: [chunk_list] raises [ValueError] for a shard size of 0, and
    [IndexError] for a negative shard size or when the prefix up to
    [end_point] is empty, as it is for an empty list and for [end_point] 0. *)
Theorem chunk_list_errors (xs : list A) (samples_per_shard end_point : Z) :
  (samples_per_shard = 0%Z ->
   chunk_list xs samples_per_shard end_point = Raise ValueError)
  /\ ((samples_per_shard < 0)%Z ->
      chunk_list xs samples_per_shard end_point = Raise IndexError)
  /\ ((0 < samples_per_shard)%Z -> slice_to xs end_point = [] ->
      chunk_list xs samples_per_shard end_point = Raise IndexError)
  /\ slice_to xs 0 = []
  /\ slice_to (@nil A) end_point = [].
Proof.
  split; [| split; [| split; [| split]]].
  - intros ->. reflexivity.
  - intros Hn. unfold chunk_list, chunks, range.
    destruct (Z.eqb_spec samples_per_shard 0) as [E | _]; [lia |].
    destruct (Z.ltb_spec samples_per_shard 0) as [_ | E]; [| lia].
    reflexivity.
  - intros Hn Hnil.
    destruct (chunks_concat (slice_to xs end_point) samples_per_shard Hn)
      as (cs & Hcs & Hconcat).
    destruct (chunks_sizes (slice_to xs end_point) samples_per_shard Hn)
      as (cs' & Hcs' & Hcount & _).
    rewrite Hcs in Hcs'. injection Hcs' as <-.
    unfold chunk_list. rewrite Hcs.
    rewrite Hnil in Hcount.
    rewrite Nat.div_small in Hcount by (change (length (@nil A)) with 0%nat; lia).
    destruct cs; [reflexivity | discriminate].
  - reflexivity.
  - unfold slice_to. apply firstn_nil.
Qed.

End Chunks.

(** ** [product_list] *)

Lemma product_fold (xs : list Z) (acc : Z) :
  fold_left (fun product dim => (product * dim)%Z) xs acc
  = (acc * Helpers.product_list xs)%Z.
Proof.
  unfold Helpers.product_list.
  revert acc; induction xs as [| x xs IH]; intros acc; cbn [fold_left].
  - ring.
  - rewrite (IH (acc * x)%Z), (IH (1 * x)%Z). ring.
Qed.

(** X5: the product of a concatenation is the product of the products, the
    product of the empty list being 1, and a product is 0 exactly when one
    of the numbers is 0. *)
Theorem product_list_app_and_zero (xs ys : list Z) :
  Helpers.product_list (xs ++ ys)
  = (Helpers.product_list xs * Helpers.product_list ys)%Z
  /\ Helpers.product_list [] = 1%Z
  /\ (Helpers.product_list xs = 0%Z <-> In 0%Z xs).
Proof.
  split; [| split].
  - unfold Helpers.product_list at 1. rewrite fold_left_app.
    fold (Helpers.product_list xs). apply product_fold.
  - reflexivity.
  - induction xs as [| x xs IH].
    + simpl. split; [discriminate | tauto].
    + unfold Helpers.product_list. cbn [fold_left]. rewrite product_fold.
      split.
      * intros H. apply Z.mul_eq_0 in H. destruct H as [H | H].
        -- left. lia.
        -- right. apply IH, H.
      * intros [-> | H]; [lia |].
        apply IH in H. rewrite H. lia.
Qed.

(** ** [normalise] *)

Lemma fold_max_spec (xs : list R) (x : R) :
  In (fold_left Rmax xs x) (x :: xs)
  /\ forall y, In y (x :: xs) -> y <= fold_left Rmax xs x.
Proof.
  revert x; induction xs as [| a xs IH]; intros x; cbn [fold_left].
  - split; [left; reflexivity |]. intros y [<- | []]. lra.
  - destruct (IH (Rmax x a)) as [Hin Hle]. split.
    + destruct Hin as [E | Hin]; [| right; right; exact Hin].
      rewrite <- E. unfold Rmax. destruct (Rle_dec x a);
        [right; left | left]; reflexivity.
    + intros y [<- | [<- | Hy]].
      * eapply Rle_trans; [apply Rmax_l | apply Hle; left; reflexivity].
      * eapply Rle_trans; [apply Rmax_r | apply Hle; left; reflexivity].
      * apply Hle. right. exact Hy.
Qed.

Lemma fold_min_spec (xs : list R) (x : R) :
  In (fold_left Rmin xs x) (x :: xs)
  /\ forall y, In y (x :: xs) -> fold_left Rmin xs x <= y.
Proof.
  revert x; induction xs as [| a xs IH]; intros x; cbn [fold_left].
  - split; [left; reflexivity |]. intros y [<- | []]. lra.
  - destruct (IH (Rmin x a)) as [Hin Hle]. split.
    + destruct Hin as [E | Hin]; [| right; right; exact Hin].
      rewrite <- E. unfold Rmin. destruct (Rle_dec x a);
        [left | right; left]; reflexivity.
    + intros y [<- | [<- | Hy]].
      * eapply Rle_trans; [apply Hle; left; reflexivity | apply Rmin_l].
      * eapply Rle_trans; [apply Hle; left; reflexivity | apply Rmin_r].
      * apply Hle. right. exact Hy.
Qed.

Lemma unit_interval_quotient (x lo hi : R) :
  lo < hi -> lo <= x <= hi -> 0 <= (x - lo) / (hi - lo) <= 1.
Proof.
  intros Hlt [Hlo Hhi].
  assert (Hinv : 0 < / (hi - lo)) by (apply Rinv_0_lt_compat; lra).
  assert (Hone : (hi - lo) * / (hi - lo) = 1) by (apply Rinv_r; lra).
  unfold Rdiv. split; nra.
Qed.

(** X6: on a list with two different numbers, [normalise] returns one number
    per element, the image of each under the increasing affine map that
    sends the least element to 0 and the greatest to 1; every result lies in
    [0, 1], and 0 and 1 both occur. *)
Theorem normalise_unit_interval (num_list : list R) :
  (exists a b, In a num_list /\ In b num_list /\ a <> b) ->
  exists ys lo hi,
    Helpers.normalise num_list = Builtins.Ok ys
    /\ lo < hi
    /\ In lo num_list /\ In hi num_list
    /\ (forall x, In x num_list -> lo <= x <= hi)
    /\ ys = map (fun x => (x - lo) / (hi - lo)) num_list
    /\ length ys = length num_list
    /\ Forall (fun y => 0 <= y <= 1) ys
    /\ In 0 ys /\ In 1 ys.
Proof.
  intros (a & b & Ha & Hb & Hab).
  destruct num_list as [| x xs]; [contradiction |].
  destruct (fold_max_spec xs x) as [Hmax_in Hmax].
  destruct (fold_min_spec xs x) as [Hmin_in Hmin].
  set (hi := fold_left Rmax xs x) in *.
  set (lo := fold_left Rmin xs x) in *.
  assert (Hlt : lo < hi).
  { pose proof (Hmax a Ha). pose proof (Hmax b Hb).
    pose proof (Hmin a Ha). pose proof (Hmin b Hb).
    destruct (Rtotal_order a b) as [H' | [H' | H']]; [lra | contradiction | lra]. }
  exists (map (fun y => (y - lo) / (hi - lo)) (x :: xs)), lo, hi.
  assert (Hbounds : forall y, In y (x :: xs) -> lo <= y <= hi)
    by (intros y Hy; split; [apply Hmin | apply Hmax]; exact Hy).
  repeat split.
  - unfold Helpers.normalise. fold hi lo.
    destruct (Req_dec_T (hi - lo) 0) as [E | _]; [lra | reflexivity].
  - exact Hlt.
  - exact Hmin_in.
  - exact Hmax_in.
  - apply Hbounds. assumption.
  - apply Hbounds. assumption.
  - apply length_map.
  - apply Forall_forall. intros y Hy.
    apply in_map_iff in Hy. destruct Hy as (z & <- & Hz).
    apply unit_interval_quotient; [exact Hlt | apply Hbounds, Hz].
  - apply in_map_iff. exists lo. split; [| exact Hmin_in].
    unfold Rdiv. ring.
  - apply in_map_iff. exists hi. split; [| exact Hmax_in].
    field. lra.
Qed.

(** X7: over exact reals, that is on lists of finite numbers, [normalise]
    raises [ValueError] on the empty list and [ZeroDivisionError] on a list
    whose numbers are all equal, a list of one number among them. *)
Theorem normalise_errors :
  Helpers.normalise [] = Builtins.Raise Builtins.ValueError
  /\ (forall x, Helpers.normalise [x] = Builtins.Raise Builtins.ZeroDivisionError)
  /\ (forall x xs, (forall y, In y xs -> y = x) ->
        Helpers.normalise (x :: xs) = Builtins.Raise Builtins.ZeroDivisionError).
Proof.
  assert (Hconst : forall x xs, (forall y, In y xs -> y = x) ->
            Helpers.normalise (x :: xs) = Builtins.Raise Builtins.ZeroDivisionError).
  { intros x xs Hall.
    destruct (fold_max_spec xs x) as [Hmax_in _].
    destruct (fold_min_spec xs x) as [Hmin_in _].
    assert (Hmax : fold_left Rmax xs x = x)
      by (destruct Hmax_in as [E | Hin]; [symmetry; exact E | apply Hall, Hin]).
    assert (Hmin : fold_left Rmin xs x = x)
      by (destruct Hmin_in as [E | Hin]; [symmetry; exact E | apply Hall, Hin]).
    unfold Helpers.normalise. rewrite Hmax, Hmin.
    destruct (Req_dec_T (x - x) 0) as [_ | Hne]; [reflexivity | lra]. }
  split; [reflexivity | split].
  - intros x. apply Hconst. intros y [].
  - exact Hconst.
Qed.

(** ** [format_for_windows] *)

Lemma replace_char_length (old new : ascii) (s : string) :
  String.length (Helpers.replace_char old new s) = String.length s.
Proof.
  induction s as [| c s IH]; simpl; [reflexivity | rewrite IH; reflexivity].
Qed.

Lemma replace_char_absent (old new : ascii) (s : string) :
  ~ In old (list_ascii_of_string s) -> Helpers.replace_char old new s = s.
Proof.
  induction s as [| c s IH]; simpl; intros H; [reflexivity |].
  destruct (Ascii.eqb_spec c old) as [E | _].
  - exfalso. apply H. left. exact E.
  - rewrite IH; [reflexivity |]. intros Hin. apply H. right. exact Hin.
Qed.

Lemma replace_char_removes (old new : ascii) (s : string) :
  new <> old -> ~ In old (list_ascii_of_string (Helpers.replace_char old new s)).
Proof.
  intros Hne. induction s as [| c s IH]; simpl; [tauto |].
  intros [E | Hin]; [| exact (IH Hin)].
  destruct (Ascii.eqb_spec c old) as [E' | Hc]; congruence.
Qed.

(** X8: [format_for_windows] keeps the length of the path, leaves no forward
    slash in it, changes nothing in a path without forward slashes, and so
    changes nothing when applied a second time. *)
Theorem format_for_windows_slashes (path_string : string) :
  String.length (Helpers.format_for_windows path_string)
  = String.length path_string
  /\ ~ In Helpers.slash
         (list_ascii_of_string (Helpers.format_for_windows path_string))
  /\ (~ In Helpers.slash (list_ascii_of_string path_string) ->
      Helpers.format_for_windows path_string = path_string)
  /\ Helpers.format_for_windows (Helpers.format_for_windows path_string)
     = Helpers.format_for_windows path_string.
Proof.
  assert (Hrm : ~ In Helpers.slash
           (list_ascii_of_string (Helpers.format_for_windows path_string)))
    by (apply replace_char_removes; discriminate).
  split; [apply replace_char_length | split; [exact Hrm | split]].
  - apply replace_char_absent.
  - apply replace_char_absent, Hrm.
Qed.

(** ** [extract_epoch_num] on arbitrary directories *)

Lemma int_digits_nonneg (s : string) :
  Forall (fun c => PyStr.is_digit c = true) (list_ascii_of_string s) ->
  (0 <= PyStr.int s)%Z.
Proof.
  unfold PyStr.int. generalize (list_ascii_of_string s). intros cs Hall.
  assert (H : forall acc, (0 <= acc)%Z ->
    (0 <= fold_left (fun acc c => 10 * acc + (Z.of_nat (nat_of_ascii c) - 48)) cs acc)%Z).
  { induction Hall as [| c cs Hc _ IH]; intros acc Hacc; cbn [fold_left].
    - exact Hacc.
    - apply IH. unfold PyStr.is_digit in Hc.
      apply andb_prop in Hc. destruct Hc as [Hlo _].
      apply Nat.leb_le in Hlo. lia. }
  apply H. lia.
Qed.

Lemma digits_prefix_digits (s : string) :
  Forall (fun c => PyStr.is_digit c = true)
         (list_ascii_of_string (PyStr.digits_prefix s)).
Proof.
  induction s as [| c s IH]; simpl; [constructor |].
  destruct (PyStr.is_digit c) eqn:Hc; simpl; constructor; assumption.
Qed.

Lemma search_digits_digits (s d : string) :
  PyStr.search_digits s = Some d ->
  Forall (fun c => PyStr.is_digit c = true) (list_ascii_of_string d).
Proof.
  induction s as [| c s IH]; simpl; [discriminate |].
  destruct (PyStr.is_digit c) eqn:Hc.
  - intros H. injection H as <-. simpl. constructor; [exact Hc |].
    apply digits_prefix_digits.
  - exact IH.
Qed.

Lemma checkpoint_number_nonneg (candidate_dir : string) (n : Z) :
  Utils.checkpoint_number candidate_dir = Py.Ok n -> (0 <= n)%Z.
Proof.
  unfold Utils.checkpoint_number.
  destruct (PyStr.from_end _ 2) as [name |]; [| discriminate].
  destruct (PyStr.search_digits name) as [d |] eqn:Hd; [| discriminate].
  intros H. injection H as <-.
  apply int_digits_nonneg. eapply search_digits_digits, Hd.
Qed.

Lemma comprehension_Forall2 {A B : Type} (f : A -> Py.Result B)
  (xs : list A) (ys : list B) :
  Py.comprehension f xs = Py.Ok ys -> Forall2 (fun x y => f x = Py.Ok y) xs ys.
Proof.
  revert ys; induction xs as [| x xs IH]; intros ys H; simpl in H.
  - injection H as <-. constructor.
  - destruct (f x) as [y | e] eqn:Hx; [| discriminate]. simpl in H.
    destruct (Py.comprehension f xs) as [ys' | e]; [| discriminate].
    simpl in H. injection H as <-. constructor; [exact Hx | apply IH; reflexivity].
Qed.

Lemma py_max_spec (n : Z) (ns : list Z) :
  In (Py.max n ns) (n :: ns) /\ Forall (fun k => (k <= Py.max n ns)%Z) (n :: ns).
Proof.
  unfold Py.max. revert n; induction ns as [| a ns IH]; intros n; cbn [fold_left].
  - split; [left; reflexivity | constructor; [lia | constructor]].
  - destruct (IH (Z.max n a)) as [Hin Hall].
    inversion Hall as [| ? ? Hmax Hrest]; subst.
    split.
    + destruct Hin as [E | Hin]; [| right; right; exact Hin].
      rewrite <- E. destruct (Z.max_spec n a) as [[_ ->] | [_ ->]];
        [right; left | left]; reflexivity.
    + constructor; [lia | constructor; [lia | exact Hrest]].
Qed.

(** X9: whatever the directory holds, a number that [extract_epoch_num]
    returns is not negative (so never the marker -1), is the number read
    from one of the candidate directories, and is not less than the number
    of any candidate. *)
Theorem extract_epoch_num_greatest
  (results_dir : string) (entries : list string) (n : Z) :
  Utils.extract_epoch_num results_dir entries = Py.Ok n ->
  (0 <= n)%Z
  /\ exists numbers,
       Forall2 (fun directory k => Utils.checkpoint_number directory = Py.Ok k)
               (filter (fun directory => PyStr.contains "model" directory)
                       (PyStr.glob_subdirectories results_dir entries))
               numbers
       /\ In n numbers
       /\ Forall (fun k => (k <= n)%Z) numbers.
Proof.
  unfold Utils.extract_epoch_num.
  set (candidate_dirs := filter _ _).
  destruct candidate_dirs as [| d ds] eqn:Hc; [discriminate |].
  destruct (Py.comprehension Utils.checkpoint_number (d :: ds))
    as [numbers | e] eqn:Hn; [| discriminate].
  simpl. destruct numbers as [| k ks]; [discriminate |].
  intros H. injection H as <-.
  pose proof (comprehension_Forall2 _ _ _ Hn) as Hall.
  destruct (py_max_spec k ks) as [Hin Hmax].
  split.
  - rewrite Forall_forall in Hmax.
    inversion Hall as [| ? ? ? ? Hd _]; subst.
    apply checkpoint_number_nonneg in Hd.
    specialize (Hmax k (or_introl eq_refl)). lia.
  - exists (k :: ks). split; [exact Hall | split; [exact Hin | exact Hmax]].
Qed.

(** *** Paths built from a directory and a name *)












(** ** The discriminator loss as a function of the logits *)

Lemma sce_target_one (x : R) :
  Rmax x 0 - x * 1 + ln (1 + exp (- Rabs x)) = ln (1 + exp (- x)).
Proof.
  destruct (Rle_dec 0 x) as [Hx | Hx].
  - rewrite Rmax_left, Rabs_pos_eq by lra. lra.
  - rewrite Rmax_right, Rabs_left by lra. rewrite Ropp_involutive.
    rewrite (ln_one_plus_exp_neg x). lra.
Qed.

Lemma sce_target_zero (x : R) :
  Rmax x 0 - x * 0 + ln (1 + exp (- Rabs x)) = ln (1 + exp x).
Proof.
  destruct (Rle_dec 0 x) as [Hx | Hx].
  - rewrite Rmax_left, Rabs_pos_eq by lra.
    rewrite (ln_one_plus_exp_neg x). lra.
  - rewrite Rmax_right, Rabs_left by lra. rewrite Ropp_involutive. lra.
Qed.

Lemma zip_with_constant (f : R -> R -> R) (c : R) (xs : list R) :
  zip_with f (map (fun _ => c) xs) xs = map (f c) xs.
Proof.
  induction xs as [| x xs IH]; simpl; [reflexivity | rewrite IH; reflexivity].
Qed.

Lemma real_term_values (t : Tensor) :
  reduce_mean (sigmoid_cross_entropy_with_logits (ones_like t) t)
  = total (map (fun x => ln (1 + exp (- x))) (values t)) / INR (length (values t)).
Proof.
  unfold reduce_mean, sigmoid_cross_entropy_with_logits, ones_like, tzip, tmap;
    simpl.
  rewrite zip_with_constant, length_map.
  rewrite (map_ext _ (fun x => ln (1 + exp (- x)))) by (intros; apply sce_target_one).
  reflexivity.
Qed.

Lemma zero_term_values (t : Tensor) :
  reduce_mean (sigmoid_cross_entropy_with_logits (zeros_like t) t)
  = total (map (fun x => ln (1 + exp x)) (values t)) / INR (length (values t)).
Proof.
  unfold reduce_mean, sigmoid_cross_entropy_with_logits, zeros_like, tzip, tmap;
    simpl.
  rewrite zip_with_constant, length_map.
  rewrite (map_ext _ (fun x => ln (1 + exp x))) by (intros; apply sce_target_zero).
  reflexivity.
Qed.

Lemma softplus_pos (x : R) : 0 < ln (1 + exp x).
Proof.
  rewrite <- ln_1. apply ln_increasing; [lra |].
  pose proof (exp_pos x). lra.
Qed.

Lemma softplus_increasing (x y : R) : x < y -> ln (1 + exp x) < ln (1 + exp y).
Proof.
  intros H. pose proof (exp_pos x). pose proof (exp_increasing x y H).
  apply ln_increasing; lra.
Qed.

Lemma total_map_pos (g : R -> R) (xs : list R) :
  (forall x, 0 < g x) -> xs <> [] -> 0 < total (map g xs).
Proof.
  intros Hg Hne. destruct xs as [| x xs]; [congruence |]. simpl.
  assert (H : 0 <= total (map g xs)).
  { apply total_nonneg, Forall_forall. intros y Hy.
    apply in_map_iff in Hy. destruct Hy as (z & <- & _). left. apply Hg. }
  pose proof (Hg x). lra.
Qed.

Lemma total_map_lt (g h : R -> R) (xs ys : list R) :
  Forall2 (fun x y => g x < h y) xs ys -> xs <> [] ->
  total (map g xs) < total (map h ys).
Proof.
  intros H. induction H as [| x y xs ys Hxy Hrest IH]; [congruence |].
  intros _. simpl. destruct xs as [| x' xs].
  - inversion Hrest; subst. simpl. lra.
  - assert (total (map g (x' :: xs)) < total (map h ys)) by (apply IH; discriminate).
    lra.
Qed.

Lemma mean_pos (s : R) (n : nat) : 0 < s -> (0 < n)%nat -> 0 < s / INR n.
Proof.
  intros Hs Hn. apply Rdiv_lt_0_compat; [exact Hs | apply lt_0_INR, Hn].
Qed.

Lemma mean_lt (s s' : R) (n : nat) : s < s' -> (0 < n)%nat -> s / INR n < s' / INR n.
Proof.
  intros Hs Hn. unfold Rdiv. apply Rmult_lt_compat_r; [| exact Hs].
  apply Rinv_0_lt_compat, lt_0_INR, Hn.
Qed.

Lemma length_pos {A : Type} (xs : list A) : xs <> [] -> (0 < length xs)%nat.
Proof. destruct xs; [congruence | simpl; lia]. Qed.

(** X11: on non-empty predictions [DiscriminatorStage1.loss] is strictly
    positive, whatever the logits: the discriminator never reaches a loss
    of 0. *)
Theorem discriminator_loss_positive (real wrong fake : Tensor) :
  values real <> [] -> values wrong <> [] -> values fake <> [] ->
  0 < Discriminators.loss real wrong fake.
Proof.
  intros Hr Hw Hf. unfold Discriminators.loss.
  rewrite real_term_values, !zero_term_values.
  assert (0 < total (map (fun x => ln (1 + exp (- x))) (values real))
              / INR (length (values real)))
    by (apply mean_pos; [apply total_map_pos; [intros; apply softplus_pos | exact Hr]
                        | apply length_pos, Hr]).
  assert (0 < total (map (fun x => ln (1 + exp x)) (values wrong))
              / INR (length (values wrong)))
    by (apply mean_pos; [apply total_map_pos; [intros; apply softplus_pos | exact Hw]
                        | apply length_pos, Hw]).
  assert (0 < total (map (fun x => ln (1 + exp x)) (values fake))
              / INR (length (values fake)))
    by (apply mean_pos; [apply total_map_pos; [intros; apply softplus_pos | exact Hf]
                        | apply length_pos, Hf]).
  lra.
Qed.

(** X12: over exact reals, [DiscriminatorStage1.loss] strictly decreases
    when every logit on the real images increases, and strictly increases
    when every logit on the wrong images, or every logit on the fake images,
    increases. *)
Theorem discriminator_loss_monotone (real wrong fake other : Tensor) :
  (values real <> [] -> Forall2 Rlt (values real) (values other) ->
   Discriminators.loss other wrong fake < Discriminators.loss real wrong fake)
  /\ (values wrong <> [] -> Forall2 Rlt (values wrong) (values other) ->
      Discriminators.loss real wrong fake < Discriminators.loss real other fake)
  /\ (values fake <> [] -> Forall2 Rlt (values fake) (values other) ->
      Discriminators.loss real wrong fake < Discriminators.loss real wrong other).
Proof.
  assert (Hup : forall a b : Tensor,
    values a <> [] -> Forall2 Rlt (values a) (values b) ->
    total (map (fun x => ln (1 + exp x)) (values a)) / INR (length (values a))
    < total (map (fun x => ln (1 + exp x)) (values b)) / INR (length (values b))).
  { intros a b Hne Hlt. rewrite <- (Forall2_length Hlt).
    apply mean_lt; [| apply length_pos, Hne].
    apply total_map_lt; [| exact Hne].
    eapply Forall2_impl; [| exact Hlt]. intros x y. apply softplus_increasing. }
  assert (Hdown : forall a b : Tensor,
    values a <> [] -> Forall2 Rlt (values a) (values b) ->
    total (map (fun x => ln (1 + exp (- x))) (values b)) / INR (length (values b))
    < total (map (fun x => ln (1 + exp (- x))) (values a)) / INR (length (values a))).
  { intros a b Hne Hlt. rewrite <- (Forall2_length Hlt).
    apply mean_lt; [| apply length_pos, Hne].
    apply total_map_lt.
    - apply Forall2_flip. eapply Forall2_impl; [| exact Hlt].
      intros x y Hxy. apply softplus_increasing. lra.
    - intros E. apply Hne. apply Forall2_length in Hlt. rewrite E in Hlt.
      destruct (values a); [reflexivity | discriminate]. }
  unfold Discriminators.loss.
  rewrite !real_term_values, !zero_term_values.
  split; [| split]; intros Hne Hlt.
  - pose proof (Hdown real other Hne Hlt). lra.
  - pose proof (Hup wrong other Hne Hlt). lra.
  - pose proof (Hup fake other Hne Hlt). lra.
Qed.

(** ** Failing steps, validation and the report of an epoch *)

Section Stage2Further.
Context `{RG : RandomGenerator} `{GL : !Stage1.GeneratorLayers}
        `{NW : !Stage2.Networks}.
Import Stage2.

(** *** The optimizers are written by [apply_gradients] only *)

Lemma optimizers_bind {A B : Type} (m : M A) (k : A -> M B) :
  keeps_optimizers m -> (forall a, keeps_optimizers (k a)) ->
  keeps_optimizers (bind m k).
Proof.
  intros Hm Hk s. unfold bind.
  specialize (Hm s). destruct (m s) as [[a | e] s1]; simpl in *.
  - rewrite Hk. exact Hm.
  - exact Hm.
Qed.

Lemma optimizers_ret {A : Type} (a : A) : keeps_optimizers (ret a).
Proof. intros s. reflexivity. Qed.

Lemma optimizers_lift {A : Type} (r : Py.Result A) : keeps_optimizers (lift r).
Proof. intros s. reflexivity. Qed.

Lemma optimizers_assert (c : bool) (msg : string) : keeps_optimizers (assert c msg).
Proof. intros s. destruct c; reflexivity. Qed.

Lemma optimizers_random_normal (sh : list nat) :
  keeps_optimizers (tf_random_normal sh).
Proof.
  intros s. unfold tf_random_normal.
  destruct (random_normal sh (rng s)). reflexivity.
Qed.

Lemma optimizers_call_stage_1_generator (self : Stage2Trainer)
  (inputs : Tensor * Tensor) (training : bool) :
  keeps_optimizers (call_stage_1_generator self inputs training).
Proof.
  intros s. unfold call_stage_1_generator.
  destruct (Keras.invoke _ _ _ _ _) as [[out layer] g]. reflexivity.
Qed.

Lemma optimizers_call_generator (inputs : Tensor * Tensor) (training : bool) :
  keeps_optimizers (call_generator inputs training).
Proof.
  intros s. unfold call_generator.
  destruct (Keras.invoke _ _ _ _ _) as [[out layer] g]. reflexivity.
Qed.

Lemma optimizers_call_discriminator (inputs : Tensor * Tensor) (training : bool) :
  keeps_optimizers (call_discriminator inputs training).
Proof.
  intros s. unfold call_discriminator.
  destruct (Keras.invoke _ _ _ _ _) as [[out layer] g]. reflexivity.
Qed.

Lemma optimizers_retrieve_kl_loss : keeps_optimizers retrieve_kl_loss.
Proof. intros s. reflexivity. Qed.

Ltac optimizers_kept :=
  repeat first
    [ apply optimizers_bind; [| intros ?]
    | apply optimizers_ret | apply optimizers_lift | apply optimizers_assert
    | apply optimizers_random_normal | apply optimizers_call_stage_1_generator
    | apply optimizers_call_generator | apply optimizers_call_discriminator
    | apply optimizers_retrieve_kl_loss ].

Lemma optimizers_forward_pass (self : Stage2Trainer) (training : bool)
  (sample : Batch) :
  keeps_optimizers (forward_pass self training sample).
Proof. unfold forward_pass. optimizers_kept. Qed.

Lemma optimizers_val_step (self : Stage2Trainer) (sample : Batch) :
  keeps_optimizers (val_step self sample).
Proof.
  unfold val_step.
  apply optimizers_bind; [apply optimizers_forward_pass | intros p].
  optimizers_kept.
Qed.

Lemma optimizers_epoch_loop (step : Batch -> M StepLosses) (samples : list Batch) :
  (forall sample, keeps_optimizers (step sample)) ->
  forall next_idx acc batch_idx,
    keeps_optimizers (epoch_loop step samples next_idx acc batch_idx).
Proof.
  intros Hstep. induction samples as [| sample rest IH]; intros; simpl.
  - apply optimizers_ret.
  - apply optimizers_bind; [apply Hstep | intros l; apply IH].
Qed.

(** X13: a validation epoch takes no optimizer step: whatever the loader
    holds and however the epoch ends, both optimizers (learning rate, step
    count, moments) are afterwards what they were before. *)
Theorem val_epoch_keeps_optimizers
  (self : Stage2Trainer) (val_loader : list Batch) (s : Store) :
  generator_optimizer (snd (val_epoch self val_loader s)) = generator_optimizer s
  /\ discriminator_optimizer (snd (val_epoch self val_loader s))
     = discriminator_optimizer s.
Proof.
  assert (H : keeps_optimizers (val_epoch self val_loader)).
  { unfold val_epoch, run_epoch.
    apply optimizers_bind;
      [apply optimizers_epoch_loop; intros; apply optimizers_val_step
      | intros; apply optimizers_lift]. }
  specialize (H s). unfold optimizers in H. injection H as Hg Hd.
  split; assumption.
Qed.

(** *** What a step can raise *)

Lemma assertions_bind {A B : Type} (m : M A) (k : A -> M B) :
  raises_only_assertions m -> (forall a, raises_only_assertions (k a)) ->
  raises_only_assertions (bind m k).
Proof.
  intros Hm Hk s e s' H. unfold bind in H.
  destruct (m s) as [[a | e0] s1] eqn:E.
  - eapply Hk, H.
  - injection H as <- _. eapply Hm, E.
Qed.

Lemma assertions_ret {A : Type} (a : A) : raises_only_assertions (ret a).
Proof. intros s e s' H. discriminate H. Qed.

Lemma assertions_random_normal (sh : list nat) :
  raises_only_assertions (tf_random_normal sh).
Proof.
  intros s e s' H. unfold tf_random_normal in H.
  destruct (random_normal sh (rng s)). discriminate H.
Qed.

Lemma assertions_call_stage_1_generator (self : Stage2Trainer)
  (inputs : Tensor * Tensor) (training : bool) :
  raises_only_assertions (call_stage_1_generator self inputs training).
Proof.
  intros s e s' H. unfold call_stage_1_generator in H.
  destruct (Keras.invoke _ _ _ _ _) as [[out layer] g]. discriminate H.
Qed.

Lemma assertions_call_generator (inputs : Tensor * Tensor) (training : bool) :
  raises_only_assertions (call_generator inputs training).
Proof.
  intros s e s' H. unfold call_generator in H.
  destruct (Keras.invoke _ _ _ _ _) as [[out layer] g]. discriminate H.
Qed.

Lemma assertions_call_discriminator (inputs : Tensor * Tensor) (training : bool) :
  raises_only_assertions (call_discriminator inputs training).
Proof.
  intros s e s' H. unfold call_discriminator in H.
  destruct (Keras.invoke _ _ _ _ _) as [[out layer] g]. discriminate H.
Qed.

Lemma assertions_assert_fakes (c : bool) :
  raises_only_assertions (assert c fakes_message).
Proof.
  intros s e s' H. destruct c; simpl in H; [discriminate H |].
  injection H as <- _. left. reflexivity.
Qed.

Lemma assertions_assert_predictions (c : bool) :
  raises_only_assertions (assert c predictions_message).
Proof.
  intros s e s' H. destruct c; simpl in H; [discriminate H |].
  injection H as <- _. right. reflexivity.
Qed.

Lemma assertions_forward_pass (self : Stage2Trainer) (training : bool)
  (sample : Batch) :
  raises_only_assertions (forward_pass self training sample).
Proof.
  unfold forward_pass.
  repeat first
    [ apply assertions_bind; [| intros ?]
    | apply assertions_ret | apply assertions_random_normal
    | apply assertions_call_stage_1_generator | apply assertions_call_generator
    | apply assertions_call_discriminator
    | apply assertions_assert_fakes | apply assertions_assert_predictions ].
Qed.

Lemma train_step_raise (self : Stage2Trainer) (sample : Batch)
  (s s' : Store) (e : Py.Error) :
  train_step self sample s = (Py.Raise e, s') ->
  forward_pass self true sample s = (Py.Raise e, s').
Proof.
  intros H.
  destruct (forward_pass self true sample s) as [[p | e0] s1] eqn:Hf.
  - destruct (train_step_of_forward_pass self sample s s1 p Hf) as [s2 E].
    rewrite E in H. discriminate H.
  - unfold train_step, bind, get in H. rewrite Hf in H.
    injection H as <- <-. reflexivity.
Qed.

(** X14: when a training step raises one of its two shape assertions, no
    optimizer step has been taken: both optimizers are what they were before
    the step.  (What the calls of the framework may raise themselves is
    outside the model.) *)
Theorem failed_assertion_takes_no_optimizer_step
  (self : Stage2Trainer) (sample : Batch) (s s' : Store) (e : Py.Error) :
  train_step self sample s = (Py.Raise e, s') ->
  shape_assertion e ->
  generator_optimizer s' = generator_optimizer s
  /\ discriminator_optimizer s' = discriminator_optimizer s.
Proof.
  intros H _. apply train_step_raise in H.
  pose proof (optimizers_forward_pass self true sample s) as Hopt.
  rewrite H in Hopt. unfold optimizers in Hopt. simpl in Hopt.
  injection Hopt as Hg Hd. split; assumption.
Qed.

(** *** An epoch stops at the first step that raises *)

Lemma run_steps_stops (step : Batch -> M StepLosses)
  (before : list Batch) (failing : Batch) (rest : list Batch) :
  forall (s s1 s2 : Store) (ls : list StepLosses) (e : Py.Error),
    run_steps step before s = (Py.Ok ls, s1) ->
    step failing s1 = (Py.Raise e, s2) ->
    run_steps step (before ++ failing :: rest) s = (Py.Raise e, s2).
Proof.
  induction before as [| sample before IH]; intros s s1 s2 ls e Hrun Hfail;
    simpl in *.
  - injection Hrun as _ <-. unfold bind. rewrite Hfail. reflexivity.
  - unfold bind in *. destruct (step sample s) as [[l | e0] s0]; [| discriminate].
    destruct (run_steps step before s0) as [[ls0 | e0] s3] eqn:Hr; [| discriminate].
    injection Hrun as _ <-.
    rewrite (IH s0 s3 s2 ls0 e Hr Hfail). reflexivity.
Qed.

Lemma run_epoch_stops (step : Batch -> M StepLosses)
  (before : list Batch) (failing : Batch) (rest : list Batch)
  (s s1 s2 : Store) (ls : list StepLosses) (e : Py.Error) :
  run_steps step before s = (Py.Ok ls, s1) ->
  step failing s1 = (Py.Raise e, s2) ->
  run_epoch step (before ++ failing :: rest) s = (Py.Raise e, s2).
Proof.
  intros Hrun Hfail. unfold run_epoch, bind.
  rewrite epoch_loop_run_steps.
  rewrite (run_steps_stops step before failing rest s s1 s2 ls e Hrun Hfail).
  reflexivity.
Qed.

(** X15: when the steps on the batches before some batch complete and the
    step on that batch raises, the epoch raises the same exception and ends
    in the store that step left: the batches after it are not run and no
    record is returned.  This holds for training and for validation. *)
Theorem epoch_stops_at_first_failing_step
  (self : Stage2Trainer) (before : list Batch) (failing : Batch)
  (rest : list Batch) (s s1 s2 : Store) (ls : list StepLosses) (e : Py.Error) :
  (run_steps (train_step self) before s = (Py.Ok ls, s1) ->
   train_step self failing s1 = (Py.Raise e, s2) ->
   train_epoch self (before ++ failing :: rest) s = (Py.Raise e, s2))
  /\ (run_steps (val_step self) before s = (Py.Ok ls, s1) ->
      val_step self failing s1 = (Py.Raise e, s2) ->
      val_epoch self (before ++ failing :: rest) s = (Py.Raise e, s2)).
Proof.
  split; intros Hrun Hfail; eapply run_epoch_stops; eassumption.
Qed.

(** *** The entries of a report *)

Lemma epoch_mean_value (acc : Py.Num) (batch_idx : option nat) (v : R) :
  epoch_mean acc batch_idx = Py.Ok v ->
  exists i, batch_idx = Some i /\ v = Py.to_R acc / INR (i + 1).
Proof.
  unfold epoch_mean. destruct acc as [z | r]; simpl; [discriminate |].
  destruct batch_idx as [i |]; [| discriminate].
  intros H. injection H as <-. exists i. split; reflexivity.
Qed.

Lemma weighted_totals (ls : list StepLosses) :
  Forall (fun l => discriminator_loss l
                   = disc_real_loss l + 0.5 * disc_wrong_loss l
                     + 0.5 * disc_fake_loss l) ls ->
  total (map discriminator_loss ls)
  = total (map disc_real_loss ls) + 0.5 * total (map disc_wrong_loss ls)
    + 0.5 * total (map disc_fake_loss ls).
Proof.
  induction 1 as [| l ls Hl _ IH]; simpl; [lra | rewrite Hl, IH; lra].
Qed.

Lemma step_losses_weighted (target : Tensor) (p : Predictions) (kl : Py.Num) :
  discriminator_loss (step_losses target p kl)
  = disc_real_loss (step_losses target p kl)
    + 0.5 * disc_wrong_loss (step_losses target p kl)
    + 0.5 * disc_fake_loss (step_losses target p kl).
Proof. reflexivity. Qed.

Lemma to_R_tensors (f : StepLosses -> R) (ls : list StepLosses) :
  map Py.to_R (map (fun l => Py.EagerTensor (f l)) ls) = map f ls.
Proof. rewrite map_map. reflexivity. Qed.

Lemma run_epoch_weights (step : Batch -> M StepLosses) (samples : list Batch)
  (s s' : Store) (r : Report) :
  (forall sample s0 l s1, step sample s0 = (Py.Ok l, s1) ->
     discriminator_loss l
     = disc_real_loss l + 0.5 * disc_wrong_loss l + 0.5 * disc_fake_loss l) ->
  run_epoch step samples s = (Py.Ok r, s') ->
  weights_hold r.
Proof.
  intros Hstep H. unfold run_epoch, bind in H.
  rewrite epoch_loop_run_steps in H.
  destruct (run_steps step samples s) as [[ls | e] s1] eqn:Hrun; [| discriminate].
  unfold lift in H. simpl in H.
  pose proof (run_steps_Forall _ step Hstep samples s ls s1 Hrun) as Hall.
  apply weighted_totals in Hall.
  set (acc := fold_left accumulate ls initial_accumulators) in *.
  set (idx := last_index 0 None (length samples)) in *.
  unfold epoch_report in H.
  destruct (epoch_mean (acc_generator_loss acc) idx) as [g |]; [| discriminate].
  destruct (epoch_mean (acc_discriminator_loss acc) idx) as [d |] eqn:Hd;
    [| discriminate].
  destruct (epoch_mean (acc_kl_loss acc) idx) as [k |]; [| discriminate].
  destruct (epoch_mean (acc_disc_real_loss acc) idx) as [re |] eqn:Hre;
    [| discriminate].
  destruct (epoch_mean (acc_disc_wrong_loss acc) idx) as [w |] eqn:Hw;
    [| discriminate].
  destruct (epoch_mean (acc_disc_fake_loss acc) idx) as [f |] eqn:Hf;
    [| discriminate].
  simpl in H. injection H as <- _.
  apply epoch_mean_value in Hd, Hre, Hw, Hf.
  destruct Hd as (i & Hi & ->). destruct Hre as (i1 & Hi1 & ->).
  destruct Hw as (i2 & Hi2 & ->). destruct Hf as (i3 & Hi3 & ->).
  rewrite Hi in Hi1, Hi2, Hi3.
  injection Hi1 as <-. injection Hi2 as <-. injection Hi3 as <-.
  unfold weights_hold, acc; simpl.
  rewrite acc_discriminator_loss_fold, acc_disc_real_loss_fold,
    acc_disc_wrong_loss_fold, acc_disc_fake_loss_fold.
  rewrite !fold_add_to_R, !to_R_tensors, Hall. simpl. unfold Rdiv. ring.
Qed.

(** X16: in every record an epoch returns, for training and for validation,
    the discriminator loss is the real-image loss plus half the wrong-image
    loss plus half the fake-image loss: the weights of a step carry over to
    the epoch means. *)
Theorem report_keeps_the_weights
  (self : Stage2Trainer) (loader : list Batch) (s s' : Store) (r : Report) :
  (train_epoch self loader s = (Py.Ok r, s') -> weights_hold r)
  /\ (val_epoch self loader s = (Py.Ok r, s') -> weights_hold r).
Proof.
  split; apply run_epoch_weights.
  - intros sample s0 l s1 H.
    destruct (train_step_inversion self sample s0 s1 l H) as (p & s2 & _ & ->).
    apply step_losses_weighted.
  - intros sample s0 l s1 H.
    destruct (val_step_inversion self sample s0 s1 l H) as (p & _ & ->).
    apply step_losses_weighted.
Qed.

End Stage2Further.

(** ** [kl_loss] vanishes at the standard normal only *)

Lemma kl_term_zero_only (s m : R) : kl_term s m = 0 -> s = 0 /\ m = 0.
Proof.
  unfold kl_term. intros H.
  pose proof (Rle_0_sqr m) as Hm. unfold Rsqr in Hm.
  destruct (Req_dec s 0) as [Hs | Hs].
  - subst s. rewrite Rmult_0_r, exp_0 in H.
    split; [reflexivity |]. nra.
  - exfalso. pose proof (exp_ineq1 (2 * s) ltac:(lra)). lra.
Qed.

Lemma total_zero_terms (xs : list R) :
  Forall (fun x => 0 <= x) xs -> total xs = 0 -> Forall (fun x => x = 0) xs.
Proof.
  induction 1 as [| x xs Hx Hxs IH]; simpl; intros H; constructor.
  - pose proof (total_nonneg xs Hxs). lra.
  - apply IH. pose proof (total_nonneg xs Hxs). lra.
Qed.

Lemma zip_with_zero_terms (ss ms : list R) :
  length ms = length ss ->
  Forall (fun v => v = 0) (zip_with kl_term ss ms) ->
  Forall (fun v => v = 0) ms /\ Forall (fun v => v = 0) ss.
Proof.
  revert ms; induction ss as [| s ss IH]; intros [| m ms] Hlen H;
    try discriminate; [split; constructor |].
  simpl in H. inversion H as [| ? ? Hz Hrest]; subst.
  apply kl_term_zero_only in Hz. destruct Hz as [-> ->].
  destruct (IH ms ltac:(simpl in Hlen; lia) Hrest) as [Hm Hs].
  split; constructor; auto.
Qed.

(** X17: on tensors of one shape with at least one element, [kl_loss] is 0
    only when every mean and every log-sigma is 0; for any other
    conditioning distribution it is strictly positive. *)
Theorem kl_loss_zero_only_at_standard_normal (mean log_sigma : Tensor) :
  length (values mean) = length (values log_sigma) ->
  values mean <> [] ->
  (Utils.kl_loss mean log_sigma = 0 ->
   Forall (fun v => v = 0) (values mean)
   /\ Forall (fun v => v = 0) (values log_sigma))
  /\ (~ (Forall (fun v => v = 0) (values mean)
         /\ Forall (fun v => v = 0) (values log_sigma)) ->
      0 < Utils.kl_loss mean log_sigma).
Proof.
  intros Hlen Hne.
  assert (Hnonneg : Forall (fun x => 0 <= x)
            (zip_with kl_term (values log_sigma) (values mean)))
    by (apply zip_with_Forall; intros; apply kl_term_nonneg).
  assert (Hpos : 0 < INR (length (zip_with kl_term (values log_sigma) (values mean)))).
  { rewrite zip_with_length by (symmetry; exact Hlen). rewrite <- Hlen.
    apply INR_length_pos, Hne. }
  assert (Hzero : Utils.kl_loss mean log_sigma = 0 ->
            Forall (fun v => v = 0) (values mean)
            /\ Forall (fun v => v = 0) (values log_sigma)).
  { rewrite kl_loss_values. intros H.
    apply zip_with_zero_terms; [exact Hlen |].
    apply total_zero_terms; [exact Hnonneg |].
    unfold Rdiv in H. apply Rmult_integral in H. destruct H as [H | H];
      [exact H |].
    exfalso. pose proof (Rinv_0_lt_compat _ Hpos). lra. }
  split; [exact Hzero |].
  intros Hnot.
  assert (Hge : 0 <= Utils.kl_loss mean log_sigma).
  { rewrite kl_loss_values. apply Rmult_le_pos.
    - apply total_nonneg, Hnonneg.
    - left. apply Rinv_0_lt_compat, Hpos. }
  destruct Hge as [Hlt | Heq]; [exact Hlt |].
  exfalso. apply Hnot, Hzero. symmetry. exact Heq.
Qed.

(** ** The two networks pull the fake logits apart *)

Lemma binary_crossentropy_ones (t : Tensor) :
  BinaryCrossentropy (ones_like t) t
  = total (map (fun x => ln (1 + exp (- x))) (values t)) / INR (length (values t)).
Proof. apply real_term_values. Qed.

Lemma binary_crossentropy_zeros (t : Tensor) :
  BinaryCrossentropy (zeros_like t) t
  = total (map (fun x => ln (1 + exp x)) (values t)) / INR (length (values t)).
Proof. apply zero_term_values. Qed.

Section Adversarial.
Import Stage2.

(** X18: over exact reals, in the losses of a step, raising every logit the
    discriminator gives the fake images strictly lowers the generator's loss
    and strictly raises the fake-image term and the total of the
    discriminator's loss, the other predictions and the KL term being the
    same. *)
Theorem fake_logits_oppose_the_networks
  (target real wrong fake fake' : Tensor) (kl : Py.Num) :
  values fake <> [] ->
  Forall2 Rlt (values fake) (values fake') ->
  generator_loss (step_losses target (mkPredictions real wrong fake') kl)
  < generator_loss (step_losses target (mkPredictions real wrong fake) kl)
  /\ disc_fake_loss (step_losses target (mkPredictions real wrong fake) kl)
     < disc_fake_loss (step_losses target (mkPredictions real wrong fake') kl)
  /\ discriminator_loss (step_losses target (mkPredictions real wrong fake) kl)
     < discriminator_loss (step_losses target (mkPredictions real wrong fake') kl).
Proof.
  intros Hne Hlt. unfold step_losses; simpl.
  rewrite !binary_crossentropy_ones, !binary_crossentropy_zeros.
  rewrite <- (Forall2_length Hlt).
  assert (Hup : total (map (fun x => ln (1 + exp x)) (values fake))
                / INR (length (values fake))
                < total (map (fun x => ln (1 + exp x)) (values fake'))
                  / INR (length (values fake))).
  { apply mean_lt; [| apply length_pos, Hne].
    apply total_map_lt; [| exact Hne].
    eapply Forall2_impl; [| exact Hlt]. intros x y. apply softplus_increasing. }
  assert (Hdown : total (map (fun x => ln (1 + exp (- x))) (values fake'))
                  / INR (length (values fake))
                  < total (map (fun x => ln (1 + exp (- x))) (values fake))
                    / INR (length (values fake))).
  { apply mean_lt; [| apply length_pos, Hne].
    apply total_map_lt.
    - apply Forall2_flip. eapply Forall2_impl; [| exact Hlt].
      intros x y Hxy. apply softplus_increasing. lra.
    - intros E. apply Hne. apply Forall2_length in Hlt. rewrite E in Hlt.
      destruct (values fake); [reflexivity | discriminate]. }
  repeat split; lra.
Qed.

End Adversarial.

(** ** The further properties on concrete inputs *)

Lemma chunks_concat_witness :
  exists cs, Helpers.chunks five_numbers 2 = Builtins.Ok cs
             /\ concat cs = five_numbers.
Proof.
  assert (H : (0 < 2)%Z) by lia.
  exact (chunks_concat five_numbers 2 H).
Defined.

Lemma chunks_sizes_witness :
  exists cs, Helpers.chunks five_numbers 2 = Builtins.Ok cs /\ length cs = 3%nat.
Proof.
  assert (H : (0 < 2)%Z) by lia.
  destruct (chunks_sizes five_numbers 2 H) as (cs & Hcs & Hlen & _).
  exists cs. split; [exact Hcs | rewrite Hlen; reflexivity].
Defined.

Lemma chunk_list_concat_witness :
  exists cs, Helpers.chunk_list five_numbers 2 4 = Builtins.Ok cs
             /\ concat cs = five_numbers /\ length cs = 2%nat.
Proof.
  assert (H : (0 < 2)%Z) by lia.
  assert (Hne : Builtins.slice_to five_numbers 4 <> []) by discriminate.
  destruct (chunk_list_concat five_numbers 2 4 H Hne) as (cs & Hcs & Hcat & Hlen).
  exists cs. split; [exact Hcs | split; [exact Hcat | rewrite Hlen; reflexivity]].
Defined.

Lemma chunk_list_errors_witness :
  Helpers.chunk_list five_numbers 0 4 = Builtins.Raise Builtins.ValueError
  /\ Helpers.chunk_list five_numbers (-2) 4 = Builtins.Raise Builtins.IndexError
  /\ Helpers.chunk_list five_numbers 2 0 = Builtins.Raise Builtins.IndexError.
Proof.
  destruct (chunk_list_errors five_numbers 0 4) as (Hzero & _).
  destruct (chunk_list_errors five_numbers (-2) 4) as (_ & Hneg & _).
  destruct (chunk_list_errors five_numbers 2 0) as (_ & _ & Hempty & Hnil & _).
  split; [apply Hzero; reflexivity | split; [apply Hneg; lia |]].
  apply Hempty; [lia | exact Hnil].
Defined.

Lemma normalise_unit_interval_witness :
  exists ys, Helpers.normalise [1; 3; 2] = Builtins.Ok ys
             /\ length ys = 3%nat /\ In 0 ys /\ In 1 ys.
Proof.
  assert (H : exists a b, In a [1; 3; 2] /\ In b [1; 3; 2] /\ a <> b).
  { exists 1, 3. split; [left; reflexivity | split; [right; left; reflexivity |]].
    lra. }
  destruct (normalise_unit_interval [1; 3; 2] H)
    as (ys & lo & hi & Hok & _ & _ & _ & _ & _ & Hlen & _ & H0 & H1).
  exists ys. split; [exact Hok | split; [exact Hlen | split; assumption]].
Defined.

Lemma normalise_errors_witness :
  Helpers.normalise [5; 5; 5] = Builtins.Raise Builtins.ZeroDivisionError.
Proof.
  apply (proj2 (proj2 normalise_errors) 5 [5; 5]).
  intros y [<- | [<- | []]]; reflexivity.
Defined.

Lemma format_for_windows_slashes_witness :
  Helpers.format_for_windows "images" = "images"%string.
Proof.
  apply (proj1 (proj2 (proj2 (format_for_windows_slashes "images")))).
  simpl. intros H. repeat destruct H as [H | H]; try discriminate H; exact H.
Defined.

Lemma extract_epoch_num_greatest_witness :
  (0 <= 10)%Z
  /\ exists numbers,
       Forall2 (fun directory k => Utils.checkpoint_number directory = Py.Ok k)
               (filter (fun directory => PyStr.contains "model" directory)
                       (PyStr.glob_subdirectories "results/xray/stage-1"
                                                  checkpoint_entries))
               numbers
       /\ In 10%Z numbers
       /\ Forall (fun k => (k <= 10)%Z) numbers.
Proof.
  exact (extract_epoch_num_greatest "results/xray/stage-1" checkpoint_entries 10
           eq_refl).
Defined.


Lemma discriminator_loss_positive_witness :
  0 < Discriminators.loss (logit 1) (logit 0) (logit 0).
Proof.
  apply discriminator_loss_positive; discriminate.
Defined.

Lemma discriminator_loss_monotone_witness :
  Discriminators.loss (logit 2) (logit 0) (logit 0)
  < Discriminators.loss (logit 1) (logit 0) (logit 0).
Proof.
  apply (proj1 (discriminator_loss_monotone (logit 1) (logit 0) (logit 0) (logit 2))).
  - discriminate.
  - repeat constructor. lra.
Defined.

Lemma train_step_mismatched (s : Stage2.Store) :
  exists s',
    Stage2.train_step trainer_0 batch_mismatched s
    = (Py.Raise (Py.AssertionError Stage2.fakes_message), s').
Proof.
  eexists.
  unfold Stage2.train_step, Stage2.forward_pass, Stage2.bind, Stage2.get,
    Stage2.tf_random_normal, Stage2.call_stage_1_generator,
    Stage2.call_generator, Stage2.assert, Stage2.raise, Keras.invoke.
  simpl. reflexivity.
Qed.

Lemma failed_assertion_takes_no_optimizer_step_witness :
  exists s',
    Stage2.train_step trainer_0 batch_mismatched store_0
    = (Py.Raise (Py.AssertionError Stage2.fakes_message), s')
    /\ Stage2.generator_optimizer s' = Stage2.generator_optimizer store_0
    /\ Stage2.discriminator_optimizer s' = Stage2.discriminator_optimizer store_0.
Proof.
  destruct (train_step_mismatched store_0) as [s' H].
  exists s'. split; [exact H |].
  exact (failed_assertion_takes_no_optimizer_step
           trainer_0 batch_mismatched store_0 s' _ H (or_introl eq_refl)).
Defined.

Lemma epoch_stops_at_first_failing_step_witness :
  exists s2,
    Stage2.train_epoch trainer_0 [batch_0; batch_mismatched; batch_0] store_0
    = (Py.Raise (Py.AssertionError Stage2.fakes_message), s2).
Proof.
  destruct (run_steps_succeeds (Stage2.train_step trainer_0) [batch_0]
              (fun sample s Hin =>
                 train_step_trainer_0 sample s
                   (match Hin with
                    | or_introl E => or_introl E
                    | or_intror F => match F with end
                    end)) store_0)
    as (ls & s1 & Hrun).
  destruct (train_step_mismatched s1) as [s2 Hfail].
  exists s2.
  exact (proj1 (epoch_stops_at_first_failing_step trainer_0 [batch_0]
                  batch_mismatched [batch_0] store_0 s1 s2 ls _) Hrun Hfail).
Defined.

Lemma train_epoch_trainer_0 :
  exists r s',
    Stage2.train_epoch trainer_0 [batch_0; batch_0] store_0 = (Py.Ok r, s').
Proof.
  destruct (run_steps_succeeds (Stage2.train_step trainer_0) [batch_0; batch_0]
              (fun sample s Hin => train_step_trainer_0 sample s Hin) store_0)
    as (ls & s' & Hrun).
  exists (mean_report ls), s'.
  apply run_epoch_report; [| discriminate | exact Hrun].
  intros sample s0 l s1.
  apply train_step_kl_is_tensor, identity_networks_register_a_loss.
Qed.

Lemma report_keeps_the_weights_witness :
  exists r s',
    Stage2.train_epoch trainer_0 [batch_0; batch_0] store_0 = (Py.Ok r, s')
    /\ weights_hold r.
Proof.
  destruct train_epoch_trainer_0 as (r & s' & H).
  exists r, s'. split; [exact H |].
  exact (proj1 (report_keeps_the_weights trainer_0 [batch_0; batch_0] store_0 s' r) H).
Defined.

Lemma kl_loss_zero_only_at_standard_normal_witness :
  0 < Utils.kl_loss (logit 1) (logit 0).
Proof.
  assert (Hlen : length (values (logit 1)) = length (values (logit 0)))
    by reflexivity.
  assert (Hne : values (logit 1) <> []) by discriminate.
  apply (proj2 (kl_loss_zero_only_at_standard_normal (logit 1) (logit 0) Hlen Hne)).
  intros [H _]. inversion H as [| ? ? H1 _]. lra.
Defined.

Lemma fake_logits_oppose_the_networks_witness :
  Stage2.generator_loss
    (Stage2.step_losses (ones_like (logit 1))
       (Stage2.mkPredictions (logit 1) (logit 0) (logit 1)) (Py.Int 0))
  < Stage2.generator_loss
      (Stage2.step_losses (ones_like (logit 1))
         (Stage2.mkPredictions (logit 1) (logit 0) (logit 0)) (Py.Int 0)).
Proof.
  apply (fake_logits_oppose_the_networks (ones_like (logit 1)) (logit 1) (logit 0)
           (logit 0) (logit 1) (Py.Int 0)).
  - discriminate.
  - repeat constructor. lra.
Defined.

(** * Properties in binary32, and of the passes of a step *)

(** ** Rounding to binary32 *)

Module Float32Facts.
Import Float32.

Lemma powerRZ_2_nonneg (n : Z) : (0 <= n)%Z -> powerRZ 2 n = IZR (2 ^ n).
Proof.
  intros Hn. rewrite <- (Z2Nat.id n) by exact Hn.
  rewrite <- pow_powerRZ, pow_IZR. reflexivity.
Qed.

Lemma powerRZ_2_pos (e : Z) : 0 < powerRZ 2 e.
Proof. apply powerRZ_lt. lra. Qed.

Lemma powerRZ_2_le (a b : Z) : (a <= b)%Z -> powerRZ 2 a <= powerRZ 2 b.
Proof.
  intros H. replace b with (a + (b - a))%Z by lia.
  rewrite powerRZ_add by lra. rewrite (powerRZ_2_nonneg (b - a)) by lia.
  pose proof (powerRZ_2_pos a).
  assert (1 <= IZR (2 ^ (b - a))).
  { apply IZR_le. pose proof (Z.pow_pos_nonneg 2 (b - a)). lia. }
  nra.
Qed.

Lemma representable_0 : representable 0.
Proof.
  exists 0%Z, 0%Z. split; [simpl; lra | split; [reflexivity | lia]].
Qed.

Lemma representable_int (m : Z) : (Z.abs m < 2 ^ 24)%Z -> representable (IZR m).
Proof.
  intros H. exists m, 0%Z. split; [simpl; lra | split; [exact H | lia]].
Qed.

Lemma representable_pow2 (e : Z) :
  (-149 <= e <= 104)%Z -> representable (powerRZ 2 e).
Proof.
  intros H. exists 1%Z, e. split; [lra | split; [reflexivity | exact H]].
Qed.

Lemma representable_opp (x : R) : representable x -> representable (- x).
Proof.
  intros (m & e & -> & Hm & He). exists (- m)%Z, e.
  split; [rewrite opp_IZR; ring | split; [lia | exact He]].
Qed.

(** Every representable number is within the range. *)
Lemma representable_range (x : R) :
  representable x -> - overflow < x < overflow.
Proof.
  intros (m & e & -> & Hm & He).
  assert (Hp : 0 < powerRZ 2 e) by apply powerRZ_2_pos.
  assert (Hle : powerRZ 2 e <= IZR (2 ^ 104)).
  { rewrite <- powerRZ_2_nonneg by lia. apply powerRZ_2_le. lia. }
  assert (Hup : IZR (Z.abs m) * powerRZ 2 e <= IZR (2 ^ 24 - 1) * IZR (2 ^ 104)).
  { apply Rmult_le_compat.
    - apply IZR_le. lia.
    - lra.
    - apply IZR_le. lia.
    - exact Hle. }
  assert (Hlt : IZR (2 ^ 24 - 1) * IZR (2 ^ 104) < overflow).
  { unfold overflow. rewrite <- mult_IZR. apply IZR_lt. reflexivity. }
  assert (Habs : Rabs (IZR m * powerRZ 2 e) = IZR (Z.abs m) * powerRZ 2 e).
  { rewrite Rabs_mult, <- abs_IZR, (Rabs_pos_eq (powerRZ 2 e)) by lra.
    reflexivity. }
  assert (Hb : Rabs (IZR m * powerRZ 2 e) < overflow) by (rewrite Habs; lra).
  apply Rabs_def2 in Hb. lra.
Qed.

Lemma round_value (x : R) (f : F32) :
  rounds x f -> (forall f', rounds x f' -> f' = f) -> round x = f.
Proof.
  intros Hf Huniq. apply Huniq. unfold round.
  apply epsilon_spec. exists f. exact Hf.
Qed.

(** A representable exact result is the result. *)
Lemma round_exact (x : R) : representable x -> round x = Fin x.
Proof.
  intros Hx. pose proof (representable_range x Hx) as Hrange.
  apply round_value.
  - right; right. split; [exact Hrange |]. exists x. split; [| reflexivity].
    split; [exact Hx |]. intros z _.
    replace (x - x) with 0 by ring. rewrite Rabs_R0. apply Rabs_pos.
  - intros f' [[H _] | [[H _] | [_ (y & [_ Hy] & ->)]]]; [lra | lra |].
    specialize (Hy x Hx). replace (x - x) with 0 in Hy by ring.
    rewrite Rabs_R0 in Hy.
    assert (E : x - y = 0).
    { destruct (Req_dec (x - y) 0) as [E | E]; [exact E |].
      pose proof (Rabs_pos_lt _ E). lra. }
    f_equal. lra.
Qed.

(** An exact result beyond the range is an infinity. *)
Lemma round_overflow (x : R) : overflow <= x -> round x = PInf.
Proof.
  intros Hx.
  assert (Hpos : 0 < overflow) by (unfold overflow; apply IZR_lt; reflexivity).
  apply round_value.
  - left. split; [exact Hx | reflexivity].
  - intros f' [[_ ->] | [[H _] | [[_ H] _]]]; [reflexivity | lra | lra].
Qed.

(** The representable numbers around 1. *)
Lemma representable_near_one (z : R) :
  representable z ->
  z <= 1 - powerRZ 2 (-24) \/ z = 1 \/ 1 + powerRZ 2 (-23) <= z.
Proof.
  intros (m & e & -> & Hm & He).
  assert (H24 : powerRZ 2 (-24) * IZR (2 ^ 24) = 1).
  { rewrite <- (powerRZ_2_nonneg 24) by lia.
    rewrite <- powerRZ_add by lra. reflexivity. }
  assert (H23 : powerRZ 2 (-23) * IZR (2 ^ 23) = 1).
  { rewrite <- (powerRZ_2_nonneg 23) by lia.
    rewrite <- powerRZ_add by lra. reflexivity. }
  assert (Hp24 : 0 < powerRZ 2 (-24)) by apply powerRZ_2_pos.
  assert (Hp23 : 0 < powerRZ 2 (-23)) by apply powerRZ_2_pos.
  assert (Hhalf : powerRZ 2 (-23) = 2 * powerRZ 2 (-24)).
  { replace (-23)%Z with (1 + -24)%Z by lia.
    rewrite powerRZ_add by lra. simpl. lra. }
  destruct (Z_le_gt_dec (-23) e) as [Hhi | Hlo].
  - (* a multiple of 2^-23 *)
    assert (E : IZR m * powerRZ 2 e = IZR (m * 2 ^ (e + 23)) * powerRZ 2 (-23)).
    { rewrite mult_IZR, <- powerRZ_2_nonneg by lia.
      rewrite Rmult_assoc, <- powerRZ_add by lra.
      replace (e + 23 + -23)%Z with e by lia. reflexivity. }
    rewrite E. set (k := (m * 2 ^ (e + 23))%Z).
    destruct (Z.lt_trichotomy k (2 ^ 23)) as [Hk | [Hk | Hk]].
    + left. assert (IZR k <= IZR (2 ^ 23) - 1).
      { rewrite <- minus_IZR. apply IZR_le. lia. }
      nra.
    + right; left. rewrite Hk. lra.
    + right; right. assert (IZR (2 ^ 23) + 1 <= IZR k).
      { rewrite <- plus_IZR. apply IZR_le. lia. }
      nra.
  - (* too fine to reach 1 *)
    left.
    assert (Hpe : 0 < powerRZ 2 e) by apply powerRZ_2_pos.
    assert (Hle : powerRZ 2 e <= powerRZ 2 (-24)) by (apply powerRZ_2_le; lia).
    assert (Hm' : IZR m <= IZR (2 ^ 24) - 1).
    { rewrite <- minus_IZR. apply IZR_le. lia. }
    assert (H224 : 0 < IZR (2 ^ 24)) by (apply IZR_lt; reflexivity).
    destruct (Rle_dec (IZR m) 0) as [Hneg | Hposm].
    + assert (IZR m * powerRZ 2 e <= 0) by nra. nra.
    + assert (IZR m * powerRZ 2 e <= (IZR (2 ^ 24) - 1) * powerRZ 2 (-24)).
      { apply Rmult_le_compat; lra. }
      nra.
Qed.

(** An exact result just above 1 rounds to 1. *)
Lemma round_just_above_one (x : R) :
  1 <= x < 1 + powerRZ 2 (-25) -> round x = Fin 1.
Proof.
  intros [Hlo Hhi].
  assert (Hp25 : 0 < powerRZ 2 (-25)) by apply powerRZ_2_pos.
  assert (H24 : powerRZ 2 (-24) = 2 * powerRZ 2 (-25)).
  { replace (-24)%Z with (1 + -25)%Z by lia.
    rewrite powerRZ_add by lra. simpl. lra. }
  assert (H23 : powerRZ 2 (-23) = 4 * powerRZ 2 (-25)).
  { replace (-23)%Z with (2 + -25)%Z by lia.
    rewrite powerRZ_add by lra. simpl. lra. }
  assert (Hone : representable 1) by (apply (representable_int 1); reflexivity).
  assert (Hrange : - overflow < x < overflow).
  { pose proof (representable_range 1 Hone).
    assert (Hsmall : powerRZ 2 (-25) <= 1).
    { replace 1 with (powerRZ 2 0) by reflexivity. apply powerRZ_2_le. lia. }
    unfold overflow in *.
    assert (3 < IZR (2 ^ 128 - 2 ^ 103)) by (apply IZR_lt; reflexivity).
    lra. }
  assert (Hfar : forall z, representable z -> z <> 1 ->
            Rabs (x - 1) < Rabs (x - z)).
  { intros z Hz Hne. rewrite (Rabs_pos_eq (x - 1)) by lra.
    destruct (representable_near_one z Hz) as [H | [H | H]]; [| contradiction |].
    - rewrite Rabs_pos_eq by lra. lra.
    - rewrite Rabs_left by lra. lra. }
  apply round_value.
  - right; right. split; [exact Hrange |]. exists 1. split; [| reflexivity].
    split; [exact Hone |]. intros z Hz.
    destruct (Req_dec z 1) as [-> | Hne]; [lra |].
    left. apply Hfar; assumption.
  - intros f' [[H _] | [[H _] | [_ (y & [Hy Hnear] & ->)]]]; [lra | lra |].
    f_equal. destruct (Req_dec y 1) as [E | Hne]; [exact E |].
    exfalso. pose proof (Hfar y Hy Hne). specialize (Hnear 1 Hone). lra.
Qed.

Lemma exp_small_bounds (t : R) :
  0 < t <= / 2 -> 1 <= Rtrigo_def.exp t < 1 + 2 * t.
Proof.
  intros [Hpos Hle]. split.
  - pose proof (exp_ineq1_le t). lra.
  - pose proof (exp_ineq1 (- t) ltac:(lra)) as Hneg.
    assert (Hprod : Rtrigo_def.exp t * Rtrigo_def.exp (- t) = 1)
      by (rewrite <- exp_plus, Rplus_opp_r; apply exp_0).
    pose proof (exp_pos t) as Het.
    set (E := Rtrigo_def.exp t) in *.
    assert (H1 : E * (1 - t) < 1).
    { rewrite <- Hprod. apply Rmult_lt_compat_l; lra. }
    destruct (Rlt_dec E (1 + 2 * t)) as [Hlt | Hge]; [exact Hlt |].
    exfalso.
    assert (H2 : 0 <= (E - (1 + 2 * t)) * (1 - t)) by (apply Rmult_le_pos; lra).
    assert (H3 : 0 <= t * (1 - 2 * t)) by (apply Rmult_le_pos; lra).
    lra.
Qed.

Lemma exp_128_overflows : overflow <= Rtrigo_def.exp 128.
Proof.
  assert (Hln : ln 2 <= 1).
  { pose proof (exp_ineq1_le 1) as He.
    assert (H : ln 2 <= ln (Rtrigo_def.exp 1)).
    { destruct (Req_dec 2 (Rtrigo_def.exp 1)) as [<- | Hne]; [lra |].
      left. apply ln_increasing; lra. }
    rewrite ln_exp in H. exact H. }
  assert (Hpow : (2 ^ 128)%R = Rtrigo_def.exp (INR 128 * ln 2)).
  { rewrite <- ln_pow by lra. rewrite exp_ln; [reflexivity |].
    apply pow_lt. lra. }
  assert (Hle : Rtrigo_def.exp (INR 128 * ln 2) <= Rtrigo_def.exp 128).
  { assert (H128 : INR 128 = 128) by (rewrite INR_IZR_INZ; reflexivity).
    destruct (Req_dec (INR 128 * ln 2) 128) as [-> | Hne]; [lra |].
    left. apply exp_increasing. rewrite H128 in *. nra. }
  assert (Hov : overflow <= (2 ^ 128)%R).
  { unfold overflow. rewrite pow_IZR. apply IZR_le. simpl Z.of_nat. lia. }
  lra.
Qed.

End Float32Facts.

(** *** The program's formulas in binary32 *)

Module Float32Programs.
Import Float32 Float32Facts.

Lemma add_fin (x y z : R) :
  x + y = z -> representable z -> add (Fin x) (Fin y) = Fin z.
Proof. intros <- Hz. apply round_exact, Hz. Qed.

Lemma mul_fin (x y z : R) :
  x * y = z -> representable z -> mul (Fin x) (Fin y) = Fin z.
Proof. intros <- Hz. apply round_exact, Hz. Qed.

Lemma exp_zero : Float32.exp (Fin 0) = Fin 1.
Proof.
  unfold Float32.exp. rewrite exp_0.
  apply round_exact. apply (representable_int 1). reflexivity.
Qed.

Lemma representable_1 : representable 1.
Proof. apply (representable_int 1). reflexivity. Qed.

(** The terms of [kl_loss] at mean 0 and a log-sigma of 2^-30. *)
Lemma kl_terms_tiny_log_sigma :
  add (neg (Fin (powerRZ 2 (-30))))
      (mul (Fin 0.5)
         (add (add (Fin (-1)) (Float32.exp (mul (Fin 2.0) (Fin (powerRZ 2 (-30))))))
              (mul (Fin 0) (Fin 0))))
  = Fin (- powerRZ 2 (-30)).
Proof.
  assert (Hdouble : 2.0 * powerRZ 2 (-30) = powerRZ 2 (-29)).
  { replace (-29)%Z with (1 + -30)%Z by lia.
    rewrite powerRZ_add by lra. simpl. lra. }
  rewrite (mul_fin 2.0 (powerRZ 2 (-30)) (powerRZ 2 (-29)) Hdouble)
    by (apply representable_pow2; lia).
  assert (Hexp : Float32.exp (Fin (powerRZ 2 (-29))) = Fin 1).
  { unfold Float32.exp. apply round_just_above_one.
    assert (Hpos : 0 < powerRZ 2 (-29)) by apply powerRZ_2_pos.
    assert (Hhalf : powerRZ 2 (-29) <= / 2).
    { replace (/ 2) with (powerRZ 2 (-1)) by (simpl; lra).
      apply powerRZ_2_le. lia. }
    pose proof (exp_small_bounds (powerRZ 2 (-29)) (conj Hpos Hhalf)) as [Hlo Hhi].
    assert (H28 : 2 * powerRZ 2 (-29) = powerRZ 2 (-28)).
    { replace (-28)%Z with (1 + -29)%Z by lia.
      rewrite powerRZ_add by lra. simpl. lra. }
    assert (H25 : powerRZ 2 (-28) <= powerRZ 2 (-26)) by (apply powerRZ_2_le; lia).
    assert (H26 : powerRZ 2 (-25) = 2 * powerRZ 2 (-26)).
    { replace (-25)%Z with (1 + -26)%Z by lia.
      rewrite powerRZ_add by lra. simpl. lra. }
    pose proof (powerRZ_2_pos (-26)). lra. }
  rewrite Hexp.
  rewrite (add_fin (-1) 1 0) by (lra || apply representable_0).
  rewrite (mul_fin 0 0 0) by (lra || apply representable_0).
  rewrite (add_fin 0 0 0) by (lra || apply representable_0).
  rewrite (mul_fin 0.5 0 0) by (lra || apply representable_0).
  unfold neg. apply add_fin; [lra |].
  apply representable_opp, representable_pow2. lia.
Qed.

(** The terms of [kl_loss] at mean 0 and log-sigma 0. *)
Lemma kl_terms_standard_normal :
  add (neg (Fin 0))
      (mul (Fin 0.5)
         (add (add (Fin (-1)) (Float32.exp (mul (Fin 2.0) (Fin 0))))
              (mul (Fin 0) (Fin 0))))
  = Fin 0.
Proof.
  rewrite (mul_fin 2.0 0 0) by (lra || apply representable_0).
  rewrite exp_zero.
  rewrite (add_fin (-1) 1 0) by (lra || apply representable_0).
  rewrite (mul_fin 0 0 0) by (lra || apply representable_0).
  rewrite (add_fin 0 0 0) by (lra || apply representable_0).
  rewrite (mul_fin 0.5 0 0) by (lra || apply representable_0).
  unfold neg. apply add_fin; [lra | apply representable_0].
Qed.

Lemma reduce_mean_single (x : R) :
  representable x -> reduce_mean [Fin x] = Fin x.
Proof.
  intros Hx. unfold reduce_mean. cbn [fold_left length].
  rewrite (add_fin 0 x x) by (lra || exact Hx).
  unfold div_count. destruct (Req_dec_T (INR 1) 0) as [E | _].
  - simpl in E. lra.
  - replace (x / INR 1) with x by (simpl; field). apply round_exact, Hx.
Qed.

Lemma sum_of_zeros (n : nat) : fold_left add (repeat (Fin 0) n) (Fin 0) = Fin 0.
Proof.
  induction n as [| n IH]; cbn [repeat fold_left]; [reflexivity |].
  rewrite (add_fin 0 0 0) by (lra || apply representable_0). exact IH.
Qed.

Lemma reduce_mean_zeros (n : nat) :
  (0 < n)%nat -> reduce_mean (repeat (Fin 0) n) = Fin 0.
Proof.
  intros Hn. unfold reduce_mean. rewrite sum_of_zeros, repeat_length.
  unfold div_count. destruct (Req_dec_T (INR n) 0) as [E | Hne].
  - apply (INR_eq n 0) in E. lia.
  - replace (0 / INR n) with 0 by (field; exact Hne).
    apply round_exact, representable_0.
Qed.

Lemma kl_loss_zeros (n : nat) :
  (0 < n)%nat ->
  Float32.kl_loss (repeat (Fin 0) n) (repeat (Fin 0) n) = Fin 0.
Proof.
  intros Hn. unfold Float32.kl_loss.
  assert (E : forall k,
    Float32.zip_with add (map neg (repeat (Fin 0) k))
      (map (mul (Fin 0.5))
         (Float32.zip_with add
            (map (add (Fin (-1)))
               (map Float32.exp (map (mul (Fin 2.0)) (repeat (Fin 0) k))))
            (map (fun m => mul m m) (repeat (Fin 0) k))))
    = repeat (Fin 0) k).
  { induction k as [| k IH]; cbn [repeat map Float32.zip_with]; [reflexivity |].
    rewrite IH. f_equal. apply kl_terms_standard_normal. }
  rewrite E. apply reduce_mean_zeros, Hn.
Qed.

Lemma exp_128 : Float32.exp (Fin 128) = PInf.
Proof. unfold Float32.exp. apply round_overflow, exp_128_overflows. Qed.

Lemma infinity_times_zero : mul PInf (Fin 0) = NaN.
Proof.
  unfold mul, scale_infinity.
  destruct (total_order_T 0 0) as [[H | _] | H]; [lra | reflexivity | lra].
Qed.

(** With zero noise and finite standard deviations the sample is the mean. *)
Lemma sample_normal_zero_noise_finite (mean log_var : Tensor32) :
  Forall2 (fun m s => exists x e, m = Fin x /\ representable x
                                  /\ Float32.exp s = Fin e) mean log_var ->
  Float32.sample_normal mean log_var (map (fun _ => Fin 0) mean) = mean.
Proof.
  unfold Float32.sample_normal.
  induction 1 as [| m s mean log_var (x & e & -> & Hx & He) _ IH];
    cbn [map Float32.zip_with]; [reflexivity |].
  rewrite IH, He.
  rewrite (mul_fin e 0 0) by (lra || apply representable_0).
  rewrite (add_fin x 0 x) by (lra || exact Hx). reflexivity.
Qed.

End Float32Programs.

(** C3, the claim as written: in binary32 [kl_loss] is negative at mean 0 and
    log-sigma 2^-30, because [exp] of 2^-29 rounds to 1. *)
Lemma kl_loss_negative_in_float32 :
  exists v,
    Float32.kl_loss [Float32.Fin 0] [Float32.Fin (powerRZ 2 (-30))]
    = Float32.Fin v
    /\ v < 0.
Proof.
  exists (- powerRZ 2 (-30)). split.
  - unfold Float32.kl_loss. cbn [map Float32.zip_with].
    rewrite Float32Programs.kl_terms_tiny_log_sigma.
    apply Float32Programs.reduce_mean_single, Float32Facts.representable_opp,
      Float32Facts.representable_pow2.
    lia.
  - pose proof (Float32Facts.powerRZ_2_pos (-30)). lra.
Qed.

(** C5, the claim as written: in binary32, with a log-sigma of 128 and zero
    noise, [sample_normal] returns NaN, not the mean. *)
Lemma sample_normal_zero_noise_not_mean :
  Float32.sample_normal [Float32.Fin 1] [Float32.Fin 128] [Float32.Fin 0]
  = [Float32.NaN]
  /\ Float32.sample_normal [Float32.Fin 1] [Float32.Fin 128] [Float32.Fin 0]
     <> [Float32.Fin 1].
Proof.
  assert (E : Float32.sample_normal [Float32.Fin 1] [Float32.Fin 128]
                                    [Float32.Fin 0] = [Float32.NaN]).
  { unfold Float32.sample_normal. cbn [map Float32.zip_with].
    rewrite Float32Programs.exp_128, Float32Programs.infinity_times_zero.
    reflexivity. }
  split; [exact E | rewrite E; discriminate].
Qed.

Section Stage2Passes.
Context `{RG : RandomGenerator} `{GL : !Stage1.GeneratorLayers}
        `{NW : !Stage2.Networks}.
Import Stage2.

(** *** The forward passes behind the predictions of a step *)

Lemma forward_pass_inversion (self : Stage2Trainer) (training : bool)
  (sample : Batch) (s s1 : Store) (p : Predictions) :
  forward_pass self training sample s = (Py.Ok p, s1) ->
  forward_passes self training sample s p s1.
Proof.
  intros H. unfold forward_pass, bind in H.
  destruct (tf_random_normal [batch_size sample; noise_size self] s)
    as [[noise_z | e] sa] eqn:Hn; [| discriminate].
  destruct (call_stage_1_generator self (text_tensor sample, noise_z) false sa)
    as [[outputs | e] sb] eqn:H1; [| discriminate].
  destruct (call_generator (fst (fst outputs), text_tensor sample) training sb)
    as [[fake_images_large | e] sc] eqn:Hg; [| discriminate].
  unfold assert in H.
  destruct (shape_eqb (shape fake_images_large) (shape (image_large sample)))
    eqn:Hfakes; [| discriminate].
  unfold ret at 1 in H.
  destruct (call_discriminator (image_large sample, text_tensor sample) training sc)
    as [[real | e] sd] eqn:Hr; [| discriminate].
  destruct (call_discriminator (wrong_image_large sample, text_tensor sample)
              training sd) as [[wrong | e] se] eqn:Hw; [| discriminate].
  destruct (call_discriminator (fake_images_large, text_tensor sample) training se)
    as [[fake | e] sf] eqn:Hf; [| discriminate].
  destruct (shape_eqb (shape real) (shape wrong)
            && shape_eqb (shape wrong) (shape fake)) eqn:Hshapes; [| discriminate].
  unfold ret in H. injection H as <- <-.
  exists noise_z, sa, outputs, sb, fake_images_large, sc, sd, se.
  repeat (split; [assumption |]). exact Hshapes.
Qed.

Lemma forward_passes_run (self : Stage2Trainer) (training : bool)
  (sample : Batch) (s s1 : Store) (p : Predictions) :
  forward_passes self training sample s p s1 ->
  forward_pass self training sample s = (Py.Ok p, s1).
Proof.
  intros (noise_z & sa & outputs & sb & fake & sc & sd & se
          & Hn & H1 & Hg & Hfakes & Hr & Hw & Hf & Hshapes).
  unfold forward_pass, bind. rewrite Hn, H1, Hg.
  unfold assert. rewrite Hfakes. unfold ret at 1. rewrite Hr, Hw, Hf, Hshapes.
  unfold ret. destruct p; reflexivity.
Qed.

Lemma call_discriminator_keeps_generator (inputs : Tensor * Tensor)
  (training : bool) (s s' : Store) (out : Tensor) :
  call_discriminator inputs training s = (Py.Ok out, s') ->
  model_generator s' = model_generator s.
Proof.
  unfold call_discriminator.
  destruct (Keras.invoke discriminator_call (model_discriminator s) inputs
              training (rng s)) as [[o layer] g].
  intros H. injection H as _ <-. reflexivity.
Qed.

Lemma call_generator_layer (inputs : Tensor * Tensor) (training : bool)
  (s s' : Store) (out : Tensor) :
  call_generator inputs training s = (Py.Ok out, s') ->
  model_generator s'
  = snd (fst (generator_call (Keras.clear_losses (model_generator s)) inputs
                             training (rng s))).
Proof.
  unfold call_generator, Keras.invoke.
  destruct (generator_call (Keras.clear_losses (model_generator s)) inputs
              training (rng s)) as [[o layer] g].
  intros H. injection H as _ <-. reflexivity.
Qed.


Lemma val_step_kl_of_generator_pass (self : Stage2Trainer) (sample : Batch)
  (s s2 : Store) (l : StepLosses) :
  val_step self sample s = (Py.Ok l, s2) ->
  exists inputs layer g,
    generator_pass self sample s inputs layer g
    /\ kl_loss l
       = Py.sum (Keras.losses (snd (fst (generator_call layer inputs false g)))).
Proof.
  intros H.
  destruct (val_step_inversion self sample s s2 l H) as (p & Hf & ->).
  destruct (forward_pass_inversion self false sample s s2 p Hf)
    as (noise_z & sa & outputs & sb & fake & sc & sd & se
        & Hn & H1 & Hg & _ & Hr & Hw & Hfk & _).
  exists (fst (fst outputs), text_tensor sample),
         (Keras.clear_losses (model_generator sb)), (rng sb).
  split.
  - exists noise_z, sa, outputs, sb. repeat split; assumption.
  - cbn [kl_loss step_losses].
    rewrite (call_discriminator_keeps_generator _ _ _ _ _ Hfk),
            (call_discriminator_keeps_generator _ _ _ _ _ Hw),
            (call_discriminator_keeps_generator _ _ _ _ _ Hr),
            (call_generator_layer _ _ _ _ _ Hg).
    reflexivity.
Qed.

End Stage2Passes.

Section Stage2ReturnedRecord.
Context `{RG : RandomGenerator} `{GL : !Stage1.GeneratorLayers}
        `{NW : !Stage2.Networks}.
Import Stage2.

(** *** What a returned record says about the epoch *)

Lemma run_epoch_inversion (step : Batch -> M StepLosses) (samples : list Batch)
  (s s' : Store) (r : Report) :
  run_epoch step samples s = (Py.Ok r, s') ->
  samples <> []
  /\ exists ls,
       run_steps step samples s = (Py.Ok ls, s')
       /\ length ls = length samples
       /\ r = mean_report ls.
Proof.
  intros H. unfold run_epoch, bind in H.
  rewrite epoch_loop_run_steps in H.
  destruct (run_steps step samples s) as [[ls | e] s1] eqn:Hrun; [| discriminate].
  unfold lift in H. simpl in H.
  pose proof (run_steps_length step samples s ls s1 Hrun) as Hlen.
  set (acc := fold_left accumulate ls initial_accumulators) in *.
  set (idx := last_index 0 None (length samples)) in *.
  unfold epoch_report in H.
  destruct (epoch_mean (acc_generator_loss acc) idx) as [g |] eqn:Hg;
    [| discriminate].
  destruct (epoch_mean (acc_discriminator_loss acc) idx) as [d |] eqn:Hd;
    [| discriminate].
  destruct (epoch_mean (acc_kl_loss acc) idx) as [k |] eqn:Hk; [| discriminate].
  destruct (epoch_mean (acc_disc_real_loss acc) idx) as [re |] eqn:Hre;
    [| discriminate].
  destruct (epoch_mean (acc_disc_wrong_loss acc) idx) as [w |] eqn:Hw;
    [| discriminate].
  destruct (epoch_mean (acc_disc_fake_loss acc) idx) as [f |] eqn:Hf;
    [| discriminate].
  simpl in H. injection H as <- <-.
  apply epoch_mean_value in Hg, Hd, Hk, Hre, Hw, Hf.
  destruct Hg as (i & Hi & ->). destruct Hd as (i0 & Hi0 & ->).
  destruct Hk as (i1 & Hi1 & ->). destruct Hre as (i2 & Hi2 & ->).
  destruct Hw as (i3 & Hi3 & ->). destruct Hf as (i4 & Hi4 & ->).
  rewrite Hi in Hi0, Hi1, Hi2, Hi3, Hi4.
  injection Hi0 as <-. injection Hi1 as <-. injection Hi2 as <-.
  injection Hi3 as <-. injection Hi4 as <-.
  destruct samples as [| sample rest]; [discriminate Hi |].
  split; [discriminate |].
  exists ls. split; [reflexivity | split; [exact Hlen |]].
  unfold idx in Hi. cbn [length last_index] in Hi. injection Hi as Hi.
  assert (Hcount : (i + 1)%nat = length ls).
  { rewrite Hlen. cbn [length]. lia. }
  rewrite Hcount.
  unfold mean_report, batch_mean, acc.
  rewrite acc_generator_loss_fold, acc_discriminator_loss_fold, acc_kl_loss_fold,
    acc_disc_real_loss_fold, acc_disc_wrong_loss_fold, acc_disc_fake_loss_fold.
  rewrite !fold_add_to_R, !to_R_tensors, map_map.
  cbn [initial_accumulators acc_generator_loss acc_discriminator_loss acc_kl_loss
       acc_disc_real_loss acc_disc_wrong_loss acc_disc_fake_loss Py.to_R].
  rewrite !Rplus_0_l. reflexivity.
Qed.

End Stage2ReturnedRecord.

(** ** The claims on the numeric helpers, over the reals and in binary32 *)


(** C3 (amended): over exact reals, on tensors of one shape with at least
    one element, [kl_loss] is the mean of
    [-log_sigma + 0.5 * (-1 + exp(2 * log_sigma) + mean^2)], it is 0 when
    every mean and every log-sigma is 0, and it is never negative; in
    binary32 it is still exactly 0 when every mean and every log-sigma is
    0. *)
Theorem kl_loss_exact_reals_and_float32_zero :
  (forall mean log_sigma : Tensor,
      length (values mean) = length (values log_sigma) ->
      values mean <> [] ->
      Utils.kl_loss mean log_sigma =
        total (zip_with kl_term (values log_sigma) (values mean))
        / INR (length (values mean))
      /\ (Forall (fun v => v = 0) (values mean) ->
          Forall (fun v => v = 0) (values log_sigma) ->
          Utils.kl_loss mean log_sigma = 0)
      /\ 0 <= Utils.kl_loss mean log_sigma)
  /\ (forall n : nat,
      (0 < n)%nat ->
      Float32.kl_loss (repeat (Float32.Fin 0) n) (repeat (Float32.Fin 0) n)
      = Float32.Fin 0).
Proof.
  split.
  - apply kl_loss_zero_and_nonneg.
  - apply Float32Programs.kl_loss_zeros.
Qed.

Lemma kl_loss_exact_reals_and_float32_zero_witness :
  (Utils.kl_loss (mkTensor [1%nat; 2%nat] [3; 0]) (mkTensor [1%nat; 2%nat] [0; 1])
   = total (zip_with kl_term [0; 1] [3; 0]) / INR 2
   /\ 0 <= Utils.kl_loss (mkTensor [1%nat; 2%nat] [3; 0])
                         (mkTensor [1%nat; 2%nat] [0; 1]))
  /\ Float32.kl_loss (repeat (Float32.Fin 0) 2) (repeat (Float32.Fin 0) 2)
     = Float32.Fin 0.
Proof.
  split.
  - assert (Hlen : length (values (mkTensor [1%nat; 2%nat] [3; 0]))
                   = length (values (mkTensor [1%nat; 2%nat] [0; 1])))
      by reflexivity.
    assert (Hne : values (mkTensor [1%nat; 2%nat] [3; 0]) <> []) by discriminate.
    destruct (proj1 kl_loss_exact_reals_and_float32_zero
                (mkTensor [1%nat; 2%nat] [3; 0]) (mkTensor [1%nat; 2%nat] [0; 1])
                Hlen Hne) as (Hmean & _ & Hpos).
    split; [exact Hmean | exact Hpos].
  - apply (proj2 kl_loss_exact_reals_and_float32_zero 2%nat). lia.
Defined.

Section SampleNormalBinary32.
Context `{RG : RandomGenerator}.

(** C5 (amended): over exact reals the sample is
    [mean + exp(log_sigma) * noise], so that two runs whose generators yield
    the same noise return the same sample, and a draw of zeros returns
    [mean] itself; in binary32 a draw of zeros returns [mean] when every
    mean is a finite number and [exp] of every log-sigma is finite. *)
Theorem sample_normal_exact_reals_and_finite_float32 :
  (forall (mean log_var epsilon : Tensor) (g1 g1' g2 g2' : Rng),
      same_shape mean log_var ->
      random_normal (shape mean) g1 = (epsilon, g1') ->
      random_normal (shape mean) g2 = (epsilon, g2') ->
      fst (Utils.sample_normal mean log_var g1)
        = tadd mean (tmul (texp log_var) epsilon)
      /\ fst (Utils.sample_normal mean log_var g1)
         = fst (Utils.sample_normal mean log_var g2)
      /\ (epsilon = zeros_like mean ->
          fst (Utils.sample_normal mean log_var g1) = mean))
  /\ (forall mean log_var : Float32.Tensor32,
      Forall2 (fun m s => exists x e,
                 m = Float32.Fin x /\ Float32.representable x
                 /\ Float32.exp s = Float32.Fin e) mean log_var ->
      Float32.sample_normal mean log_var (map (fun _ => Float32.Fin 0) mean)
      = mean).
Proof.
  split.
  - apply sample_normal_deterministic_and_zero_noise.
  - apply Float32Programs.sample_normal_zero_noise_finite.
Qed.

End SampleNormalBinary32.

Lemma sample_normal_exact_reals_and_finite_float32_witness :
  fst (Utils.sample_normal (mkTensor [1%nat; 2%nat] [3; -1])
                           (mkTensor [1%nat; 2%nat] [0; 1]) 0%nat)
  = mkTensor [1%nat; 2%nat] [3; -1]
  /\ Float32.sample_normal [Float32.Fin 1] [Float32.Fin 0] [Float32.Fin 0]
     = [Float32.Fin 1].
Proof.
  split.
  - assert (Hs : same_shape (mkTensor [1%nat; 2%nat] [3; -1])
                            (mkTensor [1%nat; 2%nat] [0; 1]))
      by (split; reflexivity).
    assert (Hd : random_normal (shape (mkTensor [1%nat; 2%nat] [3; -1])) 0%nat
                 = (mkTensor [1%nat; 2%nat] [0; 0], 1%nat)) by reflexivity.
    destruct (proj1 (sample_normal_exact_reals_and_finite_float32
                       (RG := zero_noise))
                (mkTensor [1%nat; 2%nat] [3; -1]) (mkTensor [1%nat; 2%nat] [0; 1])
                (mkTensor [1%nat; 2%nat] [0; 0]) 0%nat 1%nat 0%nat 1%nat
                Hs Hd Hd) as (_ & _ & Hzero).
    apply Hzero. reflexivity.
  - apply (proj2 (sample_normal_exact_reals_and_finite_float32
                    (RG := zero_noise))
             [Float32.Fin 1] [Float32.Fin 0]).
    constructor; [| constructor].
    exists 1, 1. split; [reflexivity |].
    split; [apply Float32Programs.representable_1 | apply Float32Programs.exp_zero].
Defined.

(** ** The claims on the stage-2 trainer *)

Section Stage2StepsAndEpochs.
Context `{RG : RandomGenerator} `{GL : !Stage1.GeneratorLayers}
        `{NW : !Stage2.Networks}.
Import Stage2.

(** C1 (amended): a stage-2 training or validation step returns exactly
    when its forward passes go through, and then its predictions are the
    outputs of the discriminator on the real images, on the wrong images and
    on the fake images that the generator made in this step; the
    discriminator loss is the real-image term plus half the wrong-image term
    plus half the fake-image term, each the mean cross entropy on the logits
    of the corresponding prediction; the wrong and fake terms target 0, the
    real term targets 0.9 in the training step and 1 in the validation step
    and in [DiscriminatorStage1.loss]. *)
Theorem discriminator_loss_of_three_predictions :
  (forall (self : Stage2Trainer) (sample : Batch) (s s2 : Store) (l : StepLosses),
      train_step self sample s = (Py.Ok l, s2) ->
      exists p s1,
        forward_passes self true sample s p s1
        /\ disc_real_loss l
           = BinaryCrossentropy (fill (shape (real_predictions p)) 0.9)
                                (real_predictions p)
        /\ disc_wrong_loss l
           = BinaryCrossentropy (zeros_like (wrong_predictions p))
                                (wrong_predictions p)
        /\ disc_fake_loss l
           = BinaryCrossentropy (zeros_like (fake_predictions p))
                                (fake_predictions p)
        /\ discriminator_loss l
           = disc_real_loss l + 0.5 * disc_wrong_loss l + 0.5 * disc_fake_loss l)
  /\ (forall (self : Stage2Trainer) (sample : Batch) (s s1 : Store) (p : Predictions),
      forward_passes self true sample s p s1 ->
      exists l s2, train_step self sample s = (Py.Ok l, s2))
  /\ (forall (self : Stage2Trainer) (sample : Batch) (s s2 : Store) (l : StepLosses),
      val_step self sample s = (Py.Ok l, s2) ->
      exists p,
        forward_passes self false sample s p s2
        /\ disc_real_loss l
           = BinaryCrossentropy (ones_like (real_predictions p))
                                (real_predictions p)
        /\ disc_wrong_loss l
           = BinaryCrossentropy (zeros_like (wrong_predictions p))
                                (wrong_predictions p)
        /\ disc_fake_loss l
           = BinaryCrossentropy (zeros_like (fake_predictions p))
                                (fake_predictions p)
        /\ discriminator_loss l
           = disc_real_loss l + 0.5 * disc_wrong_loss l + 0.5 * disc_fake_loss l)
  /\ (forall (self : Stage2Trainer) (sample : Batch) (s s1 : Store) (p : Predictions),
      forward_passes self false sample s p s1 ->
      exists l, val_step self sample s = (Py.Ok l, s1))
  /\ (forall real wrong fake : Tensor,
      Discriminators.loss real wrong fake
      = BinaryCrossentropy (ones_like real) real
        + 0.5 * BinaryCrossentropy (zeros_like wrong) wrong
        + 0.5 * BinaryCrossentropy (zeros_like fake) fake)
  /\ (forall y_true y_pred : Tensor,
      BinaryCrossentropy y_true y_pred
      = reduce_mean (tzip cross_entropy y_true y_pred)).
Proof.
  split; [| split; [| split; [| split; [| split]]]].
  - intros self sample s s2 l H.
    destruct (train_step_inversion self sample s s2 l H) as (p & s1 & Hf & ->).
    exists p, s1. split; [apply forward_pass_inversion, Hf |].
    simpl. repeat split; reflexivity.
  - intros self sample s s1 p Hf. apply forward_passes_run in Hf.
    destruct (train_step_of_forward_pass self sample s s1 p Hf) as [s2 E].
    eexists; exists s2. exact E.
  - intros self sample s s2 l H.
    destruct (val_step_inversion self sample s s2 l H) as (p & Hf & ->).
    exists p. split; [apply forward_pass_inversion, Hf |].
    simpl. repeat split; reflexivity.
  - intros self sample s s1 p Hf. apply forward_passes_run in Hf.
    eexists. apply val_step_of_forward_pass, Hf.
  - intros real wrong fake. unfold Discriminators.loss, BinaryCrossentropy. lra.
  - apply binary_crossentropy_is_mean_cross_entropy.
Qed.


(** C10: with an empty loader both epochs raise instead of returning a
    record, the accumulators still being the int 0 and, whatever the
    accumulators, the loop variable being unbound; an epoch that returns a
    record has run over a loader that is not empty, and every entry of the
    record is the sum of its component over the steps divided by the number
    of batches of the loader. *)
Theorem epoch_divides_by_the_number_of_batches :
  (forall (self : Stage2Trainer) (s : Store),
      train_epoch self [] s
      = (Py.Raise (Py.AttributeError "'int' object has no attribute 'numpy'"), s)
      /\ val_epoch self [] s
         = (Py.Raise (Py.AttributeError "'int' object has no attribute 'numpy'"), s))
  /\ (forall acc : Accumulators, Py.succeeded (epoch_report acc None) = false)
  /\ (forall (acc : Py.Num) (batch_idx : option nat) (v : R),
         epoch_mean acc batch_idx = Py.Ok v ->
         exists i, batch_idx = Some i /\ v = Py.to_R acc / INR (i + 1))
  /\ (forall (step : Batch -> M StepLosses) (samples : list Batch)
             (s s' : Store) (acc : Accumulators) (batch_idx : option nat),
         samples <> [] ->
         epoch_loop step samples 0 initial_accumulators None s
         = (Py.Ok (acc, batch_idx), s') ->
         exists i, batch_idx = Some i /\ (i + 1 = length samples)%nat)
  /\ (forall (self : Stage2Trainer) (loader : list Batch) (s s' : Store) (r : Report),
         train_epoch self loader s = (Py.Ok r, s') ->
         loader <> []
         /\ exists ls,
              run_steps (train_step self) loader s = (Py.Ok ls, s')
              /\ length ls = length loader
              /\ r = mean_report ls
              /\ report_generator_loss r
                 = total (map generator_loss ls) / INR (length loader))
  /\ (forall (self : Stage2Trainer) (loader : list Batch) (s s' : Store) (r : Report),
         val_epoch self loader s = (Py.Ok r, s') ->
         loader <> []
         /\ exists ls,
              run_steps (val_step self) loader s = (Py.Ok ls, s')
              /\ length ls = length loader
              /\ r = mean_report ls
              /\ report_generator_loss r
                 = total (map generator_loss ls) / INR (length loader)).
Proof.
  assert (Hrun : forall (step : Batch -> M StepLosses) (samples : list Batch)
                        (s s' : Store) (r : Report),
            run_epoch step samples s = (Py.Ok r, s') ->
            samples <> []
            /\ exists ls,
                 run_steps step samples s = (Py.Ok ls, s')
                 /\ length ls = length samples
                 /\ r = mean_report ls
                 /\ report_generator_loss r
                    = total (map generator_loss ls) / INR (length samples)).
  { intros step samples s s' r H.
    destruct (run_epoch_inversion step samples s s' r H)
      as (Hne & ls & Hsteps & Hlen & ->).
    split; [exact Hne |]. exists ls.
    repeat (split; [assumption || reflexivity |]).
    cbn [mean_report report_generator_loss]. unfold batch_mean.
    rewrite Hlen. reflexivity. }
  split; [| split; [| split; [| split; [| split]]]].
  - intros self s. split; reflexivity.
  - intros acc. unfold epoch_report, epoch_mean.
    destruct (acc_generator_loss acc); reflexivity.
  - apply epoch_mean_value.
  - intros step samples s s' acc batch_idx Hne H.
    rewrite epoch_loop_run_steps in H.
    destruct (run_steps step samples s) as [[ls | e] s1]; [| discriminate].
    injection H as _ <- _.
    destruct samples as [| sample rest]; [congruence |].
    simpl. exists (length rest). split; [reflexivity | lia].
  - intros self loader s s' r. apply Hrun.
  - intros self loader s s' r. apply Hrun.
Qed.

End Stage2StepsAndEpochs.


Lemma discriminator_loss_of_three_predictions_witness :
  exists l s2 p s1,
    Stage2.train_step trainer_0 batch_0 store_0 = (Py.Ok l, s2)
    /\ forward_passes trainer_0 true batch_0 store_0 p s1
    /\ Stage2.disc_real_loss l
       = BinaryCrossentropy (fill (shape (Stage2.real_predictions p)) 0.9)
                            (Stage2.real_predictions p)
    /\ Stage2.discriminator_loss l
       = Stage2.disc_real_loss l + 0.5 * Stage2.disc_wrong_loss l
         + 0.5 * Stage2.disc_fake_loss l.
Proof.
  pose proof (forward_pass_inversion trainer_0 true batch_0 store_0 _ predictions_0
                forward_pass_0) as Hpasses.
  destruct (proj1 (proj2 (discriminator_loss_of_three_predictions
                            (RG := zero_noise) (GL := identity_layers)
                            (NW := identity_networks)))
                  trainer_0 batch_0 store_0 _ predictions_0 Hpasses)
    as (l & s2 & Hstep).
  destruct (proj1 (discriminator_loss_of_three_predictions
                     (RG := zero_noise) (GL := identity_layers)
                     (NW := identity_networks))
                  trainer_0 batch_0 store_0 s2 l Hstep)
    as (p & s1 & Hp & Hreal & _ & _ & Hsum).
  exists l, s2, p, s1.
  split; [exact Hstep | split; [exact Hp | split; [exact Hreal | exact Hsum]]].
Defined.


Lemma epoch_divides_by_the_number_of_batches_witness :
  exists r s' ls,
    Stage2.train_epoch trainer_0 [batch_0; batch_0] store_0 = (Py.Ok r, s')
    /\ length ls = 2%nat
    /\ r = mean_report ls
    /\ Stage2.report_generator_loss r
       = total (map Stage2.generator_loss ls) / INR 2.
Proof.
  destruct train_epoch_trainer_0 as (r & s' & Hepoch).
  destruct (proj1 (proj2 (proj2 (proj2 (proj2
              (epoch_divides_by_the_number_of_batches
                 (RG := zero_noise) (GL := identity_layers)
                 (NW := identity_networks))))))
              trainer_0 [batch_0; batch_0] store_0 s' r Hepoch)
    as (_ & ls & _ & Hlen & Hr & Hg).
  exists r, s', ls.
  split; [exact Hepoch | split; [exact Hlen | split; [exact Hr | exact Hg]]].
Defined.
